(** * The Neme modal editor widget (nemetextwidget.py)

    A shallow embedding of [NemeTextWidget]: the number-prefix
    accumulator, the mode switch [setMode], the scoped read-write / undo
    context managers and the key dispatcher [keyPressEvent], together
    with a reference model of the part of the QScintilla text component
    that the dispatcher drives.

    Python integers are [Z]; [for _ in range(n)] is [Nat.iter (Z.to_nat n)];
    Python strings are [string]; the document text is a [list ascii]
    (one byte per character, lines ended by a line feed). *)

From Stdlib Require Import List String Ascii ZArith Bool Arith Lia.
Import ListNotations.

Set Implicit Arguments.

(** ** Qt constants *)

Module Qt.
(* Qt::Key *)
Definition Key_Escape    : Z := 0x01000000.
Definition Key_Backspace : Z := 0x01000003.
Definition Key_Return    : Z := 0x01000004.
Definition Key_Space     : Z := 0x20.
Definition Key_0 : Z := 0x30.
Definition Key_1 : Z := 0x31.
Definition Key_2 : Z := 0x32.
Definition Key_3 : Z := 0x33.
Definition Key_4 : Z := 0x34.
Definition Key_5 : Z := 0x35.
Definition Key_6 : Z := 0x36.
Definition Key_7 : Z := 0x37.
Definition Key_8 : Z := 0x38.
Definition Key_9 : Z := 0x39.
Definition Key_B : Z := 0x42.
Definition Key_C : Z := 0x43.
Definition Key_E : Z := 0x45.
Definition Key_I : Z := 0x49.
Definition Key_J : Z := 0x4a.
Definition Key_K : Z := 0x4b.
Definition Key_L : Z := 0x4c.
Definition Key_U : Z := 0x55.
Definition Key_V : Z := 0x56.
Definition Key_Z : Z := 0x5a.
Definition Key_Greater : Z := 0x3e.
Definition Key_Shift   : Z := 0x01000020.
Definition Key_Control : Z := 0x01000021.
Definition Key_F1 : Z := 0x01000030.
Definition Key_F2 : Z := 0x01000031.
Definition Key_F3 : Z := 0x01000032.
(* Qt::KeyboardModifier *)
Definition NoModifier          : Z := 0.
Definition ShiftModifier       : Z := 0x02000000.
Definition ControlModifier     : Z := 0x04000000.
Definition AltModifier         : Z := 0x08000000.
Definition GroupSwitchModifier : Z := 0x40000000.
End Qt.

(** A key event as the handler sees it: [e.key()], [e.text()] and the value
    [QApplication.keyboardModifiers()] has while the event is handled. *)
Record KeyEvent := {
  key       : Z;
  text      : string;
  modifiers : Z
}.

Definition key_is (e : KeyEvent) (k : Z) : bool := Z.eqb (key e) k.
Definition text_is (e : KeyEvent) (s : string) : bool := String.eqb (text e) s.

(** ** The [enums] module

    [enums.py] is imported by the widget but is not among the sources. *)

Inductive EditorMode := Typing | Movement | Command | ReplaceChar | FindChar.

Inductive Direction := Left | Right | Above | Below.

Module SelectionMode.
Inductive t := Disabled | Character | Line | Rectangular.
End SelectionMode.

Definition EditorMode_eqb (a b : EditorMode) : bool :=
  match a, b with
  | Typing, Typing | Movement, Movement | Command, Command
  | ReplaceChar, ReplaceChar | FindChar, FindChar => true
  | _, _ => false
  end.

Definition Direction_eqb (a b : Direction) : bool :=
  match a, b with
  | Left, Left | Right, Right | Above, Above | Below, Below => true
  | _, _ => false
  end.

Definition SelectionMode_eqb (a b : SelectionMode.t) : bool :=
  match a, b with
  | SelectionMode.Disabled, SelectionMode.Disabled
  | SelectionMode.Character, SelectionMode.Character
  | SelectionMode.Line, SelectionMode.Line
  | SelectionMode.Rectangular, SelectionMode.Rectangular => true
  | _, _ => false
  end.

(** Modelled from the spec: the table [NUMSETKEYS] of [enums.py], which
    maps the ten decimal digit keys to the digit they type (the number
    prefix is "an ordered sequence of decimal digits"). *)
Definition NUMSETKEYS : list (Z * string) :=
  [ (Qt.Key_0, "0"); (Qt.Key_1, "1"); (Qt.Key_2, "2"); (Qt.Key_3, "3");
    (Qt.Key_4, "4"); (Qt.Key_5, "5"); (Qt.Key_6, "6"); (Qt.Key_7, "7");
    (Qt.Key_8, "8"); (Qt.Key_9, "9") ]%string.

(* dict.get(key) *)
Fixpoint dict_get (d : list (Z * string)) (k : Z) : option string :=
  match d with
  | [] => None
  | (k', v) :: d' => if Z.eqb k k' then Some v else dict_get d' k
  end.

(* key in dict *)
Definition dict_in (d : list (Z * string)) (k : Z) : bool :=
  match dict_get d k with Some _ => true | None => false end.

(** Modelled from the spec: the escape chord of [enums.py], "default [k]
    then [j]"; the widget compares both with [e.text()]. *)
Definition ESCAPEFIRST  : string := "k".
Definition ESCAPESECOND : string := "j".

(** Modelled from the spec: the line-jump factors of [enums.py]; the
    earlier prototype in [__main__.py] defines both as 5. *)
Definition BACKSPACE_LINES : Z := 5.
Definition RETURN_LINES    : Z := 5.

(** ** Text of a document *)

Definition LF : ascii := ascii_of_nat 10.

Definition isLF (c : ascii) : bool := Ascii.eqb c LF.

Fixpoint countLF (t : list ascii) : nat :=
  match t with
  | [] => 0
  | c :: t' => if isLF c then S (countLF t') else countLF t'
  end.

(* SCI_GETLINECOUNT: an empty document has one line *)
Definition lineCount (t : list ascii) : nat := S (countLF t).

(* SCI_LINEFROMPOSITION *)
Definition lineFromPosition (t : list ascii) (p : nat) : nat :=
  countLF (firstn p t).

(* Offset of the first character of line [l]; the length of the text once
   [l] is past the last line. *)
Fixpoint lineStart (t : list ascii) (l : nat) : nat :=
  match l, t with
  | O, _ => 0
  | S _, [] => 0
  | S l', c :: t' => S (if isLF c then lineStart t' l' else lineStart t' l)
  end.

Fixpoint untilLF (t : list ascii) : list ascii :=
  match t with
  | [] => []
  | c :: t' => if isLF c then [] else c :: untilLF t'
  end.

(* The characters of line [l] without its line end. *)
Definition lineBody (t : list ascii) (l : nat) : list ascii :=
  untilLF (skipn (lineStart t l) t).

(* SCI_GETLINEENDPOSITION *)
Definition lineEnd (t : list ascii) (l : nat) : nat :=
  lineStart t l + List.length (lineBody t l).

(* The characters of line [l] with its line end (SCI_GETLINE). *)
Definition lineRaw (t : list ascii) (l : nat) : list ascii :=
  firstn (lineStart t (S l) - lineStart t l) (skipn (lineStart t l) t).

(* The document as a list of lines, for stating results. *)
Fixpoint splitLines (cur : list ascii) (t : list ascii) : list string :=
  match t with
  | [] => [string_of_list_ascii (rev cur)]
  | c :: t' =>
      if isLF c then string_of_list_ascii (rev cur) :: splitLines [] t'
      else splitLines (c :: cur) t'
  end.

Definition linesOf (t : list ascii) : list string := splitLines [] t.

(* The text of a document whose lines are [ls]. *)
Definition joinLines (ls : list string) : list ascii :=
  list_ascii_of_string (String.concat (String LF EmptyString) ls).

(** ** Python helpers *)

(* str.lstrip(): leading whitespace is removed *)
Definition isspace (c : ascii) : bool :=
  let n := nat_of_ascii c in
  ((9 <=? n) && (n <=? 13)) || ((28 <=? n) && (n <=? 32)).

Fixpoint lstrip (s : string) : string :=
  match s with
  | EmptyString => EmptyString
  | String c s' => if isspace c then lstrip s' else s
  end.

Definition digitValue (c : ascii) : option Z :=
  let n := nat_of_ascii c in
  if (48 <=? n) && (n <=? 57) then Some (Z.of_nat (n - 48)) else None.

Fixpoint int_acc (acc : Z) (s : string) : option Z :=
  match s with
  | EmptyString => Some acc
  | String c s' =>
      match digitValue c with
      | Some d => int_acc (10 * acc + d) s'
      | None => None
      end
  end.

(* int(s) for a string of decimal digits; [None] is Python's ValueError *)
Definition int_ (s : string) : option Z :=
  match s with
  | EmptyString => None
  | _ => int_acc 0 s
  end.

(** ** The text component

    [QsciScintilla] is a collaborator of the widget.  The reference model
    below follows the Scintilla documentation for the messages whose
    effect the properties of the widget depend on; what it leaves open
    (paging and word motions, the clipboard, indentation, the rest of the
    base key handling, the helper class [SciTextOps]) is a parameter
    [Collab] of the development, and every theorem holds for all its
    values. *)

(* One step of the undo history: characters [s] inserted at, or removed
   from, offset [pos]. *)
Inductive Action :=
| Ins (pos : nat) (s : list ascii)
| Del (pos : nat) (s : list ascii).

Inductive SciMsg :=
| SCI_PAGEUP | SCI_PAGEDOWN | SCI_LINEUP | SCI_LINEDOWN
| SCI_CHARLEFT | SCI_CHARRIGHT
| SCI_WORDRIGHT | SCI_WORDLEFT | SCI_WORDRIGHTEND | SCI_WORDLEFTEND
| SCI_HOME | SCI_VCHOME | SCI_LINEEND
| SCI_DELETEBACK | SCI_CLEAR | SCI_LINEDELETE
| SCI_GOTOLINE (line : Z) | SCI_GOTOPOS (pos : Z)
| SCI_SETCARETSTYLE (style : Z).

Definition SciMsg_eqb (a b : SciMsg) : bool :=
  match a, b with
  | SCI_PAGEUP, SCI_PAGEUP | SCI_PAGEDOWN, SCI_PAGEDOWN
  | SCI_LINEUP, SCI_LINEUP | SCI_LINEDOWN, SCI_LINEDOWN
  | SCI_CHARLEFT, SCI_CHARLEFT | SCI_CHARRIGHT, SCI_CHARRIGHT
  | SCI_WORDRIGHT, SCI_WORDRIGHT | SCI_WORDLEFT, SCI_WORDLEFT
  | SCI_WORDRIGHTEND, SCI_WORDRIGHTEND | SCI_WORDLEFTEND, SCI_WORDLEFTEND
  | SCI_HOME, SCI_HOME | SCI_VCHOME, SCI_VCHOME | SCI_LINEEND, SCI_LINEEND
  | SCI_DELETEBACK, SCI_DELETEBACK | SCI_CLEAR, SCI_CLEAR
  | SCI_LINEDELETE, SCI_LINEDELETE => true
  | SCI_GOTOLINE x, SCI_GOTOLINE y => Z.eqb x y
  | SCI_GOTOPOS x, SCI_GOTOPOS y => Z.eqb x y
  | SCI_SETCARETSTYLE x, SCI_SETCARETSTYLE y => Z.eqb x y
  | _, _ => false
  end.

(* The signals of the widget. *)
Inductive Signal :=
| FileChanged (name : string)
| FileSaved (name : string)
| PositionChanged (line index : Z)
| ModeChanged (m : EditorMode).

Definition isPositionChanged (s : Signal) : bool :=
  match s with PositionChanged _ _ => true | _ => false end.

Definition isModeChanged (s : Signal) : bool :=
  match s with ModeChanged _ => true | _ => false end.

(* The Python exceptions the handler can raise. *)
Inductive PyExc := NameError | AttributeError | OSError.

Section Model.

(* What the text component keeps besides the fields below: clipboard,
   scroll position, save point, search target, ... *)
Variable X : Type.

Record Doc := {
  content     : list ascii;           (* the text *)
  caret       : nat;                  (* SCI_GETCURRENTPOS *)
  anchor      : nat;                  (* SCI_GETANCHOR; equal to [caret] when nothing is selected *)
  moveExtends : bool;                 (* a selection mode is on: moves keep the anchor *)
  undoLog     : list (list Action);   (* undo groups, latest first; in a group, latest action first *)
  redoLog     : list (list Action);
  ext         : X
}.

(** The widget: the attributes of [NemeTextWidget], the state of its
    [QsciScintilla] base, the signals emitted so far, and (a ghost field)
    the messages passed to [SendScintilla] so far. *)
Record Widget := {
  mode                  : option EditorMode;   (* None until the first setMode *)
  numberList            : list string;
  prevWasEscapeFirst    : bool;
  replaceModeRepeat     : Z;
  lineFindChar          : string;
  lineFindCharDirection : Direction;
  selectionMode         : SelectionMode.t;
  lastSearchText        : string;
  lastSearchDirection   : Direction;
  lastSearchFlags       : Z;
  bufferFileName        : option string;       (* None: the attribute is not set *)
  readOnly              : bool;                (* isReadOnly() *)
  caretStyle            : Z;
  undoDepth             : nat;                 (* open beginUndoAction calls *)
  groupOpen             : bool;                (* the latest undo group still takes actions *)
  doc                   : Doc;
  signals               : list Signal;         (* oldest first *)
  sent                  : list SciMsg          (* oldest first *)
}.

Definition set_mode (v : option EditorMode) (w : Widget) : Widget :=
  {| mode := v; numberList := numberList w;
     prevWasEscapeFirst := prevWasEscapeFirst w;
     replaceModeRepeat := replaceModeRepeat w; lineFindChar := lineFindChar w;
     lineFindCharDirection := lineFindCharDirection w;
     selectionMode := selectionMode w; lastSearchText := lastSearchText w;
     lastSearchDirection := lastSearchDirection w;
     lastSearchFlags := lastSearchFlags w; bufferFileName := bufferFileName w;
     readOnly := readOnly w; caretStyle := caretStyle w;
     undoDepth := undoDepth w; groupOpen := groupOpen w; doc := doc w;
     signals := signals w; sent := sent w |}.

Definition set_numberList (v : list string) (w : Widget) : Widget :=
  {| mode := mode w; numberList := v;
     prevWasEscapeFirst := prevWasEscapeFirst w;
     replaceModeRepeat := replaceModeRepeat w; lineFindChar := lineFindChar w;
     lineFindCharDirection := lineFindCharDirection w;
     selectionMode := selectionMode w; lastSearchText := lastSearchText w;
     lastSearchDirection := lastSearchDirection w;
     lastSearchFlags := lastSearchFlags w; bufferFileName := bufferFileName w;
     readOnly := readOnly w; caretStyle := caretStyle w;
     undoDepth := undoDepth w; groupOpen := groupOpen w; doc := doc w;
     signals := signals w; sent := sent w |}.

Definition set_prevWasEscapeFirst (v : bool) (w : Widget) : Widget :=
  {| mode := mode w; numberList := numberList w;
     prevWasEscapeFirst := v;
     replaceModeRepeat := replaceModeRepeat w; lineFindChar := lineFindChar w;
     lineFindCharDirection := lineFindCharDirection w;
     selectionMode := selectionMode w; lastSearchText := lastSearchText w;
     lastSearchDirection := lastSearchDirection w;
     lastSearchFlags := lastSearchFlags w; bufferFileName := bufferFileName w;
     readOnly := readOnly w; caretStyle := caretStyle w;
     undoDepth := undoDepth w; groupOpen := groupOpen w; doc := doc w;
     signals := signals w; sent := sent w |}.

Definition set_replaceModeRepeat (v : Z) (w : Widget) : Widget :=
  {| mode := mode w; numberList := numberList w;
     prevWasEscapeFirst := prevWasEscapeFirst w;
     replaceModeRepeat := v; lineFindChar := lineFindChar w;
     lineFindCharDirection := lineFindCharDirection w;
     selectionMode := selectionMode w; lastSearchText := lastSearchText w;
     lastSearchDirection := lastSearchDirection w;
     lastSearchFlags := lastSearchFlags w; bufferFileName := bufferFileName w;
     readOnly := readOnly w; caretStyle := caretStyle w;
     undoDepth := undoDepth w; groupOpen := groupOpen w; doc := doc w;
     signals := signals w; sent := sent w |}.

Definition set_lineFindChar (v : string) (w : Widget) : Widget :=
  {| mode := mode w; numberList := numberList w;
     prevWasEscapeFirst := prevWasEscapeFirst w;
     replaceModeRepeat := replaceModeRepeat w; lineFindChar := v;
     lineFindCharDirection := lineFindCharDirection w;
     selectionMode := selectionMode w; lastSearchText := lastSearchText w;
     lastSearchDirection := lastSearchDirection w;
     lastSearchFlags := lastSearchFlags w; bufferFileName := bufferFileName w;
     readOnly := readOnly w; caretStyle := caretStyle w;
     undoDepth := undoDepth w; groupOpen := groupOpen w; doc := doc w;
     signals := signals w; sent := sent w |}.

Definition set_lineFindCharDirection (v : Direction) (w : Widget) : Widget :=
  {| mode := mode w; numberList := numberList w;
     prevWasEscapeFirst := prevWasEscapeFirst w;
     replaceModeRepeat := replaceModeRepeat w; lineFindChar := lineFindChar w;
     lineFindCharDirection := v;
     selectionMode := selectionMode w; lastSearchText := lastSearchText w;
     lastSearchDirection := lastSearchDirection w;
     lastSearchFlags := lastSearchFlags w; bufferFileName := bufferFileName w;
     readOnly := readOnly w; caretStyle := caretStyle w;
     undoDepth := undoDepth w; groupOpen := groupOpen w; doc := doc w;
     signals := signals w; sent := sent w |}.

Definition set_selectionMode (v : SelectionMode.t) (w : Widget) : Widget :=
  {| mode := mode w; numberList := numberList w;
     prevWasEscapeFirst := prevWasEscapeFirst w;
     replaceModeRepeat := replaceModeRepeat w; lineFindChar := lineFindChar w;
     lineFindCharDirection := lineFindCharDirection w;
     selectionMode := v; lastSearchText := lastSearchText w;
     lastSearchDirection := lastSearchDirection w;
     lastSearchFlags := lastSearchFlags w; bufferFileName := bufferFileName w;
     readOnly := readOnly w; caretStyle := caretStyle w;
     undoDepth := undoDepth w; groupOpen := groupOpen w; doc := doc w;
     signals := signals w; sent := sent w |}.

Definition set_lastSearch (txt : string) (flags : Z) (w : Widget) : Widget :=
  {| mode := mode w; numberList := numberList w;
     prevWasEscapeFirst := prevWasEscapeFirst w;
     replaceModeRepeat := replaceModeRepeat w; lineFindChar := lineFindChar w;
     lineFindCharDirection := lineFindCharDirection w;
     selectionMode := selectionMode w; lastSearchText := txt;
     lastSearchDirection := lastSearchDirection w;
     lastSearchFlags := flags; bufferFileName := bufferFileName w;
     readOnly := readOnly w; caretStyle := caretStyle w;
     undoDepth := undoDepth w; groupOpen := groupOpen w; doc := doc w;
     signals := signals w; sent := sent w |}.

Definition set_lastSearchDirection (v : Direction) (w : Widget) : Widget :=
  {| mode := mode w; numberList := numberList w;
     prevWasEscapeFirst := prevWasEscapeFirst w;
     replaceModeRepeat := replaceModeRepeat w; lineFindChar := lineFindChar w;
     lineFindCharDirection := lineFindCharDirection w;
     selectionMode := selectionMode w; lastSearchText := lastSearchText w;
     lastSearchDirection := v;
     lastSearchFlags := lastSearchFlags w; bufferFileName := bufferFileName w;
     readOnly := readOnly w; caretStyle := caretStyle w;
     undoDepth := undoDepth w; groupOpen := groupOpen w; doc := doc w;
     signals := signals w; sent := sent w |}.

Definition set_readOnly (v : bool) (w : Widget) : Widget :=
  {| mode := mode w; numberList := numberList w;
     prevWasEscapeFirst := prevWasEscapeFirst w;
     replaceModeRepeat := replaceModeRepeat w; lineFindChar := lineFindChar w;
     lineFindCharDirection := lineFindCharDirection w;
     selectionMode := selectionMode w; lastSearchText := lastSearchText w;
     lastSearchDirection := lastSearchDirection w;
     lastSearchFlags := lastSearchFlags w; bufferFileName := bufferFileName w;
     readOnly := v; caretStyle := caretStyle w;
     undoDepth := undoDepth w; groupOpen := groupOpen w; doc := doc w;
     signals := signals w; sent := sent w |}.

Definition set_caretStyle (v : Z) (w : Widget) : Widget :=
  {| mode := mode w; numberList := numberList w;
     prevWasEscapeFirst := prevWasEscapeFirst w;
     replaceModeRepeat := replaceModeRepeat w; lineFindChar := lineFindChar w;
     lineFindCharDirection := lineFindCharDirection w;
     selectionMode := selectionMode w; lastSearchText := lastSearchText w;
     lastSearchDirection := lastSearchDirection w;
     lastSearchFlags := lastSearchFlags w; bufferFileName := bufferFileName w;
     readOnly := readOnly w; caretStyle := v;
     undoDepth := undoDepth w; groupOpen := groupOpen w; doc := doc w;
     signals := signals w; sent := sent w |}.

Definition set_undoGroup (depth : nat) (open : bool) (w : Widget) : Widget :=
  {| mode := mode w; numberList := numberList w;
     prevWasEscapeFirst := prevWasEscapeFirst w;
     replaceModeRepeat := replaceModeRepeat w; lineFindChar := lineFindChar w;
     lineFindCharDirection := lineFindCharDirection w;
     selectionMode := selectionMode w; lastSearchText := lastSearchText w;
     lastSearchDirection := lastSearchDirection w;
     lastSearchFlags := lastSearchFlags w; bufferFileName := bufferFileName w;
     readOnly := readOnly w; caretStyle := caretStyle w;
     undoDepth := depth; groupOpen := open; doc := doc w;
     signals := signals w; sent := sent w |}.

Definition set_doc (v : Doc) (w : Widget) : Widget :=
  {| mode := mode w; numberList := numberList w;
     prevWasEscapeFirst := prevWasEscapeFirst w;
     replaceModeRepeat := replaceModeRepeat w; lineFindChar := lineFindChar w;
     lineFindCharDirection := lineFindCharDirection w;
     selectionMode := selectionMode w; lastSearchText := lastSearchText w;
     lastSearchDirection := lastSearchDirection w;
     lastSearchFlags := lastSearchFlags w; bufferFileName := bufferFileName w;
     readOnly := readOnly w; caretStyle := caretStyle w;
     undoDepth := undoDepth w; groupOpen := groupOpen w; doc := v;
     signals := signals w; sent := sent w |}.

Definition set_signals (v : list Signal) (w : Widget) : Widget :=
  {| mode := mode w; numberList := numberList w;
     prevWasEscapeFirst := prevWasEscapeFirst w;
     replaceModeRepeat := replaceModeRepeat w; lineFindChar := lineFindChar w;
     lineFindCharDirection := lineFindCharDirection w;
     selectionMode := selectionMode w; lastSearchText := lastSearchText w;
     lastSearchDirection := lastSearchDirection w;
     lastSearchFlags := lastSearchFlags w; bufferFileName := bufferFileName w;
     readOnly := readOnly w; caretStyle := caretStyle w;
     undoDepth := undoDepth w; groupOpen := groupOpen w; doc := doc w;
     signals := v; sent := sent w |}.

Definition set_sent (v : list SciMsg) (w : Widget) : Widget :=
  {| mode := mode w; numberList := numberList w;
     prevWasEscapeFirst := prevWasEscapeFirst w;
     replaceModeRepeat := replaceModeRepeat w; lineFindChar := lineFindChar w;
     lineFindCharDirection := lineFindCharDirection w;
     selectionMode := selectionMode w; lastSearchText := lastSearchText w;
     lastSearchDirection := lastSearchDirection w;
     lastSearchFlags := lastSearchFlags w; bufferFileName := bufferFileName w;
     readOnly := readOnly w; caretStyle := caretStyle w;
     undoDepth := undoDepth w; groupOpen := groupOpen w; doc := doc w;
     signals := signals w; sent := v |}.

(* signal.emit(...) *)
Definition emit (s : Signal) (w : Widget) : Widget :=
  set_signals (signals w ++ [s]) w.

(** The result of running a piece of the handler: it returns a value, or
    it raises, in the widget state reached when the exception left. *)
Inductive Outcome (A : Type) :=
| Normal (a : A)
| Raised (x : PyExc) (w : Widget).

Arguments Raised {A} x w.

Definition bind {A B : Type} (o : Outcome A) (k : A -> Outcome B) : Outcome B :=
  match o with
  | Normal a => k a
  | Raised x w => Raised x w
  end.

(* The widget state an outcome ends in. *)
Definition finalState (o : Outcome Widget) : Widget :=
  match o with Normal w => w | Raised _ w => w end.

Definition isRaised {A : Type} (o : Outcome A) : bool :=
  match o with Normal _ => false | Raised _ _ => true end.

(** The collaborators that the model leaves open. *)
Record Collab := {
  (* text component *)
  xChosen       : Doc -> nat;               (* column a vertical move aims at *)
  sciOther      : SciMsg -> Doc -> Doc;     (* paging, word motions, VCHOME *)
  baseOther     : KeyEvent -> Widget -> Doc; (* base handling of keys that type no text *)
  sci_cut       : Widget -> Doc;
  sci_copy      : Widget -> Doc;
  sci_paste     : Widget -> Doc;
  sci_indent    : Z -> Widget -> Doc;
  sci_unindent  : Z -> Widget -> Doc;
  sci_isModified  : Doc -> bool;
  sci_setModified : bool -> Doc -> Doc;
  (* scitextops.SciTextOps; it reads the widget, moves and edits the document
     and owns the selection mode and the last search *)
  insertLine      : Direction -> Widget -> Doc;
  deleteLines     : Direction -> Widget -> Doc;
  deleteToEOL     : Widget -> Doc;
  yankLines       : Direction -> Widget -> Doc;
  yankToEOL       : bool -> Widget -> Doc;
  jumpToCharInLineFromPos : string -> Direction -> Widget -> Doc;
  findWORDPosition : Direction -> Widget -> Z;
  findWordEnd     : bool -> Widget -> Z;
  findWordStart   : bool -> Widget -> Z;
  toggleSelection : SelectionMode.t -> Widget -> Doc * SelectionMode.t;
  changeSelectionMode : SelectionMode.t -> Widget -> Doc * SelectionMode.t;
  disableSelection : Widget -> Doc * SelectionMode.t;
  findWordUnderCursor : option Direction -> Widget -> Doc * (string * Z); (* None: the default direction *)
  repeatLastSearch : Direction -> Widget -> Doc * (string * Z);
  (* the file system: open(name, 'wt').write(text) succeeds or raises *)
  writeFile     : string -> list ascii -> bool
}.

Variable env : Collab.

(** *** Cursor and selection *)

Definition docLength (d : Doc) : nat := List.length (content d).

Definition selStart (d : Doc) : nat := Nat.min (anchor d) (caret d).
Definition selEnd (d : Doc) : nat := Nat.max (anchor d) (caret d).
Definition selectionEmpty (d : Doc) : bool := Nat.eqb (anchor d) (caret d).

(* Editor::SetEmptySelection: the position is clamped into the document,
   nothing stays selected and the selection mode ends. *)
Definition setEmptySelection (p : nat) (d : Doc) : Doc :=
  let p' := Nat.min p (docLength d) in
  {| content := content d; caret := p'; anchor := p'; moveExtends := false;
     undoLog := undoLog d; redoLog := redoLog d; ext := ext d |}.

(* Editor::MovePositionTo: a move keeps the anchor while a selection mode
   is on, and drops the selection otherwise. *)
Definition movePositionTo (p : nat) (d : Doc) : Doc :=
  let p' := Nat.min p (docLength d) in
  {| content := content d; caret := p';
     anchor := if moveExtends d then anchor d else p';
     moveExtends := moveExtends d;
     undoLog := undoLog d; redoLog := redoLog d; ext := ext d |}.

Definition caretLine (d : Doc) : nat := lineFromPosition (content d) (caret d).

(* QsciScintilla::lines() *)
Definition lines (d : Doc) : Z := Z.of_nat (lineCount (content d)).

(* QsciScintilla::lineLength(line): bytes of the line with its line end,
   -1 when there is no such line *)
Definition lineLength (d : Doc) (line : Z) : Z :=
  if (line <? 0)%Z || (lines d <=? line)%Z then (-1)%Z
  else
    let l := Z.to_nat line in
    Z.of_nat (lineStart (content d) (S l) - lineStart (content d) l).

(* QsciScintilla::text(line): the line with its line end, empty when there
   is no such line *)
Definition text_of_line (d : Doc) (line : Z) : string :=
  if (lineLength d line <? 1)%Z then EmptyString
  else string_of_list_ascii (lineRaw (content d) (Z.to_nat line)).

(* SCI_POSITIONFROMLINE: a negative line stands for the line where the
   selection starts; one line past the last gives the end of the document;
   further lines give -1 *)
Definition positionFromLine (d : Doc) (line : Z) : Z :=
  if (line <? 0)%Z then
    Z.of_nat (lineStart (content d) (lineFromPosition (content d) (selStart d)))
  else if (lines d <? line)%Z then (-1)%Z
  else Z.of_nat (lineStart (content d) (Z.to_nat line)).

(* SCI_POSITIONAFTER *)
Definition positionAfter (d : Doc) (pos : Z) : Z :=
  if (pos + 1 <=? 0)%Z then 0%Z
  else if (Z.of_nat (docLength d) <=? pos + 1)%Z then Z.of_nat (docLength d)
  else (pos + 1)%Z.

(* QsciScintilla::positionFromLineIndex: [index] characters after the start
   of the line *)
Definition positionFromLineIndex (d : Doc) (line index : Z) : Z :=
  Nat.iter (Z.to_nat index) (positionAfter d) (positionFromLine d line).

(* QsciScintilla::getCursorPosition() *)
Definition getCursorPosition (d : Doc) : Z * Z :=
  let l := caretLine d in
  (Z.of_nat l, Z.of_nat (caret d - lineStart (content d) l)).

(* SCI_SETSEL(anchor, caret): a negative caret is the end of the document, a
   negative anchor means no selection *)
Definition sci_setSel (a c : Z) (d : Doc) : Doc :=
  let c' := if (c <? 0)%Z then docLength d else Nat.min (Z.to_nat c) (docLength d) in
  let a' := if (a <? 0)%Z then c' else Nat.min (Z.to_nat a) (docLength d) in
  {| content := content d; caret := c'; anchor := a'; moveExtends := false;
     undoLog := undoLog d; redoLog := redoLog d; ext := ext d |}.

(* QsciScintilla::setSelection *)
Definition setSelection (lineFrom indexFrom lineTo indexTo : Z) (d : Doc) : Doc :=
  sci_setSel (positionFromLineIndex d lineFrom indexFrom)
             (positionFromLineIndex d lineTo indexTo) d.

(* SCI_GOTOPOS *)
Definition sci_gotoPos (pos : Z) (d : Doc) : Doc :=
  setEmptySelection (Z.to_nat pos) d.

(* QsciScintilla::setCursorPosition *)
Definition setCursorPosition (line index : Z) (d : Doc) : Doc :=
  sci_gotoPos (positionFromLineIndex d line index) d.

(* SCI_GOTOLINE *)
Definition sci_gotoLine (line : Z) (d : Doc) : Doc :=
  let l := if (lines d <? line)%Z then lines d else if (line <? 0)%Z then 0%Z else line in
  setEmptySelection (lineStart (content d) (Z.to_nat l)) d.

(* SCI_CHARLEFT, SCI_CHARRIGHT: with text selected and no selection mode
   the caret goes to that end of the selection *)
Definition sci_charLeft (d : Doc) : Doc :=
  if selectionEmpty d || moveExtends d then movePositionTo (caret d - 1) d
  else movePositionTo (selStart d) d.

Definition sci_charRight (d : Doc) : Doc :=
  if selectionEmpty d || moveExtends d then movePositionTo (caret d + 1) d
  else movePositionTo (selEnd d) d.

(* SCI_HOME, SCI_LINEEND *)
Definition sci_home (d : Doc) : Doc :=
  movePositionTo (lineStart (content d) (caretLine d)) d.

Definition sci_lineEnd (d : Doc) : Doc :=
  movePositionTo (lineEnd (content d) (caretLine d)) d.

(* SCI_LINEUP, SCI_LINEDOWN: the caret goes to the neighbouring line at the
   column the component aims at, cut to the length of that line; on the first
   line it goes up to the start, on the last line down to the end of the
   document *)
Definition sci_lineUp (d : Doc) : Doc :=
  match caretLine d with
  | O => movePositionTo 0 d
  | S l =>
      movePositionTo
        (lineStart (content d) l
         + Nat.min (xChosen env d) (List.length (lineBody (content d) l))) d
  end.

Definition sci_lineDown (d : Doc) : Doc :=
  let l := S (caretLine d) in
  if lineCount (content d) <=? l then movePositionTo (docLength d) d
  else
    movePositionTo
      (lineStart (content d) l
       + Nat.min (xChosen env d) (List.length (lineBody (content d) l))) d.

(** *** Editing and the undo history *)

(* QsciScintilla::setReadOnly *)
Definition setReadOnly (ro : bool) (w : Widget) : Widget := set_readOnly ro w.

(* QsciScintilla::beginUndoAction, endUndoAction: calls nest, and the
   actions between the outermost pair form one undo group *)
Definition beginUndoAction (w : Widget) : Widget :=
  set_undoGroup (S (undoDepth w))
                (if Nat.eqb (undoDepth w) 0 then false else groupOpen w) w.

Definition endUndoAction (w : Widget) : Widget :=
  match undoDepth w with
  | O => w
  | S n => set_undoGroup n (if Nat.eqb n 0 then false else groupOpen w) w
  end.

(* An action enters the history: into the latest group while an undo
   action is open and has taken an action already, as a new group
   otherwise.  An edit discards the redo history. *)
Definition pushAction (a : Action) (w : Widget) : Widget :=
  let d := doc w in
  let log :=
    match groupOpen w, undoLog d with
    | true, g :: r => (a :: g) :: r
    | _, l => [a] :: l
    end in
  set_undoGroup (undoDepth w) (0 <? undoDepth w)
    (set_doc {| content := content d; caret := caret d; anchor := anchor d;
                moveExtends := moveExtends d;
                undoLog := log; redoLog := []; ext := ext d |} w).

(* SelectionPosition::MoveForInsertDelete *)
Definition adjustIns (start len p : nat) : nat :=
  if start <? p then p + len else p.

Definition adjustDel (start len p : nat) : nat :=
  if p <=? start then p
  else if start + len <? p then p - len
  else start.

(* Document::InsertString: refused on a read-only document *)
Definition insertString (pos : nat) (s : list ascii) (w : Widget) : Widget :=
  let d := doc w in
  let p := Nat.min pos (docLength d) in
  if readOnly w || Nat.eqb (List.length s) 0 then w
  else
    pushAction (Ins p s)
      (set_doc {| content := firstn p (content d) ++ s ++ skipn p (content d);
                  caret := adjustIns p (List.length s) (caret d);
                  anchor := adjustIns p (List.length s) (anchor d);
                  moveExtends := moveExtends d;
                  undoLog := undoLog d; redoLog := redoLog d; ext := ext d |} w).

(* Document::DeleteChars: refused on a read-only document *)
Definition deleteChars (pos len : nat) (w : Widget) : Widget :=
  let d := doc w in
  let removed := firstn len (skipn pos (content d)) in
  if readOnly w || Nat.eqb (List.length removed) 0 then w
  else
    pushAction (Del pos removed)
      (set_doc {| content := firstn pos (content d) ++ skipn (pos + len) (content d);
                  caret := adjustDel pos (List.length removed) (caret d);
                  anchor := adjustDel pos (List.length removed) (anchor d);
                  moveExtends := moveExtends d;
                  undoLog := undoLog d; redoLog := redoLog d; ext := ext d |} w).

(* Editor::ClearSelection: the selected text is deleted and the selection
   collapses to its start *)
Definition clearSelection (w : Widget) : Widget :=
  let d := doc w in
  if selectionEmpty d then w
  else
    let p := selStart d in
    let w1 := deleteChars p (selEnd d - p) w in
    let d1 := doc w1 in
    set_doc {| content := content d1; caret := p; anchor := p;
               moveExtends := moveExtends d1;
               undoLog := undoLog d1; redoLog := redoLog d1; ext := ext d1 |} w1.

(* SCI_DELETEBACK: the selection, or else the character before the caret *)
Definition sci_deleteBack (w : Widget) : Widget :=
  let d := doc w in
  if selectionEmpty d then
    match caret d with
    | O => w
    | S p => deleteChars p 1 w
    end
  else clearSelection w.

(* SCI_CLEAR: the selection, or else the character at the caret *)
Definition sci_clear (w : Widget) : Widget :=
  let d := doc w in
  if selectionEmpty d then deleteChars (caret d) 1 w
  else clearSelection w.

(* SCI_LINEDELETE: the line of the caret with its line end *)
Definition sci_lineDelete (w : Widget) : Widget :=
  let d := doc w in
  let l := caretLine d in
  let start := lineStart (content d) l in
  deleteChars start (lineStart (content d) (S l) - start) w.

(* SCI_INSERTTEXT(pos, text): position -1 is the caret; a caret behind the
   insertion point moves along with its text; nothing stays selected *)
Definition sci_insertText (pos : Z) (s : list ascii) (w : Widget) : Widget :=
  let insertPos := if (pos =? -1)%Z then caret (doc w) else Z.to_nat pos in
  let w1 := insertString insertPos s w in
  set_doc (setEmptySelection (caret (doc w1)) (doc w1)) w1.

(* QsciScintilla::insertAt(text, line, index): the text goes in even when
   the component is read-only, and that state is put back *)
Definition insertAt (s : string) (line index : Z) (w : Widget) : Widget :=
  let pos := positionFromLineIndex (doc w) line index in
  let ro := readOnly w in
  let w1 := setReadOnly false w in
  let w2 := beginUndoAction w1 in
  let w3 := sci_insertText pos (list_ascii_of_string s) w2 in
  let w4 := endUndoAction w3 in
  setReadOnly ro w4.

(* Editor::AddCharUTF: typed text replaces the selection and the caret ends
   behind it; on a read-only document nothing happens *)
Definition addCharUTF (s : list ascii) (w : Widget) : Widget :=
  let d := doc w in
  let p := selStart d in
  let grouped := negb (selectionEmpty d) in
  let w0 := if grouped then beginUndoAction w else w in
  let w1 := if grouped then deleteChars p (selEnd d - p) w0 else w0 in
  let w2 := insertString p s w1 in
  let d2 := doc w2 in
  let w3 :=
    if readOnly w || Nat.eqb (List.length s) 0 then w2
    else set_doc {| content := content d2;
                    caret := Nat.min p (docLength d) + List.length s;
                    anchor := Nat.min p (docLength d) + List.length s;
                    moveExtends := moveExtends d2;
                    undoLog := undoLog d2; redoLog := redoLog d2;
                    ext := ext d2 |} w2 in
  if grouped then endUndoAction w3 else w3.

(* Undoing and redoing one action: the new text and where the caret goes *)
Definition unapplyAction (a : Action) (c : list ascii) : list ascii * nat :=
  match a with
  | Ins pos s => (firstn pos c ++ skipn (pos + List.length s) c, pos)
  | Del pos s => (firstn pos c ++ s ++ skipn pos c, pos + List.length s)
  end.

Definition applyAction (a : Action) (c : list ascii) : list ascii * nat :=
  match a with
  | Ins pos s => (firstn pos c ++ s ++ skipn pos c, pos + List.length s)
  | Del pos s => (firstn pos c ++ skipn (pos + List.length s) c, pos)
  end.

Definition undoGroup (g : list Action) (c : list ascii) (p : nat) : list ascii * nat :=
  fold_left (fun cp a => unapplyAction a (fst cp)) g (c, p).

Definition redoGroup (g : list Action) (c : list ascii) (p : nat) : list ascii * nat :=
  fold_left (fun cp a => applyAction a (fst cp)) (rev g) (c, p).

(* QsciScintilla::undo: the latest group is undone, latest action first;
   the caret goes where the last undone action was *)
Definition undo (w : Widget) : Widget :=
  let d := doc w in
  match undoLog d with
  | [] => w
  | g :: r =>
      let cp := undoGroup g (content d) (caret d) in
      set_undoGroup (undoDepth w) false
        (set_doc (setEmptySelection (snd cp)
                    {| content := fst cp; caret := caret d; anchor := anchor d;
                       moveExtends := moveExtends d;
                       undoLog := r; redoLog := g :: redoLog d; ext := ext d |}) w)
  end.

(* QsciScintilla::redo *)
Definition redo (w : Widget) : Widget :=
  let d := doc w in
  match redoLog d with
  | [] => w
  | g :: r =>
      let cp := redoGroup g (content d) (caret d) in
      set_undoGroup (undoDepth w) false
        (set_doc (setEmptySelection (snd cp)
                    {| content := fst cp; caret := caret d; anchor := anchor d;
                       moveExtends := moveExtends d;
                       undoLog := g :: undoLog d; redoLog := r; ext := ext d |}) w)
  end.

(** *** Messages *)

Definition sciExec (m : SciMsg) (w : Widget) : Widget :=
  match m with
  | SCI_LINEUP => set_doc (sci_lineUp (doc w)) w
  | SCI_LINEDOWN => set_doc (sci_lineDown (doc w)) w
  | SCI_CHARLEFT => set_doc (sci_charLeft (doc w)) w
  | SCI_CHARRIGHT => set_doc (sci_charRight (doc w)) w
  | SCI_HOME => set_doc (sci_home (doc w)) w
  | SCI_LINEEND => set_doc (sci_lineEnd (doc w)) w
  | SCI_DELETEBACK => sci_deleteBack w
  | SCI_CLEAR => sci_clear w
  | SCI_LINEDELETE => sci_lineDelete w
  | SCI_GOTOLINE line => set_doc (sci_gotoLine line (doc w)) w
  | SCI_GOTOPOS pos => set_doc (sci_gotoPos pos (doc w)) w
  | SCI_SETCARETSTYLE style => set_caretStyle style w
  | SCI_PAGEUP | SCI_PAGEDOWN | SCI_WORDRIGHT | SCI_WORDLEFT
  | SCI_WORDRIGHTEND | SCI_WORDLEFTEND | SCI_VCHOME =>
      set_doc (sciOther env m (doc w)) w
  end.

(* self.SendScintilla(msg): the message is noted in [sent] and carried out *)
Definition SendScintilla (m : SciMsg) (w : Widget) : Widget :=
  sciExec m (set_sent (sent w ++ [m]) w).

(* QsciScintillaBase::keyPressEvent: a key without Control or Alt, outside
   the special keys, whose text is printable, types its text *)
Definition isPrint (c : ascii) : bool :=
  let n := nat_of_ascii c in (32 <=? n) && negb (Nat.eqb n 127).

Definition typesText (e : KeyEvent) : bool :=
  ((modifiers e =? Qt.NoModifier)%Z || (modifiers e =? Qt.ShiftModifier)%Z
   || (modifiers e =? Qt.GroupSwitchModifier)%Z)
  && (0 <=? key e)%Z && (key e <? 0x01000000)%Z
  && match text e with
     | EmptyString => false
     | String c _ => isPrint c
     end.

Definition baseKeyPressEvent (e : KeyEvent) (w : Widget) : Widget :=
  if typesText e then addCharUTF (list_ascii_of_string (text e)) w
  else set_doc (baseOther env e w) w.

(** ** The widget *)

(* Calls into the collaborators. *)
Definition callDoc (f : Widget -> Doc) (w : Widget) : Widget :=
  set_doc (f w) w.

Definition callSel (f : Widget -> Doc * SelectionMode.t) (w : Widget) : Widget :=
  set_selectionMode (snd (f w)) (set_doc (fst (f w)) w).

Definition callSearch (f : Widget -> Doc * (string * Z)) (w : Widget) : Widget :=
  set_lastSearch (fst (snd (f w))) (snd (snd (f w))) (set_doc (fst (f w)) w).

(* for _ in range(n): f() *)
Definition times {A : Type} (n : Z) (f : A -> A) (a : A) : A :=
  Nat.iter (Z.to_nat n) f a.

(* str(x) of a dictionary lookup *)
Definition pystr (o : option string) : string :=
  match o with Some s => s | None => "None"%string end.

(** [processNumberPrefix]: "This should be called only when key has been
    validated to be a member of NUMSETKEYS".  The pair is the returned
    [haveToClearList] and the widget. *)
Definition processNumberPrefix (key : Z) (w : Widget) : bool * Widget :=
  let strnumkey := dict_get NUMSETKEYS key in
  if String.eqb (pystr strnumkey) "0" && Nat.eqb (List.length (numberList w)) 0 then
    (* store 0s only when not the first *)
    (true, set_numberList [] w)
  else
    (false, set_numberList (numberList w ++ [pystr strnumkey]) w).

Definition hasNumberPrefix (w : Widget) : bool :=
  negb (Nat.eqb (List.length (numberList w)) 0).

(** [getNumberPrefix].  Python's [int] raises ValueError on text that is
    not a number; the list only ever holds digits of [NUMSETKEYS]
    (lemma [reachable_digits] below), and the model returns 0 there. *)
Definition getNumberPrefix (limitByMaxLines : bool) (w : Widget) : Z :=
  let number :=
    match numberList w with
    | [] => 1%Z
    | _ => match int_ (String.concat "" (numberList w)) with
           | Some n => n
           | None => 0%Z
           end
    end in
  if limitByMaxLines then Z.min number (lines (doc w)) else number.

(** [setMode] *)
Definition sameMode (m : option EditorMode) (newmode : EditorMode) : bool :=
  match m with
  | Some m' => EditorMode_eqb m' newmode
  | None => false
  end.

Definition setMode (newmode : EditorMode) (w : Widget) : Widget :=
  if sameMode (mode w) newmode then w
  else
    let w1 :=
      match newmode with
      | Typing => setReadOnly false (SendScintilla (SCI_SETCARETSTYLE 1) w)
      | Movement => setReadOnly true (SendScintilla (SCI_SETCARETSTYLE 2) w)
      | Command => setReadOnly true w
      | ReplaceChar => setReadOnly true (SendScintilla (SCI_SETCARETSTYLE 1) w)
      | FindChar => setReadOnly true w
      end in
    emit (ModeChanged newmode) (set_mode (Some newmode) w1).

(** The context managers.  A [with] block runs [__enter__], then the body,
    then [__exit__] whether the body returned or raised; as [__exit__]
    returns nothing, an exception goes on to the caller. *)
Definition exits {A : Type} (exit : Widget -> Widget) (o : Outcome (A * Widget))
  : Outcome (A * Widget) :=
  match o with
  | Normal (a, w) => Normal (a, exit w)
  | Raised x w => Raised x (exit w)
  end.

Definition with_SingleUndo {A : Type} (body : Widget -> Outcome (A * Widget))
  (w : Widget) : Outcome (A * Widget) :=
  exits endUndoAction (body (beginUndoAction w)).

Definition with_ReadWriteSingleUndo {A : Type} (body : Widget -> Outcome (A * Widget))
  (w : Widget) : Outcome (A * Widget) :=
  exits (fun w' => setReadOnly true (endUndoAction w'))
        (body (setReadOnly false (beginUndoAction w))).

Definition with_ReadWrite {A : Type} (body : Widget -> Outcome (A * Widget))
  (w : Widget) : Outcome (A * Widget) :=
  exits (setReadOnly true) (body (setReadOnly false w)).

(** [_save], [_openWithDialog], [processFnKeyEvent] *)
Definition _save (w : Widget) : Outcome Widget :=
  if sci_isModified env (doc w) then
    match bufferFileName w with
    | None => Raised AttributeError w
    | Some name =>
        if writeFile env name (content (doc w)) then
          Normal (emit (FileSaved name)
                    (set_doc (sci_setModified env false (doc w)) w))
        else Raised OSError w
    end
  else Normal w.

(* Both branches of the first test name QMessageBox, which the module does
   not import. *)
Definition _openWithDialog (w : Widget) : Outcome Widget :=
  Raised NameError w.

Definition processFnKeyEvent (e : KeyEvent) (w : Widget) : Outcome Widget :=
  if key_is e Qt.Key_F1 then _save w
  else if key_is e Qt.Key_F2 then _openWithDialog w
  else if key_is e Qt.Key_F3 then
    bind (_save w) (fun w' => Normal w')   (* then QApplication.quit() *)
  else Normal w.

Definition isFnKey (e : KeyEvent) : bool :=
  key_is e Qt.Key_F1 || key_is e Qt.Key_F2 || key_is e Qt.Key_F3.

(** The local variables of [keyPressEvent]. *)
Record Locals := {
  process         : bool;
  clearnumberList : bool;
  curLine         : Z;
  curIndex        : Z
}.

Definition set_process (v : bool) (l : Locals) : Locals :=
  {| process := v; clearnumberList := clearnumberList l;
     curLine := curLine l; curIndex := curIndex l |}.

Definition set_clearnumberList (v : bool) (l : Locals) : Locals :=
  {| process := process l; clearnumberList := v;
     curLine := curLine l; curIndex := curIndex l |}.

Definition set_curLine (v : Z) (l : Locals) : Locals :=
  {| process := process l; clearnumberList := clearnumberList l;
     curLine := v; curIndex := curIndex l |}.

Definition ok (loc : Locals) (w : Widget) : Outcome (Locals * Widget) :=
  Normal (loc, w).

Definition isPlain (modifiers : Z) : bool :=
  (modifiers =? Qt.NoModifier)%Z || (modifiers =? Qt.ShiftModifier)%Z.

(** Typing mode *)
Definition typingMode (e : KeyEvent) (modifiers : Z) (loc : Locals) (w : Widget)
  : Outcome (Locals * Widget) :=
  if isPlain modifiers then
    if key_is e Qt.Key_Escape then ok loc (setMode Movement w)
    else if text_is e ESCAPEFIRST then
      ok (set_process true loc) (set_prevWasEscapeFirst true w)
    else if text_is e ESCAPESECOND then
      if prevWasEscapeFirst w then
        (* delete previous K and change to Movement *)
        ok loc (set_prevWasEscapeFirst false
                  (setMode Movement (SendScintilla SCI_DELETEBACK w)))
      else
        ok (set_process true loc) (set_prevWasEscapeFirst false w)
    else if isFnKey e then
      bind (processFnKeyEvent e w) (ok loc)
    else
      (* just write *)
      ok (set_process true loc) w
  else if (modifiers =? Qt.ControlModifier)%Z then
    if key_is e Qt.Key_I then ok loc (SendScintilla SCI_PAGEUP w)
    else if key_is e Qt.Key_K then ok loc (SendScintilla SCI_PAGEDOWN w)
    else ok loc w
  else if (modifiers =? Qt.AltModifier)%Z then
    if key_is e Qt.Key_I then ok loc (SendScintilla SCI_LINEUP w)
    else if key_is e Qt.Key_K then ok loc (SendScintilla SCI_LINEDOWN w)
    else if key_is e Qt.Key_J then ok loc (SendScintilla SCI_CHARLEFT w)
    else if key_is e Qt.Key_L then ok loc (SendScintilla SCI_CHARRIGHT w)
    else ok (set_process true loc) w
  else ok (set_process true loc) w.

(** The bodies of the loops of Movement mode *)

(* 'e' *)
Definition nextWordEnd (w : Widget) : Widget :=
  SendScintilla SCI_CHARLEFT
    (SendScintilla SCI_WORDRIGHTEND (SendScintilla SCI_CHARRIGHT w)).

(* 'J' *)
Definition joinLine (w : Widget) : Widget :=
  let line := fst (getCursorPosition (doc w)) in
  let nextLine := lstrip (text_of_line (doc w) (line + 1)) in
  let nextLine' :=
    match nextLine with
    | EmptyString => String LF EmptyString
    | _ => nextLine
    end in
  let w1 := insertAt (" " ++ nextLine') line (lineLength (doc w) line - 1) w in
  let w2 := SendScintilla SCI_LINEDOWN w1 in
  let w3 := SendScintilla SCI_LINEDELETE w2 in
  let w4 := SendScintilla SCI_LINEDELETE w3 in
  SendScintilla SCI_LINEUP w4.

(* 'W' *)
Definition nextWORD (w : Widget) : Widget :=
  let nextWordPos := findWORDPosition env Right w in
  if negb (nextWordPos =? -1)%Z then SendScintilla (SCI_GOTOPOS nextWordPos) w
  else w.

(* 'E' *)
Definition nextWORDEnd (w : Widget) : Widget :=
  let nextWordEndPos := findWORDPosition env Right w in
  if negb (nextWordEndPos =? -1)%Z then
    let w1 := SendScintilla (SCI_GOTOPOS nextWordEndPos) w in
    let wordEnd := findWordEnd env true w1 in
    SendScintilla (SCI_GOTOPOS wordEnd) w1
  else w.

(* 'B' *)
Definition prevWORDStart (w : Widget) : Widget :=
  let prevWordEndPos := findWORDPosition env Left w in
  if negb (prevWordEndPos =? -1)%Z then
    let w1 := SendScintilla (SCI_GOTOPOS prevWordEndPos) w in
    let wordStart := findWordStart env true w1 in
    SendScintilla (SCI_GOTOPOS wordStart) w1
  else w.

(* '>' and '<': the loop advances the local [curLine] *)
Definition shiftLine (op : Z -> Widget -> Doc) (lw : Locals * Widget)
  : Locals * Widget :=
  (set_curLine (curLine (fst lw) + 1) (fst lw),
   callDoc (op (curLine (fst lw))) (snd lw)).

(* 'P' *)
Definition pasteBelow (w : Widget) : Widget :=
  callDoc (sci_paste env) (callDoc (insertLine env Below) w).

(* Alt+E, Alt+B *)
Definition prevWordEnd (w : Widget) : Widget :=
  SendScintilla SCI_CHARLEFT (SendScintilla SCI_WORDLEFTEND w).

Definition prevWORDEnd (w : Widget) : Widget :=
  SendScintilla (SCI_GOTOPOS (findWORDPosition env Left w)) w.

(* ReplaceChar mode *)
Definition replaceOne (s : string) (w : Widget) : Widget :=
  let line := fst (getCursorPosition (doc w)) in
  let index := snd (getCursorPosition (doc w)) in
  let w1 := set_doc (setSelection line index line (index + 1) (doc w)) w in
  let w2 := SendScintilla SCI_CLEAR w1 in
  let w3 := insertAt s line index w2 in
  if (replaceModeRepeat w3 >? 1)%Z then
    set_doc (setCursorPosition line (index + 1) (doc w3)) w3
  else w3.

(** Movement mode, no modifier or Shift *)
Definition movementPlain (e : KeyEvent) (modifiers : Z) (loc : Locals) (w : Widget)
  : Outcome (Locals * Widget) :=
  if dict_in NUMSETKEYS (key e) then
    let r := processNumberPrefix (key e) w in
    let loc1 := set_clearnumberList (fst r) loc in
    if text_is e "0" && clearnumberList loc1 then
      (* 0 with buffer empty = goto beginning of line *)
      ok loc1 (SendScintilla SCI_HOME (snd r))
    else ok loc1 (snd r)
  else if text_is e "t" then ok loc (setMode Typing w)
  else if text_is e "a" then
    ok loc (setMode Typing (SendScintilla SCI_CHARRIGHT w))
  else if key_is e Qt.Key_Space then ok loc (setMode Command w)
  else if text_is e "i" then
    if (modifiers =? Qt.ControlModifier)%Z then
      ok loc (times (getNumberPrefix true w) (SendScintilla SCI_PAGEUP) w)
    else
      ok loc (times (getNumberPrefix true w) (SendScintilla SCI_LINEUP) w)
  else if key_is e Qt.Key_Backspace then
    ok loc (times (BACKSPACE_LINES * getNumberPrefix true w)
                  (SendScintilla SCI_LINEUP) w)
  else if text_is e "k" then
    if (modifiers =? Qt.ControlModifier)%Z then
      ok loc (times (getNumberPrefix true w) (SendScintilla SCI_PAGEDOWN) w)
    else
      ok loc (times (getNumberPrefix true w) (SendScintilla SCI_LINEDOWN) w)
  else if key_is e Qt.Key_Return then
    ok loc (times (RETURN_LINES * getNumberPrefix true w)
                  (SendScintilla SCI_LINEDOWN) w)
  else if text_is e "j" then
    ok loc (times (getNumberPrefix false w) (SendScintilla SCI_CHARLEFT) w)
  else if text_is e "l" then
    ok loc (times (getNumberPrefix false w) (SendScintilla SCI_CHARRIGHT) w)
  else if text_is e "w" then
    ok loc (times (getNumberPrefix false w) (SendScintilla SCI_WORDRIGHT) w)
  else if text_is e "b" then
    ok loc (times (getNumberPrefix false w) (SendScintilla SCI_WORDLEFT) w)
  else if text_is e "e" then
    ok loc (times (getNumberPrefix false w) nextWordEnd w)
  else if text_is e "u" then
    with_ReadWrite
      (fun w' => ok loc (times (getNumberPrefix false w') undo w')) w
  else if text_is e "s" then ok loc (SendScintilla SCI_VCHOME w)
  else if text_is e "o" then
    with_SingleUndo
      (fun w' =>
         ok loc (setMode Typing
                   (times (getNumberPrefix false w')
                          (callDoc (insertLine env Below)) w'))) w
  else if text_is e "O" then
    with_SingleUndo
      (fun w' =>
         ok loc (setMode Typing
                   (times (getNumberPrefix false w')
                          (callDoc (insertLine env Above)) w'))) w
  else if text_is e "g" then
    if negb (hasNumberPrefix w) then ok loc w
    else
      let line := getNumberPrefix true w in
      ok loc (SendScintilla (SCI_GOTOLINE (line - 1)) w)
  else if text_is e "r" then
    ok loc (setMode ReplaceChar
              (set_replaceModeRepeat (getNumberPrefix false w) w))
  else if text_is e "$" then
    ok loc (SendScintilla SCI_CHARLEFT (SendScintilla SCI_LINEEND w))
  else if text_is e "A" then
    ok loc (setMode Typing (SendScintilla SCI_LINEEND w))
  else if text_is e "I" then
    ok loc (setMode Typing (SendScintilla SCI_VCHOME w))
  else if text_is e "J" then
    with_ReadWriteSingleUndo
      (fun w' => ok loc (times (getNumberPrefix true w') joinLine w')) w
  else if text_is e "W" then
    ok loc (times (getNumberPrefix false w) nextWORD w)
  else if text_is e "E" then
    ok loc (times (getNumberPrefix false w) nextWORDEnd w)
  else if text_is e "B" then
    ok loc (times (getNumberPrefix false w) prevWORDStart w)
  else if text_is e "G" then
    ok loc (SendScintilla (SCI_GOTOLINE (lines (doc w))) w)
  else if text_is e "x" then
    with_ReadWriteSingleUndo
      (fun w' =>
         let num := getNumberPrefix false w' in
         let w1 := set_doc (setSelection (curLine loc) (curIndex loc)
                              (curLine loc) (curIndex loc + num) (doc w')) w' in
         ok loc (callDoc (sci_cut env) w1)) w
  else if text_is e "X" then
    with_ReadWriteSingleUndo
      (fun w' =>
         ok loc (times (getNumberPrefix false w')
                       (SendScintilla SCI_DELETEBACK) w')) w
  else if text_is e ">" then
    with_ReadWriteSingleUndo
      (fun w' =>
         Normal (times (getNumberPrefix false w')
                       (shiftLine (sci_indent env)) (loc, w'))) w
  else if text_is e "<" then
    with_ReadWriteSingleUndo
      (fun w' =>
         Normal (times (getNumberPrefix false w')
                       (shiftLine (sci_unindent env)) (loc, w'))) w
  else if text_is e "p" then
    with_ReadWriteSingleUndo
      (fun w' =>
         ok loc (times (getNumberPrefix false w')
                       (callDoc (sci_paste env)) w')) w
  else if text_is e "P" then
    with_ReadWriteSingleUndo
      (fun w' => ok loc (times (getNumberPrefix false w') pasteBelow w')) w
  else if text_is e "f" then
    ok loc (setMode FindChar (set_lineFindCharDirection Right w))
  else if text_is e "F" then
    ok loc (setMode FindChar (set_lineFindCharDirection Left w))
  else if text_is e ";" then
    ok loc (callDoc (jumpToCharInLineFromPos env (lineFindChar w)
                       (lineFindCharDirection w)) w)
  else if text_is e "," then
    let revDirection :=
      if Direction_eqb (lineFindCharDirection w) Left then Right else Left in
    ok loc (callDoc (jumpToCharInLineFromPos env (lineFindChar w) revDirection) w)
  else if text_is e "d" then
    if negb (hasNumberPrefix w) then ok loc w
    else
      with_ReadWrite
        (fun w' => ok loc (callDoc (deleteLines env Below) w')) w
  else if text_is e "D" then
    with_ReadWrite (fun w' => ok loc (callDoc (deleteToEOL env) w')) w
  else if text_is e "c" then
    if negb (hasNumberPrefix w) then ok loc w
    else
      with_ReadWrite
        (fun w' =>
           ok loc (setMode Typing (callDoc (deleteLines env Below) w'))) w
  else if text_is e "C" then
    with_ReadWrite
      (fun w' => ok loc (setMode Typing (callDoc (deleteToEOL env) w'))) w
  else if text_is e "y" || text_is e "Y" then
    if negb (SelectionMode_eqb (selectionMode w) SelectionMode.Disabled) then
      (* with selection, both copy the selection *)
      ok loc (callSel (disableSelection env) (callDoc (sci_copy env) w))
    else if text_is e "y" then
      if hasNumberPrefix w then ok loc (callDoc (yankLines env Below) w)
      else ok loc w
    else if text_is e "Y" then ok loc (callDoc (yankLines env Below) w)
    else ok loc w
  else if text_is e "v" then
    ok loc (callSel (toggleSelection env SelectionMode.Character) w)
  else if text_is e "V" then
    ok loc (callSel (toggleSelection env SelectionMode.Line) w)
  else if text_is e "*" then
    ok loc (set_lastSearchDirection Below
              (callSearch (findWordUnderCursor env None) w))
  else if text_is e "#" then
    ok loc (set_lastSearchDirection Above
              (callSearch (findWordUnderCursor env (Some Above)) w))
  else if text_is e "n" then
    ok loc (callSearch (repeatLastSearch env (lastSearchDirection w)) w)
  else if text_is e "N" then
    let direction :=
      if Direction_eqb (lastSearchDirection w) Below then Above else Below in
    ok loc (callSearch (repeatLastSearch env direction) w)
  else if isFnKey e then bind (processFnKeyEvent e w) (ok loc)
  else
    (* probably single modifier key pressed *)
    ok (set_clearnumberList false loc) w.

(** Movement mode, Alt *)
Definition movementAlt (e : KeyEvent) (loc : Locals) (w : Widget)
  : Outcome (Locals * Widget) :=
  if key_is e Qt.Key_E then
    ok loc (times (getNumberPrefix false w) prevWordEnd w)
  else if key_is e Qt.Key_B then
    ok loc (times (getNumberPrefix false w) prevWORDEnd w)
  else if key_is e Qt.Key_U then
    with_ReadWrite
      (fun w' => ok loc (times (getNumberPrefix false w') redo w')) w
  else ok loc w.

(** Movement mode, Control *)
Definition movementControl (e : KeyEvent) (loc : Locals) (w : Widget)
  : Outcome (Locals * Widget) :=
  if key_is e Qt.Key_I then
    ok loc (times (getNumberPrefix true w) (SendScintilla SCI_PAGEUP) w)
  else if key_is e Qt.Key_K then
    ok loc (times (getNumberPrefix true w) (SendScintilla SCI_PAGEDOWN) w)
  else if key_is e Qt.Key_C then
    if negb (SelectionMode_eqb (selectionMode w) SelectionMode.Disabled) then
      ok loc (callSel (disableSelection env) (callDoc (sci_copy env) w))
    else ok loc (callDoc (yankToEOL env true) w)
  else if key_is e Qt.Key_V then
    if negb (SelectionMode_eqb (selectionMode w) SelectionMode.Disabled) then
      ok loc (callSel (changeSelectionMode env SelectionMode.Rectangular) w)
    else
      with_ReadWriteSingleUndo
        (fun w' =>
           ok loc (times (getNumberPrefix false w')
                         (callDoc (sci_paste env)) w')) w
  else ok loc w.

Definition movementMode (e : KeyEvent) (modifiers : Z) (loc : Locals) (w : Widget)
  : Outcome (Locals * Widget) :=
  if isPlain modifiers then movementPlain e modifiers loc w
  else if (modifiers =? Qt.AltModifier)%Z then movementAlt e loc w
  else if (modifiers =? Qt.ControlModifier)%Z then movementControl e loc w
  else ok loc w.

(** Command mode *)
Definition processCommand (w : Widget) : Widget := w.

Definition commandMode (e : KeyEvent) (loc : Locals) (w : Widget)
  : Outcome (Locals * Widget) :=
  if key_is e Qt.Key_Escape then ok loc (setMode Movement w)
  else if key_is e Qt.Key_Return then
    ok loc (setMode Movement (processCommand w))
  else ok loc w.

(** ReplaceChar mode *)
Definition replaceCharMode (e : KeyEvent) (loc : Locals) (w : Widget)
  : Outcome (Locals * Widget) :=
  if key_is e Qt.Key_Escape then ok loc (setMode Movement w)
  else if String.eqb (text e) "" then ok loc w
  else
    bind
      (with_ReadWriteSingleUndo
         (fun w' =>
            ok loc (times (replaceModeRepeat w') (replaceOne (text e)) w')) w)
      (fun r =>
         ok (fst r) (setMode Movement (set_replaceModeRepeat 1 (snd r)))).

(** FindChar mode *)
Definition findCharMode (e : KeyEvent) (loc : Locals) (w : Widget)
  : Outcome (Locals * Widget) :=
  if key_is e Qt.Key_Escape then ok loc (setMode Movement w)
  else if String.eqb (text e) "" then ok loc w
  else
    let w1 := set_lineFindChar (text e) w in
    ok loc (setMode Movement
              (callDoc (jumpToCharInLineFromPos env (lineFindChar w1)
                          (lineFindCharDirection w1)) w1)).

(** What follows the mode branches: the escape flag, the number prefix,
    the base handler and the position signal. *)
Definition finishKey (e : KeyEvent) (r : Locals * Widget) : Widget :=
  let loc := fst r in
  let w := snd r in
  let w1 :=
    if prevWasEscapeFirst w && negb (text_is e ESCAPEFIRST) then
      (* clear the escape chord if the second char doesnt follows the first *)
      set_prevWasEscapeFirst false w
    else w in
  let w2 := if clearnumberList loc then set_numberList [] w1 else w1 in
  let w3 := if process loc then baseKeyPressEvent e w2 else w2 in
  (* check the cursor position; if changed, emit the positionChanged signal *)
  let endLine := fst (getCursorPosition (doc w3)) in
  let endIndex := snd (getCursorPosition (doc w3)) in
  if negb (endLine =? curLine loc)%Z || negb (endIndex =? curIndex loc)%Z then
    emit (PositionChanged endLine endIndex) w3
  else w3.

Definition dispatch (e : KeyEvent) (w : Widget) : Outcome (Locals * Widget) :=
  let modifiers :=
    if (modifiers e =? Qt.GroupSwitchModifier)%Z then
      (* altgr, just ignore it and get the e.text() where checked *)
      Qt.NoModifier
    else modifiers e in
  let loc :=
    {| process := false; clearnumberList := true;
       curLine := fst (getCursorPosition (doc w));
       curIndex := snd (getCursorPosition (doc w)) |} in
  match mode w with
  | Some Typing => typingMode e modifiers loc w
  | Some Movement => movementMode e modifiers loc w
  | Some Command => commandMode e loc w
  | Some ReplaceChar => replaceCharMode e loc w
  | Some FindChar => findCharMode e loc w
  | None => ok loc w
  end.

(** [keyPressEvent] *)
Definition keyPressEvent (e : KeyEvent) (w : Widget) : Outcome Widget :=
  bind (dispatch e w) (fun r => Normal (finishKey e r)).

(** The widget as [__init__] leaves it, over a given document. *)
Definition newWidget (d : Doc) : Widget :=
  let w0 :=
    {| mode := None; numberList := []; prevWasEscapeFirst := false;
       replaceModeRepeat := 1; lineFindChar := "";
       lineFindCharDirection := Right;
       selectionMode := SelectionMode.Disabled; lastSearchText := "";
       lastSearchDirection := Below; lastSearchFlags := 0;
       bufferFileName := None; readOnly := false; caretStyle := 1;
       undoDepth := 0; groupOpen := false; doc := d;
       signals := []; sent := [] |} in
  setMode Movement w0.

End Model.

Arguments Normal {X A} a.
Arguments Raised {X A} x w.

(** ** A sample of collaborators

    One choice of the open operations, used to run the handler on
    examples: the aimed-at column is the column of the caret, indenting
    puts a tab in front of the line, the other operations leave the
    document as it is, no word is ever found and files are written. *)

Definition TAB : ascii := ascii_of_nat 9.

Definition keepDoc (w : Widget unit) : Doc unit := doc w.

Definition tabIndent (line : Z) (w : Widget unit) : Doc unit :=
  doc (insertString
         (lineStart (content (doc w)) (Z.to_nat line)) [TAB] w).

Definition sampleCollab : Collab unit :=
  {| xChosen := fun d => caret d - lineStart (content d) (caretLine d);
     sciOther := fun _ d => d;
     baseOther := fun _ w => doc w;
     sci_cut := keepDoc; sci_copy := keepDoc; sci_paste := keepDoc;
     sci_indent := tabIndent; sci_unindent := fun _ => keepDoc;
     sci_isModified := fun _ => false; sci_setModified := fun _ d => d;
     insertLine := fun _ => keepDoc; deleteLines := fun _ => keepDoc;
     deleteToEOL := keepDoc; yankLines := fun _ => keepDoc;
     yankToEOL := fun _ => keepDoc;
     jumpToCharInLineFromPos := fun _ _ => keepDoc;
     findWORDPosition := fun _ _ => (-1)%Z;
     findWordEnd := fun _ _ => 0%Z; findWordStart := fun _ _ => 0%Z;
     toggleSelection := fun m w => (doc w, m);
     changeSelectionMode := fun m w => (doc w, m);
     disableSelection := fun w => (doc w, SelectionMode.Disabled);
     findWordUnderCursor := fun _ w => (doc w, (EmptyString, 0%Z));
     repeatLastSearch := fun _ w => (doc w, (EmptyString, 0%Z));
     writeFile := fun _ _ => true |}.

(* A document with the given lines and the caret at offset [c], nothing
   selected and no history. *)
Definition docOf (ls : list string) (c : nat) : Doc unit :=
  {| content := joinLines ls; caret := c; anchor := c; moveExtends := false;
     undoLog := []; redoLog := []; ext := tt |}.

(* A key pressed with no modifier held. *)
Definition plainKey (k : Z) (t : string) : KeyEvent :=
  {| key := k; text := t; modifiers := Qt.NoModifier |}.

Section Runs.

Variable X : Type.
Variable env : Collab X.

(* The handler run on a sequence of events; a raised exception ends the
   handling of its event and the next event finds the state it left. *)
Definition pressAll (es : list KeyEvent) (w : Widget X) : Widget X :=
  fold_left (fun w' e => finalState (keyPressEvent env e w')) es w.

(* The signals emitted, and the messages sent, on the way from [w] to [w']. *)
Definition emittedBetween (w w' : Widget X) : list Signal :=
  skipn (List.length (signals w)) (signals w').

Definition sentBetween (w w' : Widget X) : list SciMsg :=
  skipn (List.length (sent w)) (sent w').

(** The states the widget can be in: as constructed, after a key event
    (handled to the end, or left by an exception), and after the document
    changed by other means (the window loading a file, the mouse). *)
Inductive reachable : Widget X -> Prop :=
| reach_new : forall d, reachable (newWidget env d)
| reach_key : forall e w, reachable w ->
    reachable (finalState (keyPressEvent env e w))
| reach_doc : forall d w, reachable w -> reachable (set_doc d w).

End Runs.

(** ** Vocabulary of the statements *)

(* The attributes that the text component and the helper class never write. *)
Definition core {X : Type} (w : Widget X) :=
  (mode w, numberList w, prevWasEscapeFirst w, replaceModeRepeat w,
   readOnly w, undoDepth w, signals w).

(* The keys that Movement mode, without modifier or with Shift, maps to a
   command: by their text, or by their key code. *)
Definition commandTexts : list string :=
  [ "t"; "a"; "i"; "k"; "j"; "l"; "w"; "b"; "e"; "u"; "s"; "o"; "O"; "g";
    "r"; "$"; "A"; "I"; "J"; "W"; "E"; "B"; "G"; "x"; "X"; ">"; "<"; "p";
    "P"; "f"; "F"; ";"; ","; "d"; "D"; "c"; "C"; "y"; "Y"; "v"; "V"; "*";
    "#"; "n"; "N" ]%string.

Definition commandKeys : list Z :=
  [ Qt.Key_Space; Qt.Key_Backspace; Qt.Key_Return;
    Qt.Key_F1; Qt.Key_F2; Qt.Key_F3 ].

Definition isCommand (e : KeyEvent) : bool :=
  existsb (text_is e) commandTexts || existsb (key_is e) commandKeys.

(* The modifiers the handler works with: AltGr counts as none. *)
Definition effectiveModifiers (e : KeyEvent) : Z :=
  if (modifiers e =? Qt.GroupSwitchModifier)%Z then Qt.NoModifier
  else modifiers e.

(* The key of decimal digit [d], pressed with no modifier. *)
Definition digitText (d : nat) : string :=
  String (ascii_of_nat (48 + d)) EmptyString.

Definition digitKey (d : nat) : KeyEvent :=
  plainKey (Qt.Key_0 + Z.of_nat d) (digitText d).

(* int(digits) for a sequence of decimal digits *)
Definition digitsValue (ds : list nat) : Z :=
  fold_left (fun a d => (10 * a + Z.of_nat d)%Z) ds 0%Z.

(* The motions that repeat one message of the text component. *)
Inductive Motion := CharLeft | CharRight | WordRight | WordLeft | LineUp | LineDown.

Definition motionKey (m : Motion) : KeyEvent :=
  match m with
  | CharLeft => plainKey Qt.Key_J "j"
  | CharRight => plainKey Qt.Key_L "l"
  | WordRight => plainKey 0x57 "w"
  | WordLeft => plainKey Qt.Key_B "b"
  | LineUp => plainKey Qt.Key_I "i"
  | LineDown => plainKey Qt.Key_K "k"
  end.

Definition motionMsg (m : Motion) : SciMsg :=
  match m with
  | CharLeft => SCI_CHARLEFT
  | CharRight => SCI_CHARRIGHT
  | WordRight => SCI_WORDRIGHT
  | WordLeft => SCI_WORDLEFT
  | LineUp => SCI_LINEUP
  | LineDown => SCI_LINEDOWN
  end.

(* The line motions cap their count at the number of lines. *)
Definition motionCapped (m : Motion) : bool :=
  match m with
  | LineUp | LineDown => true
  | _ => false
  end.

(* The number prefix that a key event of Movement mode leaves behind. *)
Definition prefixAfter {X : Type} (e : KeyEvent) (w : Widget X) : list string :=
  if isPlain (effectiveModifiers e) then
    match dict_get NUMSETKEYS (key e) with
    | Some d =>
        if String.eqb d "0" && Nat.eqb (List.length (numberList w)) 0 then []
        else numberList w ++ [d]
    | None => if isCommand e then [] else numberList w
    end
  else [].

(* A digit as [NUMSETKEYS] has it. *)
Definition isDigitText (s : string) : Prop := In s (map snd NUMSETKEYS).

(* The state an outcome of a [with] block ends in. *)
Definition endState {X A : Type} (o : Outcome X (A * Widget X)) : Widget X :=
  match o with Normal r => snd r | Raised _ w => w end.

(* The undo group being filled while an undo action is open, and the
   groups below it. *)
Definition openGroup {X : Type} (w : Widget X) : list Action :=
  if groupOpen w then hd [] (undoLog (doc w)) else [].

Definition closedLog {X : Type} (w : Widget X) : list (list Action) :=
  if groupOpen w then tl (undoLog (doc w)) else undoLog (doc w).

(* An undo group is being filled. *)
Definition opened {X : Type} (w : Widget X) : Prop :=
  groupOpen w = true /\ undoLog (doc w) <> [].

(* The text that undoing the actions of [g], latest first, gives. *)
Definition restored (g : list Action) (t : list ascii) : list ascii :=
  fold_left (fun c a => fst (unapplyAction a c)) g t.

(* Column of the end of [pre] in its last line. *)
Definition columnOf (pre : list ascii) : nat :=
  List.length pre - lineStart pre (countLF pre).

(* The sample collaborators over a text component that reports a
   modification. *)
Definition modifiedCollab : Collab unit :=
  {| xChosen := xChosen sampleCollab;
     sciOther := sciOther sampleCollab;
     baseOther := baseOther sampleCollab;
     sci_cut := sci_cut sampleCollab; sci_copy := sci_copy sampleCollab;
     sci_paste := sci_paste sampleCollab;
     sci_indent := sci_indent sampleCollab;
     sci_unindent := sci_unindent sampleCollab;
     sci_isModified := fun _ => true;
     sci_setModified := sci_setModified sampleCollab;
     insertLine := insertLine sampleCollab;
     deleteLines := deleteLines sampleCollab;
     deleteToEOL := deleteToEOL sampleCollab;
     yankLines := yankLines sampleCollab;
     yankToEOL := yankToEOL sampleCollab;
     jumpToCharInLineFromPos := jumpToCharInLineFromPos sampleCollab;
     findWORDPosition := findWORDPosition sampleCollab;
     findWordEnd := findWordEnd sampleCollab;
     findWordStart := findWordStart sampleCollab;
     toggleSelection := toggleSelection sampleCollab;
     changeSelectionMode := changeSelectionMode sampleCollab;
     disableSelection := disableSelection sampleCollab;
     findWordUnderCursor := findWordUnderCursor sampleCollab;
     repeatLastSearch := repeatLastSearch sampleCollab;
     writeFile := writeFile sampleCollab |}.

(* A key event with no modifier or with Shift whose text is [s], the key
   being no digit and none of Space, Backspace and Return: the event of a
   key that types [s]. *)
Definition typedKey (s : string) (e : KeyEvent) : Prop :=
  isPlain (effectiveModifiers e) = true /\ text e = s /\
  dict_in NUMSETKEYS (key e) = false /\
  key_is e Qt.Key_Space = false /\ key_is e Qt.Key_Backspace = false /\
  key_is e Qt.Key_Return = false.

(* Qt::KeypadModifier, which the keys of the numeric keypad carry *)
Definition KeypadModifier : Z := 0x20000000.

(* A key event of the digit [d] as Movement mode takes it: the key of the
   digit with no modifier, with Shift or with AltGr, whatever its text. *)
Definition isDigitEvent (d : nat) (e : KeyEvent) : Prop :=
  key e = (Qt.Key_0 + Z.of_nat d)%Z /\ isPlain (effectiveModifiers e) = true.

(* The commands of Movement mode that move the cursor and nothing else. *)
Inductive MotionCommand :=
| Cmd_j | Cmd_l | Cmd_w | Cmd_b | Cmd_e | Cmd_W | Cmd_E | Cmd_B
| Cmd_i | Cmd_k | Cmd_Backspace | Cmd_Return
| Cmd_s | Cmd_dollar | Cmd_G | Cmd_g
| Cmd_semicolon | Cmd_comma | Cmd_star | Cmd_hash | Cmd_n | Cmd_N
| Cmd_AltE | Cmd_AltB | Cmd_CtrlI | Cmd_CtrlK.

(* The text of the commands that are told by their text. *)
Definition commandText (c : MotionCommand) : option string :=
  match c with
  | Cmd_j => Some "j" | Cmd_l => Some "l" | Cmd_w => Some "w"
  | Cmd_b => Some "b" | Cmd_e => Some "e" | Cmd_W => Some "W"
  | Cmd_E => Some "E" | Cmd_B => Some "B" | Cmd_i => Some "i"
  | Cmd_k => Some "k" | Cmd_s => Some "s" | Cmd_dollar => Some "$"
  | Cmd_G => Some "G" | Cmd_g => Some "g" | Cmd_semicolon => Some ";"
  | Cmd_comma => Some "," | Cmd_star => Some "*" | Cmd_hash => Some "#"
  | Cmd_n => Some "n" | Cmd_N => Some "N"
  | _ => None
  end%string.

(* The key events of a command: a key that types the text of the command;
   Backspace and Return with the text Qt gives them; a letter key with
   Alt or with Control. *)
Definition isCommandEvent (c : MotionCommand) (e : KeyEvent) : Prop :=
  match c with
  | Cmd_Backspace =>
      isPlain (effectiveModifiers e) = true /\ key e = Qt.Key_Backspace /\
      text e = String (ascii_of_nat 8) EmptyString
  | Cmd_Return =>
      isPlain (effectiveModifiers e) = true /\ key e = Qt.Key_Return /\
      text e = String (ascii_of_nat 13) EmptyString
  | Cmd_AltE => effectiveModifiers e = Qt.AltModifier /\ key e = Qt.Key_E
  | Cmd_AltB => effectiveModifiers e = Qt.AltModifier /\ key e = Qt.Key_B
  | Cmd_CtrlI => effectiveModifiers e = Qt.ControlModifier /\ key e = Qt.Key_I
  | Cmd_CtrlK => effectiveModifiers e = Qt.ControlModifier /\ key e = Qt.Key_K
  | _ => match commandText c with
         | Some s => typedKey s e
         | None => False
         end
  end.

(* How many times the code of a command runs after the digits [ds], typed
   on an empty prefix, in a document of [nlines] lines. *)
Definition motionRounds (c : MotionCommand) (ds : list nat) (nlines : Z) : nat :=
  let v := Z.max 1 (digitsValue ds) in
  match c with
  | Cmd_j | Cmd_l | Cmd_w | Cmd_b | Cmd_e | Cmd_W | Cmd_E | Cmd_B
  | Cmd_AltE | Cmd_AltB => Z.to_nat v
  | Cmd_i | Cmd_k | Cmd_CtrlI | Cmd_CtrlK => Z.to_nat (Z.min v nlines)
  | Cmd_Backspace => Z.to_nat (BACKSPACE_LINES * Z.min v nlines)
  | Cmd_Return => Z.to_nat (RETURN_LINES * Z.min v nlines)
  | Cmd_g => if (digitsValue ds =? 0)%Z then 0 else 1
  | _ => 1
  end.

(* The code of a command that runs that many times: the body of its loop,
   or its whole branch when it has no loop. *)
Definition motionRound {X : Type} (env : Collab X) (c : MotionCommand)
  : Widget X -> Widget X :=
  match c with
  | Cmd_j => SendScintilla env SCI_CHARLEFT
  | Cmd_l => SendScintilla env SCI_CHARRIGHT
  | Cmd_w => SendScintilla env SCI_WORDRIGHT
  | Cmd_b => SendScintilla env SCI_WORDLEFT
  | Cmd_e => nextWordEnd env
  | Cmd_W => nextWORD env
  | Cmd_E => nextWORDEnd env
  | Cmd_B => prevWORDStart env
  | Cmd_i | Cmd_Backspace => SendScintilla env SCI_LINEUP
  | Cmd_k | Cmd_Return => SendScintilla env SCI_LINEDOWN
  | Cmd_s => SendScintilla env SCI_VCHOME
  | Cmd_dollar =>
      fun w => SendScintilla env SCI_CHARLEFT (SendScintilla env SCI_LINEEND w)
  | Cmd_G => fun w => SendScintilla env (SCI_GOTOLINE (lines (doc w))) w
  | Cmd_g =>
      fun w => SendScintilla env (SCI_GOTOLINE (getNumberPrefix true w - 1)) w
  | Cmd_semicolon =>
      fun w => callDoc (jumpToCharInLineFromPos env (lineFindChar w)
                          (lineFindCharDirection w)) w
  | Cmd_comma =>
      fun w => callDoc (jumpToCharInLineFromPos env (lineFindChar w)
                          (if Direction_eqb (lineFindCharDirection w) Left
                           then Right else Left)) w
  | Cmd_star =>
      fun w => set_lastSearchDirection Below
                 (callSearch (findWordUnderCursor env None) w)
  | Cmd_hash =>
      fun w => set_lastSearchDirection Above
                 (callSearch (findWordUnderCursor env (Some Above)) w)
  | Cmd_n =>
      fun w => callSearch (repeatLastSearch env (lastSearchDirection w)) w
  | Cmd_N =>
      fun w => callSearch
                 (repeatLastSearch env
                    (if Direction_eqb (lastSearchDirection w) Below
                     then Above else Below)) w
  | Cmd_AltE => prevWordEnd env
  | Cmd_AltB => prevWORDEnd env
  | Cmd_CtrlI => SendScintilla env SCI_PAGEUP
  | Cmd_CtrlK => SendScintilla env SCI_PAGEDOWN
  end.

(* The messages one run sends to the text component, for the commands
   that send the same ones every time. *)
Definition roundMessages (c : MotionCommand) (ds : list nat) (nlines : Z)
  : option (list SciMsg) :=
  match c with
  | Cmd_j => Some [SCI_CHARLEFT]
  | Cmd_l => Some [SCI_CHARRIGHT]
  | Cmd_w => Some [SCI_WORDRIGHT]
  | Cmd_b => Some [SCI_WORDLEFT]
  | Cmd_e => Some [SCI_CHARRIGHT; SCI_WORDRIGHTEND; SCI_CHARLEFT]
  | Cmd_i | Cmd_Backspace => Some [SCI_LINEUP]
  | Cmd_k | Cmd_Return => Some [SCI_LINEDOWN]
  | Cmd_s => Some [SCI_VCHOME]
  | Cmd_dollar => Some [SCI_LINEEND; SCI_CHARLEFT]
  | Cmd_G => Some [SCI_GOTOLINE nlines]
  | Cmd_g =>
      Some [SCI_GOTOLINE (Z.min (Z.max 1 (digitsValue ds)) nlines - 1)]
  | Cmd_AltE => Some [SCI_WORDLEFTEND; SCI_CHARLEFT]
  | Cmd_CtrlI => Some [SCI_PAGEUP]
  | Cmd_CtrlK => Some [SCI_PAGEDOWN]
  | _ => None
  end.

(* How many times the code of a command runs, as the handler computes it
   from the number prefix. *)
Definition roundsAt {X : Type} (c : MotionCommand) (w : Widget X) : nat :=
  match c with
  | Cmd_j | Cmd_l | Cmd_w | Cmd_b | Cmd_e | Cmd_W | Cmd_E | Cmd_B
  | Cmd_AltE | Cmd_AltB => Z.to_nat (getNumberPrefix false w)
  | Cmd_i | Cmd_k | Cmd_CtrlI | Cmd_CtrlK => Z.to_nat (getNumberPrefix true w)
  | Cmd_Backspace => Z.to_nat (BACKSPACE_LINES * getNumberPrefix true w)
  | Cmd_Return => Z.to_nat (RETURN_LINES * getNumberPrefix true w)
  | Cmd_g => if hasNumberPrefix w then 1 else 0
  | _ => 1
  end.

(** * Properties *)

(** ** Lists and text *)

Lemma skipn_length_app {A : Type} (l r : list A) :
  skipn (List.length l) (l ++ r) = r.
Proof. induction l as [|a l IH]; simpl; auto. Qed.

Lemma skipn_length_self {A : Type} (l : list A) :
  skipn (List.length l) l = [].
Proof. induction l as [|a l IH]; simpl; auto. Qed.

Lemma lineStart_le (t : list ascii) : forall l, lineStart t l <= List.length t.
Proof.
  induction t as [|c t IH]; intros [|l]; simpl; try lia.
  destruct (isLF c); [specialize (IH l) | specialize (IH (S l))]; lia.
Qed.

Lemma countLF_firstn_le (t : list ascii) : forall p, countLF (firstn p t) <= countLF t.
Proof.
  induction t as [|c t IH]; intros [|p]; simpl; try lia.
  specialize (IH p). destruct (isLF c); lia.
Qed.

Lemma lineFromPosition_lineStart (t : list ascii) :
  forall l, l <= countLF t -> lineFromPosition t (lineStart t l) = l.
Proof.
  unfold lineFromPosition.
  induction t as [|c t IH]; intros [|l] Hl; simpl in *; try reflexivity; try lia.
  destruct (isLF c) eqn:Hc; simpl; rewrite ?Hc.
  - f_equal. apply IH. lia.
  - apply IH. lia.
Qed.

Lemma lineStart_lineFromPosition_le (t : list ascii) :
  forall p, lineStart t (lineFromPosition t p) <= p.
Proof.
  unfold lineFromPosition.
  induction t as [|c t IH]; intros [|p]; simpl; try lia.
  specialize (IH p).
  destruct (isLF c) eqn:Hc; simpl; rewrite ?Hc.
  - lia.
  - destruct (countLF (firstn p t)) eqn:Hn; simpl; rewrite ?Hc; lia.
Qed.

Lemma EditorMode_eqb_refl (m : EditorMode) : EditorMode_eqb m m = true.
Proof. destruct m; reflexivity. Qed.

Lemma EditorMode_eqb_eq (a b : EditorMode) : EditorMode_eqb a b = true -> a = b.
Proof. destruct a, b; simpl; congruence. Qed.

Lemma isPlain_cases (m : Z) :
  isPlain m = true -> m = Qt.NoModifier \/ m = Qt.ShiftModifier.
Proof.
  unfold isPlain. intros H. apply orb_true_iff in H.
  destruct H as [H|H]; apply Z.eqb_eq in H; auto.
Qed.

Lemma effectiveModifiers_plain (e : KeyEvent) :
  isPlain (modifiers e) = true -> effectiveModifiers e = modifiers e.
Proof.
  intros H. unfold effectiveModifiers.
  destruct (isPlain_cases _ H) as [E|E]; rewrite E; reflexivity.
Qed.

(** ** Frames: what the text component leaves alone *)

Section Frames.

Variable X : Type.
Variable env : Collab X.

Ltac break_step :=
  match goal with
  | |- context [if ?b then _ else _] => destruct b
  | |- context [match ?x with _ => _ end] => destruct x
  end.

Lemma core_insertString p s (w : Widget X) : core (insertString p s w) = core w.
Proof. unfold insertString. repeat break_step; reflexivity. Qed.

Lemma core_deleteChars p n (w : Widget X) : core (deleteChars p n w) = core w.
Proof. unfold deleteChars. repeat break_step; reflexivity. Qed.

Lemma core_clearSelection (w : Widget X) : core (clearSelection w) = core w.
Proof.
  unfold clearSelection. destruct (selectionEmpty (doc w)); [reflexivity|].
  cbn. apply core_deleteChars.
Qed.

Lemma core_sciExec m (w : Widget X) : core (sciExec env m w) = core w.
Proof.
  destruct m; cbn; try reflexivity.
  - unfold sci_deleteBack. destruct (selectionEmpty (doc w)).
    + destruct (caret (doc w)); [reflexivity | apply core_deleteChars].
    + apply core_clearSelection.
  - unfold sci_clear. destruct (selectionEmpty (doc w)).
    + apply core_deleteChars.
    + apply core_clearSelection.
  - apply core_deleteChars.
Qed.

Lemma core_SendScintilla m (w : Widget X) : core (SendScintilla env m w) = core w.
Proof. unfold SendScintilla. rewrite core_sciExec. reflexivity. Qed.

Lemma core_callDoc f (w : Widget X) : core (callDoc f w) = core w.
Proof. reflexivity. Qed.

Lemma core_callSel f (w : Widget X) : core (callSel f w) = core w.
Proof. reflexivity. Qed.

Lemma core_callSearch f (w : Widget X) : core (callSearch f w) = core w.
Proof. reflexivity. Qed.

Lemma core_times (f : Widget X -> Widget X) :
  (forall w, core (f w) = core w) ->
  forall n w, core (times n f w) = core w.
Proof.
  intros Hf n w. unfold times.
  induction (Z.to_nat n) as [|k IH]; simpl; [reflexivity|].
  rewrite Hf. exact IH.
Qed.

End Frames.

(** A function of the widget that leaves the core attributes alone. *)
Class Keeps {X : Type} (f : Widget X -> Widget X) : Prop :=
  keeps : forall w, core (f w) = core w.

Section KeepsFields.

Variable X : Type.
Variable f : Widget X -> Widget X.
Context `{K : Keeps X f}.

Lemma mode_keeps w : mode (f w) = mode w.
Proof. pose proof (keeps w) as H. unfold core in H. congruence. Qed.

Lemma numberList_keeps w : numberList (f w) = numberList w.
Proof. pose proof (keeps w) as H. unfold core in H. congruence. Qed.

Lemma prevWasEscapeFirst_keeps w : prevWasEscapeFirst (f w) = prevWasEscapeFirst w.
Proof. pose proof (keeps w) as H. unfold core in H. congruence. Qed.

Lemma replaceModeRepeat_keeps w : replaceModeRepeat (f w) = replaceModeRepeat w.
Proof. pose proof (keeps w) as H. unfold core in H. congruence. Qed.

Lemma readOnly_keeps w : readOnly (f w) = readOnly w.
Proof. pose proof (keeps w) as H. unfold core in H. congruence. Qed.

Lemma undoDepth_keeps w : undoDepth (f w) = undoDepth w.
Proof. pose proof (keeps w) as H. unfold core in H. congruence. Qed.

Lemma signals_keeps w : signals (f w) = signals w.
Proof. pose proof (keeps w) as H. unfold core in H. congruence. Qed.

End KeepsFields.

Section KeepsInstances.

Variable X : Type.
Variable env : Collab X.

#[local] Ltac break_step :=
  match goal with
  | |- context [if ?b then _ else _] => destruct b
  | |- context [match ?x with _ => _ end] => destruct x
  end.

#[global] Instance keeps_SendScintilla m : Keeps (SendScintilla env m).
Proof. intro w. apply core_SendScintilla. Qed.

#[global] Instance keeps_callDoc (g : Widget X -> Doc X) : Keeps (callDoc g).
Proof. intro w. reflexivity. Qed.

#[global] Instance keeps_callSel g : Keeps (@callSel X g).
Proof. intro w. reflexivity. Qed.

#[global] Instance keeps_callSearch g : Keeps (@callSearch X g).
Proof. intro w. reflexivity. Qed.

#[global] Instance keeps_set_doc (d : Doc X) : Keeps (set_doc d).
Proof. intro w. reflexivity. Qed.

#[global] Instance keeps_times n (g : Widget X -> Widget X) `{Keeps X g} :
  Keeps (times n g).
Proof. intro w. apply core_times. exact keeps. Qed.

#[global] Instance keeps_insertString p s : Keeps (@insertString X p s).
Proof. intro w. apply core_insertString. Qed.

#[global] Instance keeps_deleteChars p n : Keeps (@deleteChars X p n).
Proof. intro w. apply core_deleteChars. Qed.

#[global] Instance keeps_sci_insertText pos s : Keeps (@sci_insertText X pos s).
Proof.
  intro w. unfold sci_insertText.
  change (core (insertString (if (pos =? -1)%Z then caret (doc w) else Z.to_nat pos) s w)
          = core w).
  apply core_insertString.
Qed.

(* Closing the undo action that a block opened gives the nesting back. *)
Lemma core_endUndoAction_opened (g : Widget X -> Widget X) `{Keeps X g} (w : Widget X) :
  core (endUndoAction (g (beginUndoAction w))) = core w.
Proof.
  pose proof (keeps (beginUndoAction w)) as H0. unfold core in H0.
  unfold endUndoAction.
  destruct (undoDepth (g (beginUndoAction w))) eqn:E;
    cbn in H0; [congruence|].
  unfold core; cbn. congruence.
Qed.

#[global] Instance keeps_insertAt s line index : Keeps (@insertAt X s line index).
Proof.
  intro w. unfold insertAt, setReadOnly.
  set (pos := positionFromLineIndex (doc w) line index).
  pose proof (@core_endUndoAction_opened
                (sci_insertText pos (list_ascii_of_string s)) _
                (set_readOnly false w)) as H0.
  unfold core in *. cbn in *. congruence.
Qed.

#[global] Instance keeps_addCharUTF s : Keeps (@addCharUTF X s).
Proof.
  intro w. unfold addCharUTF.
  destruct (negb (selectionEmpty (doc w))).
  - set (p := selStart (doc w)).
    assert (Kg : Keeps (fun v : Widget X =>
                          insertString p s (deleteChars p (selEnd (doc w) - p) v))).
    { intro v. rewrite core_insertString. apply core_deleteChars. }
    destruct (readOnly w || Nat.eqb (List.length s) 0).
    + apply (@core_endUndoAction_opened _ Kg w).
    + pose proof (@core_endUndoAction_opened _ Kg w) as H0.
      unfold endUndoAction in *. cbn in *.
      destruct (undoDepth
                  (insertString p s
                     (deleteChars p (selEnd (doc w) - p) (beginUndoAction w))));
        exact H0.
  - destruct (readOnly w || Nat.eqb (List.length s) 0).
    + apply core_insertString.
    + unfold core. cbn.
      change (core (insertString (selStart (doc w)) s w) = core w).
      apply core_insertString.
Qed.

#[global] Instance keeps_baseKeyPressEvent e : Keeps (baseKeyPressEvent env e).
Proof.
  intro w. unfold baseKeyPressEvent. destruct (typesText e).
  - apply keeps_addCharUTF.
  - reflexivity.
Qed.

#[global] Instance keeps_undo : Keeps (@undo X).
Proof. intro w. unfold undo. destruct (undoLog (doc w)); reflexivity. Qed.

#[global] Instance keeps_redo : Keeps (@redo X).
Proof. intro w. unfold redo. destruct (redoLog (doc w)); reflexivity. Qed.

#[global] Instance keeps_nextWordEnd : Keeps (nextWordEnd env).
Proof. intro w. unfold nextWordEnd. rewrite !core_SendScintilla. reflexivity. Qed.

#[global] Instance keeps_prevWordEnd : Keeps (prevWordEnd env).
Proof. intro w. unfold prevWordEnd. rewrite !core_SendScintilla. reflexivity. Qed.

#[global] Instance keeps_prevWORDEnd : Keeps (prevWORDEnd env).
Proof. intro w. unfold prevWORDEnd. rewrite !core_SendScintilla. reflexivity. Qed.

#[global] Instance keeps_nextWORD : Keeps (nextWORD env).
Proof.
  intro w. unfold nextWORD. break_step; rewrite ?core_SendScintilla; reflexivity.
Qed.

#[global] Instance keeps_nextWORDEnd : Keeps (nextWORDEnd env).
Proof.
  intro w. unfold nextWORDEnd. break_step; rewrite ?core_SendScintilla; reflexivity.
Qed.

#[global] Instance keeps_prevWORDStart : Keeps (prevWORDStart env).
Proof.
  intro w. unfold prevWORDStart. break_step; rewrite ?core_SendScintilla; reflexivity.
Qed.

#[global] Instance keeps_pasteBelow : Keeps (pasteBelow env).
Proof. intro w. reflexivity. Qed.

#[global] Instance keeps_joinLine : Keeps (joinLine env).
Proof.
  intro w. unfold joinLine. rewrite !core_SendScintilla. apply keeps_insertAt.
Qed.

#[global] Instance keeps_replaceOne s : Keeps (replaceOne env s).
Proof.
  intro w. unfold replaceOne. cbv zeta.
  match goal with
  | |- context [if (replaceModeRepeat ?v >? 1)%Z then _ else _] => set (w3 := v)
  end.
  assert (H3 : core w3 = core w).
  { unfold w3. rewrite (keeps_insertAt _ _ _ _), core_SendScintilla. reflexivity. }
  destruct (replaceModeRepeat w3 >? 1)%Z; exact H3.
Qed.

End KeepsInstances.

(** ** The mode switch *)

Section SetMode.

Variable X : Type.
Variable env : Collab X.

Lemma sameMode_true (o : option EditorMode) (m : EditorMode) :
  sameMode o m = true -> o = Some m.
Proof.
  destruct o as [m'|]; simpl; [|discriminate].
  intros H. f_equal. apply EditorMode_eqb_eq. exact H.
Qed.

Lemma mode_setMode m (w : Widget X) : mode (setMode env m w) = Some m.
Proof.
  unfold setMode. destruct (sameMode (mode w) m) eqn:E.
  - apply sameMode_true. exact E.
  - reflexivity.
Qed.

Lemma numberList_setMode m (w : Widget X) :
  numberList (setMode env m w) = numberList w.
Proof. unfold setMode. destruct (sameMode (mode w) m); destruct m; reflexivity. Qed.

Lemma prevWasEscapeFirst_setMode m (w : Widget X) :
  prevWasEscapeFirst (setMode env m w) = prevWasEscapeFirst w.
Proof. unfold setMode. destruct (sameMode (mode w) m); destruct m; reflexivity. Qed.

Lemma replaceModeRepeat_setMode m (w : Widget X) :
  replaceModeRepeat (setMode env m w) = replaceModeRepeat w.
Proof. unfold setMode. destruct (sameMode (mode w) m); destruct m; reflexivity. Qed.

Lemma undoDepth_setMode m (w : Widget X) :
  undoDepth (setMode env m w) = undoDepth w.
Proof. unfold setMode. destruct (sameMode (mode w) m); destruct m; reflexivity. Qed.

Lemma doc_setMode m (w : Widget X) : doc (setMode env m w) = doc w.
Proof. unfold setMode. destruct (sameMode (mode w) m); destruct m; reflexivity. Qed.

Lemma readOnly_setMode m (w : Widget X) :
  readOnly (setMode env m w)
  = if sameMode (mode w) m then readOnly w else negb (EditorMode_eqb m Typing).
Proof. unfold setMode. destruct (sameMode (mode w) m); destruct m; reflexivity. Qed.

Lemma signals_setMode m (w : Widget X) :
  signals (setMode env m w)
  = signals w ++ (if sameMode (mode w) m then [] else [ModeChanged m]).
Proof.
  unfold setMode. destruct (sameMode (mode w) m); destruct m;
    cbn; rewrite ?app_nil_r; reflexivity.
Qed.

(** C8, as the code has it.  Setting a mode twice in a row emits one
    mode-changed signal when the mode differs from the current one and
    none when it is the current one already; either way the second call
    changes nothing at all. *)
Theorem setMode_twice (m : EditorMode) (w : Widget X) :
  setMode env m (setMode env m w) = setMode env m w /\
  emittedBetween w (setMode env m (setMode env m w))
  = (if sameMode (mode w) m then [] else [ModeChanged m]).
Proof.
  assert (H2 : setMode env m (setMode env m w) = setMode env m w).
  { unfold setMode at 1. rewrite mode_setMode. simpl.
    rewrite EditorMode_eqb_refl. reflexivity. }
  split; [exact H2|].
  rewrite H2. unfold emittedBetween. rewrite signals_setMode.
  apply skipn_length_app.
Qed.

End SetMode.

(** C8, as the claim has it: in Movement mode, two calls of
    setMode(Movement) emit no signal at all, where the claim has exactly
    one. *)
Lemma setMode_twice_current_mode_silent :
  let w := newWidget sampleCollab (docOf [EmptyString] 0) in
  mode w = Some Movement /\
  emittedBetween w (setMode sampleCollab Movement (setMode sampleCollab Movement w)) = [] /\
  emittedBetween w (setMode sampleCollab Movement (setMode sampleCollab Movement w))
  <> [ModeChanged Movement].
Proof. cbv zeta. repeat split; [discriminate]. Qed.

(** ** Opening and closing undo actions *)

Section UndoActions.

Variable X : Type.

Lemma numberList_endUndoAction (w : Widget X) :
  numberList (endUndoAction w) = numberList w.
Proof. unfold endUndoAction. destruct (undoDepth w); reflexivity. Qed.

Lemma mode_endUndoAction (w : Widget X) : mode (endUndoAction w) = mode w.
Proof. unfold endUndoAction. destruct (undoDepth w); reflexivity. Qed.

Lemma readOnly_endUndoAction (w : Widget X) :
  readOnly (endUndoAction w) = readOnly w.
Proof. unfold endUndoAction. destruct (undoDepth w); reflexivity. Qed.

Lemma signals_endUndoAction (w : Widget X) :
  signals (endUndoAction w) = signals w.
Proof. unfold endUndoAction. destruct (undoDepth w); reflexivity. Qed.

Lemma replaceModeRepeat_endUndoAction (w : Widget X) :
  replaceModeRepeat (endUndoAction w) = replaceModeRepeat w.
Proof. unfold endUndoAction. destruct (undoDepth w); reflexivity. Qed.

Lemma prevWasEscapeFirst_endUndoAction (w : Widget X) :
  prevWasEscapeFirst (endUndoAction w) = prevWasEscapeFirst w.
Proof. unfold endUndoAction. destruct (undoDepth w); reflexivity. Qed.

Lemma doc_endUndoAction (w : Widget X) : doc (endUndoAction w) = doc w.
Proof. unfold endUndoAction. destruct (undoDepth w); reflexivity. Qed.

Lemma undoDepth_endUndoAction (w : Widget X) :
  undoDepth (endUndoAction w) = Nat.pred (undoDepth w).
Proof.
  unfold endUndoAction. destruct (undoDepth w) eqn:E; cbn; rewrite ?E; reflexivity.
Qed.

End UndoActions.

(** Projections of a widget expression, pushed through the operations. *)
Ltac keep_step :=
  match goal with
  | |- context [@numberList ?X (?f ?w)] =>
      let K := constr:(_ : @Keeps X f) in rewrite (@numberList_keeps X f K w)
  | |- context [@mode ?X (?f ?w)] =>
      let K := constr:(_ : @Keeps X f) in rewrite (@mode_keeps X f K w)
  | |- context [@prevWasEscapeFirst ?X (?f ?w)] =>
      let K := constr:(_ : @Keeps X f) in rewrite (@prevWasEscapeFirst_keeps X f K w)
  | |- context [@replaceModeRepeat ?X (?f ?w)] =>
      let K := constr:(_ : @Keeps X f) in rewrite (@replaceModeRepeat_keeps X f K w)
  | |- context [@readOnly ?X (?f ?w)] =>
      let K := constr:(_ : @Keeps X f) in rewrite (@readOnly_keeps X f K w)
  | |- context [@undoDepth ?X (?f ?w)] =>
      let K := constr:(_ : @Keeps X f) in rewrite (@undoDepth_keeps X f K w)
  | |- context [@signals ?X (?f ?w)] =>
      let K := constr:(_ : @Keeps X f) in rewrite (@signals_keeps X f K w)
  end.

Ltac fields :=
  repeat progress
    (cbn [mode numberList prevWasEscapeFirst replaceModeRepeat readOnly
          undoDepth signals doc fst snd
          set_mode set_numberList set_prevWasEscapeFirst
          set_replaceModeRepeat set_lineFindChar set_lineFindCharDirection
          set_selectionMode set_lastSearch set_lastSearchDirection
          set_readOnly set_caretStyle set_undoGroup set_doc set_signals
          set_sent emit setReadOnly beginUndoAction
          process clearnumberList curLine curIndex
          set_process set_clearnumberList set_curLine];
     rewrite ?numberList_setMode, ?mode_setMode, ?prevWasEscapeFirst_setMode,
       ?replaceModeRepeat_setMode, ?undoDepth_setMode, ?doc_setMode,
       ?numberList_endUndoAction, ?mode_endUndoAction, ?readOnly_endUndoAction,
       ?signals_endUndoAction, ?replaceModeRepeat_endUndoAction,
       ?prevWasEscapeFirst_endUndoAction, ?undoDepth_endUndoAction;
     repeat keep_step).

(** The tests of a key event that choose the branch of a mode. *)
Ltac walk e :=
  repeat match goal with
  | |- context [if ?b then _ else _] =>
      lazymatch b with
      | text_is e _ => idtac
      | key_is e _ => idtac
      | (text_is e _ || text_is e _)%bool => idtac
      | isFnKey e => idtac
      end;
      destruct b eqn:?
  end.

Ltac open_blocks :=
  cbv beta iota delta [with_ReadWrite with_SingleUndo with_ReadWriteSingleUndo
                       exits ok bind].

Ltac split_tests :=
  repeat match goal with
  | |- context [if ?b then _ else _] => destruct b
  end.

(** ** The function keys and the shifted lines *)

Section Branches.

Variable X : Type.
Variable env : Collab X.

(* What the function keys leave alone: all but the document and the signals. *)
Definition fnFrame (w w' : Widget X) : Prop :=
  mode w' = mode w /\ numberList w' = numberList w /\
  prevWasEscapeFirst w' = prevWasEscapeFirst w /\
  replaceModeRepeat w' = replaceModeRepeat w /\
  readOnly w' = readOnly w /\ undoDepth w' = undoDepth w /\
  (signals w' = signals w \/
   exists name, signals w' = signals w ++ [FileSaved name]).

Lemma fnFrame_refl (w : Widget X) : fnFrame w w.
Proof. unfold fnFrame. repeat split. left. reflexivity. Qed.

Lemma save_frame (w : Widget X) : fnFrame w (finalState (_save env w)).
Proof.
  unfold _save. destruct (sci_isModified env (doc w)); [|apply fnFrame_refl].
  destruct (bufferFileName w) as [name|]; [|apply fnFrame_refl].
  destruct (writeFile env name (content (doc w))); [|apply fnFrame_refl].
  unfold fnFrame. cbn. repeat split.
  right. exists name. reflexivity.
Qed.

Lemma processFnKeyEvent_frame (e : KeyEvent) (w : Widget X) :
  fnFrame w (finalState (processFnKeyEvent env e w)).
Proof.
  unfold processFnKeyEvent.
  destruct (key_is e Qt.Key_F1); [apply save_frame|].
  destruct (key_is e Qt.Key_F2); [apply fnFrame_refl|].
  destruct (key_is e Qt.Key_F3); [|apply fnFrame_refl].
  pose proof (save_frame w) as H.
  destruct (_save env w); exact H.
Qed.

(* The loop of '>' and '<'. *)
Lemma shiftLine_iter (op : Z -> Widget X -> Doc X) (loc : Locals) (w : Widget X) :
  forall k,
    let r := Nat.iter k (shiftLine op) (loc, w) in
    fst r = set_curLine (curLine loc + Z.of_nat k) loc /\ core (snd r) = core w.
Proof.
  induction k as [|k IH]; cbn zeta.
  - simpl. split; [|reflexivity].
    destruct loc; unfold set_curLine; cbn. f_equal. lia.
  - change (Nat.iter (S k) (shiftLine op) (loc, w))
      with (shiftLine op (Nat.iter k (shiftLine op) (loc, w))).
    replace (Z.of_nat (S k)) with (Z.of_nat k + 1)%Z by lia.
    destruct (Nat.iter k (shiftLine op) (loc, w)) as [l v].
    cbn [fst snd] in IH. destruct IH as [IH1 IH2]. subst l.
    unfold shiftLine. cbn [fst snd]. split.
    + unfold set_curLine; cbn [process clearnumberList curLine curIndex].
      f_equal. lia.
    + rewrite <- IH2. reflexivity.
Qed.

End Branches.

(** ** The number prefix through the mode branches *)

Section Prefix.

Variable X : Type.
Variable env : Collab X.

Ltac split_orbs :=
  repeat match goal with
  | H : (_ || _)%bool = false |- _ =>
      let H1 := fresh H in
      apply orb_false_elim in H; destruct H as [H H1]
  end.

(* A key that is no digit and no command falls through to the last branch. *)
Lemma movementPlain_unmapped (e : KeyEvent) (mods : Z) (loc : Locals) (w : Widget X) :
  dict_in NUMSETKEYS (key e) = false -> isCommand e = false ->
  movementPlain env e mods loc w = ok (set_clearnumberList false loc) w.
Proof.
  intros Hd Hc. unfold isCommand in Hc.
  cbn [existsb commandTexts commandKeys] in Hc.
  split_orbs.
  unfold movementPlain, isFnKey. rewrite Hd.
  repeat match goal with H : _ = false |- _ => rewrite H; clear H end.
  reflexivity.
Qed.

Lemma isCommand_text (e : KeyEvent) (s : string) :
  text_is e s = true -> In s commandTexts -> isCommand e = true.
Proof.
  intros H Hin. unfold isCommand. apply orb_true_iff. left.
  apply existsb_exists. exists s. split; assumption.
Qed.

Lemma isCommand_key (e : KeyEvent) (k : Z) :
  key_is e k = true -> In k commandKeys -> isCommand e = true.
Proof.
  intros H Hin. unfold isCommand. apply orb_true_iff. right.
  apply existsb_exists. exists k. split; assumption.
Qed.

(* A branch that leaves the number prefix, the flag that clears it and the
   column remembered at the start as they were. *)
Definition framed (loc : Locals) (w : Widget X)
  (o : Outcome X (Locals * Widget X)) : Prop :=
  match o with
  | Normal r =>
      numberList (snd r) = numberList w /\
      clearnumberList (fst r) = clearnumberList loc /\
      curIndex (fst r) = curIndex loc
  | Raised _ w' => numberList w' = numberList w
  end.

Lemma framed_fnKey (e : KeyEvent) (loc : Locals) (w : Widget X) :
  framed loc w (bind (processFnKeyEvent env e w) (ok loc)).
Proof.
  pose proof (processFnKeyEvent_frame env e w) as H.
  destruct (processFnKeyEvent env e w); cbn in *; unfold fnFrame in H; intuition.
Qed.

Lemma framed_shift op n (loc : Locals) (w : Widget X) :
  framed loc w
    (with_ReadWriteSingleUndo
       (fun w' => Normal (times n (shiftLine op) (loc, w'))) w).
Proof.
  unfold with_ReadWriteSingleUndo, exits, times.
  pose proof (shiftLine_iter op loc (setReadOnly false (beginUndoAction w))
                (Z.to_nat n)) as H.
  cbv zeta in H.
  destruct (Nat.iter (Z.to_nat n) (shiftLine op)
              (loc, setReadOnly false (beginUndoAction w))) as [l v].
  cbn [fst snd] in H. destruct H as [H1 H2]. subst l.
  unfold framed. cbn [fst snd]. unfold core in H2. fields.
  cbn in H2. repeat split. congruence.
Qed.

Lemma movementPlain_framed (e : KeyEvent) (mods : Z) (loc : Locals) (w : Widget X) :
  dict_in NUMSETKEYS (key e) = false -> isCommand e = true ->
  framed loc w (movementPlain env e mods loc w).
Proof.
  intros Hd Hc. unfold movementPlain. rewrite Hd.
  walk e.
  all: try apply framed_fnKey.
  all: try apply framed_shift.
  all: try solve [open_blocks; split_tests; unfold framed; fields; repeat split].
  exfalso. unfold isCommand in Hc.
  cbn [existsb commandTexts commandKeys] in Hc. unfold isFnKey in *.
  split_orbs.
  repeat match goal with
         | H : text_is e _ = false |- _ => rewrite H in Hc; clear H
         | H : key_is e _ = false |- _ => rewrite H in Hc; clear H
         end.
  discriminate Hc.
Qed.

Lemma movementAlt_framed (e : KeyEvent) (loc : Locals) (w : Widget X) :
  framed loc w (movementAlt env e loc w).
Proof.
  unfold movementAlt. walk e.
  all: open_blocks; unfold framed; fields; repeat split.
Qed.

Lemma movementControl_framed (e : KeyEvent) (loc : Locals) (w : Widget X) :
  framed loc w (movementControl env e loc w).
Proof.
  unfold movementControl. walk e.
  all: open_blocks; split_tests; unfold framed; fields; repeat split.
Qed.

Lemma typingMode_framed (e : KeyEvent) (mods : Z) (loc : Locals) (w : Widget X) :
  framed loc w (typingMode env e mods loc w).
Proof.
  unfold typingMode. destruct (isPlain mods).
  - walk e.
    all: try apply framed_fnKey.
    all: open_blocks; split_tests; unfold framed; fields; repeat split.
  - split_tests; unfold framed, ok; fields; repeat split.
Qed.

Lemma commandMode_framed (e : KeyEvent) (loc : Locals) (w : Widget X) :
  framed loc w (commandMode env e loc w).
Proof.
  unfold commandMode, processCommand. walk e.
  all: unfold framed, ok; fields; repeat split.
Qed.

Lemma replaceCharMode_framed (e : KeyEvent) (loc : Locals) (w : Widget X) :
  framed loc w (replaceCharMode env e loc w).
Proof.
  unfold replaceCharMode. walk e.
  all: open_blocks; split_tests; unfold framed; fields; repeat split.
Qed.

Lemma findCharMode_framed (e : KeyEvent) (loc : Locals) (w : Widget X) :
  framed loc w (findCharMode env e loc w).
Proof.
  unfold findCharMode. walk e.
  all: split_tests; unfold framed, ok; fields; repeat split.
Qed.

(* The digit branch of Movement mode. *)
Lemma movementPlain_digit (e : KeyEvent) (mods : Z) (loc : Locals) (w : Widget X) :
  dict_in NUMSETKEYS (key e) = true ->
  movementPlain env e mods loc w
  = let r := processNumberPrefix (key e) w in
    let loc1 := set_clearnumberList (fst r) loc in
    if text_is e "0" && clearnumberList loc1
    then ok loc1 (SendScintilla env SCI_HOME (snd r))
    else ok loc1 (snd r).
Proof. intros Hd. unfold movementPlain. rewrite Hd. reflexivity. Qed.

End Prefix.

(** ** The handler as a whole *)

Section Handler.

Variable X : Type.
Variable env : Collab X.

Definition startLocals (w : Widget X) : Locals :=
  {| process := false; clearnumberList := true;
     curLine := fst (getCursorPosition (doc w));
     curIndex := snd (getCursorPosition (doc w)) |}.

Lemma dispatch_cases (e : KeyEvent) (w : Widget X) :
  (mode w = Some Movement /\ isPlain (effectiveModifiers e) = true /\
   dispatch env e w = movementPlain env e (effectiveModifiers e) (startLocals w) w)
  \/ ((mode w <> Some Movement \/ isPlain (effectiveModifiers e) = false) /\
      framed (startLocals w) w (dispatch env e w)).
Proof.
  unfold dispatch. fold (effectiveModifiers e). fold (startLocals w).
  destruct (mode w) as [[]|].
  - right. split; [left; discriminate | apply typingMode_framed].
  - unfold movementMode. destruct (isPlain (effectiveModifiers e)) eqn:Hp.
    + left. auto.
    + right. split; [right; reflexivity|].
      destruct (effectiveModifiers e =? Qt.AltModifier)%Z;
        [apply movementAlt_framed|].
      destruct (effectiveModifiers e =? Qt.ControlModifier)%Z;
        [apply movementControl_framed|].
      unfold framed, ok; cbn; auto.
  - right. split; [left; discriminate | apply commandMode_framed].
  - right. split; [left; discriminate | apply replaceCharMode_framed].
  - right. split; [left; discriminate | apply findCharMode_framed].
  - right. split; [left; discriminate | unfold framed, ok; cbn; auto].
Qed.

Lemma numberList_finishKey (e : KeyEvent) (r : Locals * Widget X) :
  numberList (finishKey env e r)
  = if clearnumberList (fst r) then [] else numberList (snd r).
Proof.
  unfold finishKey. cbv zeta. split_tests; fields; reflexivity.
Qed.

Lemma doc_finishKey (e : KeyEvent) (r : Locals * Widget X) :
  process (fst r) = false -> doc (finishKey env e r) = doc (snd r).
Proof.
  intros Hp. unfold finishKey. cbv zeta. rewrite Hp.
  split_tests; reflexivity.
Qed.

Lemma sent_finishKey (e : KeyEvent) (r : Locals * Widget X) :
  process (fst r) = false -> sent (finishKey env e r) = sent (snd r).
Proof.
  intros Hp. unfold finishKey. cbv zeta. rewrite Hp.
  split_tests; reflexivity.
Qed.

Lemma dict_in_get (k : Z) :
  dict_in NUMSETKEYS k = match dict_get NUMSETKEYS k with Some _ => true | None => false end.
Proof. reflexivity. Qed.

(** C6, as the code has it.  A key event that Movement mode handles to
    the end leaves the number prefix as [prefixAfter] says: with no
    modifier or Shift, a digit key appends its digit (a 0 on an empty
    prefix leaves it empty), a key mapped to a command empties it, and
    every other key, a bare modifier among them, leaves it untouched;
    with any other modifier held the prefix is emptied.  Only the function
    keys can keep the handler from reaching its end. *)
Theorem movement_prefix_after_key (e : KeyEvent) (w : Widget X) :
  mode w = Some Movement ->
  (isFnKey e = false -> exists w', keyPressEvent env e w = Normal w') /\
  (forall w', keyPressEvent env e w = Normal w' ->
              numberList w' = prefixAfter e w).
Proof.
  intros Hm. unfold keyPressEvent, prefixAfter.
  destruct (dispatch_cases e w) as [(_ & Hp & Hd) | ([Hn | Hp] & Hf)];
    [ | congruence | ].
  - rewrite Hd, Hp.
    destruct (dict_get NUMSETKEYS (key e)) as [d|] eqn:Hg.
    + rewrite movementPlain_digit by (rewrite dict_in_get, Hg; reflexivity).
      unfold processNumberPrefix. rewrite Hg. cbn [pystr].
      destruct (String.eqb d "0" && Nat.eqb (List.length (numberList w)) 0);
        cbv zeta; cbn [fst snd clearnumberList set_clearnumberList];
        rewrite ?andb_true_r, ?andb_false_r.
      * split.
        -- intros _. destruct (text_is e "0"); cbn [bind ok]; eauto.
        -- intros w'. destruct (text_is e "0"); cbn [bind ok];
             intros H; injection H as <-; rewrite numberList_finishKey;
             cbn [fst snd clearnumberList set_clearnumberList]; reflexivity.
      * cbn [bind ok]. split; [eauto|].
        intros w' H. injection H as <-. rewrite numberList_finishKey.
        cbn [fst snd clearnumberList set_clearnumberList]. reflexivity.
    + assert (Hin : dict_in NUMSETKEYS (key e) = false)
        by (rewrite dict_in_get, Hg; reflexivity).
      destruct (isCommand e) eqn:Hc.
      * pose proof (movementPlain_framed env e (effectiveModifiers e)
                      (startLocals w) w Hin Hc) as Hf.
        pose proof (processFnKeyEvent_frame env e w) as Hfn.
        destruct (movementPlain env e (effectiveModifiers e) (startLocals w) w)
          as [r|x v] eqn:Hr; cbn [bind].
        -- split; [eauto|]. intros w' H. injection H as <-.
           rewrite numberList_finishKey. destruct Hf as (_ & Hcl & _).
           rewrite Hcl. reflexivity.
        -- split; [|discriminate]. intros Hk. exfalso.
           revert Hr. unfold movementPlain. rewrite Hin, Hk.
           walk e; open_blocks; split_tests; try discriminate.
           all: unfold times;
             match goal with
             | |- context [Nat.iter ?n ?f ?a] => destruct (Nat.iter n f a)
             end; discriminate.
      * rewrite (movementPlain_unmapped env e _ _ _ Hin Hc). cbn [bind ok].
        split; [eauto|]. intros w' H. injection H as <-.
        rewrite numberList_finishKey. reflexivity.
  - rewrite Hp. destruct (dispatch env e w) as [r|x v] eqn:Hr; cbn [bind].
    + split; [eauto|]. intros w' H. injection H as <-.
      rewrite numberList_finishKey. destruct Hf as (_ & Hcl & _).
      rewrite Hcl. reflexivity.
    + split; [|discriminate]. intros _. exfalso.
      revert Hr. unfold dispatch. fold (effectiveModifiers e). rewrite Hm.
      unfold movementMode. rewrite Hp.
      unfold movementAlt, movementControl.
      split_tests; open_blocks; discriminate.
Qed.

End Handler.

(** C6, witness: the key [l] pressed on a fresh widget. *)
Lemma movement_prefix_after_key_witness :
  mode (newWidget sampleCollab (docOf ["abcdef"%string] 2)) = Some Movement /\
  ((isFnKey (plainKey Qt.Key_L "l") = false ->
    exists w', keyPressEvent sampleCollab (plainKey Qt.Key_L "l")
                 (newWidget sampleCollab (docOf ["abcdef"%string] 2)) = Normal w') /\
   (forall w',
      keyPressEvent sampleCollab (plainKey Qt.Key_L "l")
        (newWidget sampleCollab (docOf ["abcdef"%string] 2)) = Normal w' ->
      numberList w'
      = prefixAfter (plainKey Qt.Key_L "l")
          (newWidget sampleCollab (docOf ["abcdef"%string] 2)))).
Proof.
  split; [reflexivity|].
  apply (movement_prefix_after_key sampleCollab (plainKey Qt.Key_L "l")
           (newWidget sampleCollab (docOf ["abcdef"%string] 2))).
  reflexivity.
Defined.

(** C6, counterexample: with the prefix holding a 3, the key [z], which
    has a text, is no digit and is mapped to no command, leaves the prefix
    as it is instead of emptying it. *)
Lemma unmapped_key_keeps_prefix :
  let w := pressAll sampleCollab [digitKey 3]
             (newWidget sampleCollab (docOf ["abcdef"%string] 2)) in
  let e := plainKey Qt.Key_Z "z" in
  mode w = Some Movement /\ numberList w = ["3"%string] /\
  text e <> EmptyString /\ dict_in NUMSETKEYS (key e) = false /\
  exists w', keyPressEvent sampleCollab e w = Normal w' /\
             numberList w' = ["3"%string] /\ numberList w' <> [].
Proof.
  cbv zeta. repeat split; try discriminate.
  eexists. split; [vm_compute; reflexivity|].
  split; [reflexivity | discriminate].
Qed.

(** ** The digit 0 *)

Section ZeroKey.

Variable X : Type.
Variable env : Collab X.

Lemma getCursorPosition_home (d : Doc X) :
  content (sci_home d) = content d /\
  getCursorPosition (sci_home d) = (fst (getCursorPosition d), 0%Z).
Proof.
  unfold sci_home, movePositionTo, getCursorPosition, caretLine, docLength.
  cbn [content caret fst].
  split; [reflexivity|].
  set (t := content d). set (l := lineFromPosition t (caret d)).
  assert (Hl : l <= countLF t) by apply countLF_firstn_le.
  rewrite (Nat.min_l _ _ (lineStart_le t l)).
  rewrite (lineFromPosition_lineStart t Hl).
  f_equal. rewrite Nat.sub_diag. reflexivity.
Qed.


End ZeroKey.


(** ** The number prefix in the reachable states *)

(* A prefix of digits that does not begin with 0. *)
Definition goodPrefix (l : list string) : Prop :=
  Forall isDigitText l /\ hd_error l <> Some "0"%string.

Lemma dict_get_In (d : list (Z * string)) (k : Z) (v : string) :
  dict_get d k = Some v -> In v (map snd d).
Proof.
  induction d as [|[k' v'] d IH]; simpl; [discriminate|].
  destruct (Z.eqb k k').
  - intros H. injection H as ->. auto.
  - auto.
Qed.

Lemma goodPrefix_app (l : list string) (d : string) :
  goodPrefix l -> isDigitText d -> (d = "0"%string -> l <> []) ->
  goodPrefix (l ++ [d]).
Proof.
  intros [Hf Hh] Hd Hz. split.
  - apply Forall_app. split; [assumption | constructor; [assumption | constructor]].
  - destruct l as [|a l]; simpl in *; [|assumption].
    intros H. injection H as ->. apply Hz; reflexivity.
Qed.

Lemma concat_digit (c : ascii) (l : list string) :
  String.concat "" (String c EmptyString :: l) = String c (String.concat "" l).
Proof. destruct l; reflexivity. Qed.

Lemma isDigitText_inv (d : string) :
  isDigitText d ->
  exists c v, d = String c EmptyString /\ digitValue c = Some v /\
              (0 <= v)%Z /\ (d <> "0"%string -> 1 <= v)%Z.
Proof.
  unfold isDigitText. cbn [map snd NUMSETKEYS In].
  intros H.
  repeat (destruct H as [H|H];
          [subst d; do 2 eexists; split; [reflexivity|];
           split; [vm_compute; reflexivity|]; split; [lia|];
           intros Hne; try (exfalso; apply Hne; reflexivity); lia|]).
  contradiction.
Qed.

Lemma int_acc_digits (l : list string) : forall acc,
  Forall isDigitText l -> (0 <= acc)%Z ->
  exists n, int_acc acc (String.concat "" l) = Some n /\ (acc <= n)%Z.
Proof.
  induction l as [|d l IH]; intros acc Hf Ha.
  - exists acc. split; [reflexivity | lia].
  - inversion Hf as [|? ? Hd Hl]; subst.
    destruct (isDigitText_inv Hd) as (c & v & -> & Hv & Hv0 & _).
    rewrite concat_digit. cbn [int_acc]. rewrite Hv.
    destruct (IH (10 * acc + v)%Z Hl ltac:(lia)) as (n & Hn & Hle).
    exists n. split; [assumption | lia].
Qed.

Lemma int_goodPrefix (l : list string) :
  goodPrefix l -> l <> [] ->
  exists n, int_ (String.concat "" l) = Some n /\ (1 <= n)%Z.
Proof.
  intros [Hf Hh] Hne. destruct l as [|d l]; [congruence|].
  inversion Hf as [|? ? Hd Hl]; subst.
  destruct (isDigitText_inv Hd) as (c & v & -> & Hv & Hv0 & Hv1).
  rewrite concat_digit. unfold int_. cbn [int_acc]. rewrite Hv.
  destruct (@int_acc_digits l (10 * 0 + v)%Z Hl ltac:(lia)) as (n & Hn & Hle).
  exists n. split; [assumption|].
  assert (1 <= v)%Z; [|lia].
  apply Hv1. intros E. apply Hh. simpl. congruence.
Qed.

Section PrefixInvariant.

Variable X : Type.
Variable env : Collab X.

Lemma getNumberPrefix_goodPrefix (b : bool) (w : Widget X) :
  goodPrefix (numberList w) -> (1 <= getNumberPrefix b w)%Z.
Proof.
  intros Hg. unfold getNumberPrefix.
  assert (Hlines : (1 <= lines (doc w))%Z) by (unfold lines, lineCount; lia).
  destruct (numberList w) as [|d l] eqn:Hl.
  - destruct b; lia.
  - destruct (int_goodPrefix Hg ltac:(discriminate)) as (n & Hn & H1).
    rewrite Hn. destruct b; lia.
Qed.

(* What one key event can do to the number prefix, in any mode. *)
Lemma numberList_step (e : KeyEvent) (w : Widget X) :
  let l' := numberList (finalState (keyPressEvent env e w)) in
  l' = [] \/ l' = numberList w \/
  exists d, isDigitText d /\ l' = numberList w ++ [d] /\
            (d = "0"%string -> numberList w <> []).
Proof.
  cbv zeta. unfold keyPressEvent.
  assert (Hframed : forall o, framed (startLocals w) w o ->
            let l' := numberList (finalState
                        (bind o (fun r => Normal (finishKey env e r)))) in
            l' = [] \/ l' = numberList w).
  { intros [r|x v] Hf; cbn [bind finalState].
    - left. rewrite numberList_finishKey. destruct Hf as (_ & -> & _).
      reflexivity.
    - right. exact Hf. }
  destruct (dispatch_cases env e w) as [(_ & Hp & Hd) | (_ & Hf)].
  - rewrite Hd.
    destruct (dict_get NUMSETKEYS (key e)) as [d|] eqn:Hg.
    + rewrite movementPlain_digit by (rewrite dict_in_get, Hg; reflexivity).
      unfold processNumberPrefix. rewrite Hg. cbn [pystr].
      destruct (String.eqb d "0" && Nat.eqb (List.length (numberList w)) 0)
        eqn:Hz;
        cbv zeta; cbn [fst snd clearnumberList set_clearnumberList];
        rewrite ?andb_true_r, ?andb_false_r.
      * left. destruct (text_is e "0"); cbn [bind ok finalState];
          rewrite numberList_finishKey; reflexivity.
      * right. right. exists d. cbn [bind ok finalState].
        rewrite numberList_finishKey.
        cbn [fst snd clearnumberList set_clearnumberList numberList set_numberList].
        split; [exact (dict_get_In _ _ Hg)|]. split; [reflexivity|].
        intros -> Hnil. rewrite Hnil in Hz. discriminate Hz.
    + assert (Hin : dict_in NUMSETKEYS (key e) = false)
        by (rewrite dict_in_get, Hg; reflexivity).
      destruct (isCommand e) eqn:Hc.
      * destruct (Hframed _ (movementPlain_framed env e (effectiveModifiers e)
                               (startLocals w) w Hin Hc)); auto.
      * rewrite (movementPlain_unmapped env e _ _ _ Hin Hc).
        cbn [bind ok finalState]. rewrite numberList_finishKey. auto.
  - destruct (Hframed _ Hf); auto.
Qed.

Lemma reachable_digits (w : Widget X) :
  reachable env w -> goodPrefix (numberList w).
Proof.
  induction 1 as [d | e w Hr IH | d w Hr IH].
  - split; [constructor | discriminate].
  - destruct (numberList_step e w) as [H | [H | (d & Hd & H & Hz)]];
      cbv zeta in *; rewrite H.
    + split; [constructor | discriminate].
    + exact IH.
    + apply goodPrefix_app; assumption.
  - exact IH.
Qed.

(** C9.  In every reachable state the number prefix does not begin with
    0, and [getNumberPrefix] is at least 1, with and without the cap at
    the number of lines. *)
Theorem prefix_has_no_leading_zero (w : Widget X) :
  reachable env w ->
  hd_error (numberList w) <> Some "0"%string /\
  (1 <= getNumberPrefix false w)%Z /\ (1 <= getNumberPrefix true w)%Z.
Proof.
  intros Hr. pose proof (reachable_digits Hr) as Hg.
  split; [exact (proj2 Hg)|].
  split; apply getNumberPrefix_goodPrefix; exact Hg.
Qed.

End PrefixInvariant.

(** C9, witness: the state after the keys 0, 4, 0 pressed on a fresh
    widget. *)
Lemma prefix_has_no_leading_zero_witness :
  hd_error (numberList
              (pressAll sampleCollab [digitKey 0; digitKey 4; digitKey 0]
                 (newWidget sampleCollab (docOf ["abcdef"%string] 2))))
  <> Some "0"%string /\
  (1 <= getNumberPrefix false
          (pressAll sampleCollab [digitKey 0; digitKey 4; digitKey 0]
             (newWidget sampleCollab (docOf ["abcdef"%string] 2))))%Z /\
  (1 <= getNumberPrefix true
          (pressAll sampleCollab [digitKey 0; digitKey 4; digitKey 0]
             (newWidget sampleCollab (docOf ["abcdef"%string] 2))))%Z.
Proof.
  apply (@prefix_has_no_leading_zero unit sampleCollab).
  unfold pressAll. cbn [fold_left].
  repeat apply reach_key. apply reach_new.
Defined.

(** ** Undo nesting and the read-only state in the reachable states *)

(* Between key events no undo action is open, and outside Typing mode the
   text component is read-only. *)
Definition settled {X : Type} (w : Widget X) : Prop :=
  undoDepth w = 0 /\ (mode w = Some Typing \/ readOnly w = true).

Section Settled.

Variable X : Type.
Variable env : Collab X.

Lemma settled_setMode (m : EditorMode) (w : Widget X) :
  settled w -> settled (setMode env m w).
Proof.
  intros [Hd Hm]. unfold settled.
  rewrite undoDepth_setMode, mode_setMode, readOnly_setMode.
  split; [assumption|].
  destruct (sameMode (mode w) m) eqn:Hs.
  - apply sameMode_true in Hs. rewrite Hs in Hm. exact Hm.
  - destruct m; auto.
Qed.

Lemma settled_fnKey (e : KeyEvent) (loc : Locals) (w : Widget X) :
  settled w -> settled (endState (bind (processFnKeyEvent env e w) (ok loc))).
Proof.
  intros [Hd Hm].
  pose proof (processFnKeyEvent_frame env e w) as H.
  destruct (processFnKeyEvent env e w) as [v|x v]; cbn in *;
    destruct H as (H1 & _ & _ & _ & H5 & H6 & _);
    unfold settled; rewrite H1, H5, H6; auto.
Qed.

Lemma settled_shift op n (loc : Locals) (w : Widget X) :
  settled w ->
  settled (endState
             (with_ReadWriteSingleUndo
                (fun w' => Normal (times n (shiftLine op) (loc, w'))) w)).
Proof.
  intros [Hd Hm].
  unfold with_ReadWriteSingleUndo, exits, times.
  pose proof (shiftLine_iter op loc (setReadOnly false (beginUndoAction w))
                (Z.to_nat n)) as H.
  cbv zeta in H.
  destruct (Nat.iter (Z.to_nat n) (shiftLine op)
              (loc, setReadOnly false (beginUndoAction w))) as [l v].
  cbn [fst snd] in H. destruct H as [_ H2].
  unfold core in H2. cbn in H2.
  unfold settled. cbn [endState snd]. fields.
  split; [|right; reflexivity].
  assert (E : undoDepth v = S (undoDepth w)) by congruence.
  rewrite E. exact Hd.
Qed.

Ltac settle :=
  match goal with
  | H : settled _ |- _ =>
      try apply settled_setMode;
      destruct H as [Hd Hm]; unfold settled; cbn [endState snd]; split;
      [ fields; cbn [Nat.pred]; exact Hd
      | first [ left; fields; reflexivity
              | right; fields; reflexivity
              | fields; exact Hm ] ]
  end.

Lemma movementPlain_settled (e : KeyEvent) (mods : Z) (loc : Locals) (w : Widget X) :
  settled w -> settled (endState (movementPlain env e mods loc w)).
Proof.
  intros Hs. unfold movementPlain.
  destruct (dict_in NUMSETKEYS (key e)).
  - unfold processNumberPrefix. cbv zeta. split_tests; cbn [endState ok snd fst]; settle.
  - walk e.
    all: try (apply settled_fnKey; assumption).
    all: try (apply settled_shift; assumption).
    all: open_blocks; split_tests; cbn [endState snd]; settle.
Qed.

Lemma movementMode_settled (e : KeyEvent) (mods : Z) (loc : Locals) (w : Widget X) :
  settled w -> settled (endState (movementMode env e mods loc w)).
Proof.
  intros Hs. unfold movementMode.
  destruct (isPlain mods); [apply movementPlain_settled; assumption|].
  unfold movementAlt, movementControl.
  split_tests; open_blocks; cbn [endState snd]; settle.
Qed.

Lemma typingMode_settled (e : KeyEvent) (mods : Z) (loc : Locals) (w : Widget X) :
  settled w -> settled (endState (typingMode env e mods loc w)).
Proof.
  intros Hs. unfold typingMode. destruct (isPlain mods).
  - walk e.
    all: try (apply settled_fnKey; assumption).
    all: open_blocks; split_tests; cbn [endState snd]; settle.
  - split_tests; open_blocks; cbn [endState snd]; settle.
Qed.

Lemma dispatch_settled (e : KeyEvent) (w : Widget X) :
  settled w -> settled (endState (dispatch env e w)).
Proof.
  intros Hs. unfold dispatch. destruct (mode w) as [[]|].
  - apply typingMode_settled; assumption.
  - apply movementMode_settled; assumption.
  - unfold commandMode, processCommand. split_tests; cbn [endState ok snd]; settle.
  - unfold replaceCharMode.
    split_tests; open_blocks; cbn [endState snd fst]; settle.
  - unfold findCharMode. split_tests; cbn [endState ok snd]; settle.
  - cbn [endState ok snd]. assumption.
Qed.

Lemma finishKey_settled (e : KeyEvent) (r : Locals * Widget X) :
  settled (snd r) -> settled (finishKey env e r).
Proof.
  intros Hs. unfold finishKey. cbv zeta.
  split_tests; settle.
Qed.

Lemma keyPressEvent_settled (e : KeyEvent) (w : Widget X) :
  settled w -> settled (finalState (keyPressEvent env e w)).
Proof.
  intros Hs. pose proof (dispatch_settled e Hs) as H.
  unfold keyPressEvent. destruct (dispatch env e w) as [r|x v];
    cbn [bind finalState endState] in *.
  - apply finishKey_settled. exact H.
  - exact H.
Qed.

Lemma reachable_settled (w : Widget X) : reachable env w -> settled w.
Proof.
  induction 1 as [d | e w Hr IH | d w Hr IH].
  - split; [reflexivity | right; reflexivity].
  - apply keyPressEvent_settled. exact IH.
  - exact IH.
Qed.

(** C5.  In a reachable state outside Typing mode, where the commands
    that edit run, a block under any of the three context managers closes
    its undo action and leaves the text component read-only as it was
    before, whether the body returns or raises, and an exception of the
    body goes on to the caller; here the body is any computation that
    leaves the undo nesting as it found it.  Between key events no undo
    action is open. *)
Theorem scoped_blocks_release {A : Type}
  (body : Widget X -> Outcome X (A * Widget X)) (w : Widget X) :
  reachable env w -> mode w <> Some Typing ->
  (forall v, undoDepth (endState (body v)) = undoDepth v) ->
  (undoDepth (endState (with_ReadWriteSingleUndo body w)) = undoDepth w /\
   readOnly (endState (with_ReadWriteSingleUndo body w)) = readOnly w /\
   isRaised (with_ReadWriteSingleUndo body w)
   = isRaised (body (setReadOnly false (beginUndoAction w)))) /\
  (undoDepth (endState (with_ReadWrite body w)) = undoDepth w /\
   readOnly (endState (with_ReadWrite body w)) = readOnly w /\
   isRaised (with_ReadWrite body w) = isRaised (body (setReadOnly false w))) /\
  (undoDepth (endState (with_SingleUndo body w)) = undoDepth w /\
   isRaised (with_SingleUndo body w) = isRaised (body (beginUndoAction w))) /\
  undoDepth w = 0.
Proof.
  intros Hr Hm Hb. destruct (reachable_settled Hr) as [Hd [Ht|Hro]];
    [congruence|].
  unfold with_ReadWriteSingleUndo, with_ReadWrite, with_SingleUndo, exits.
  repeat split.
  - pose proof (Hb (setReadOnly false (beginUndoAction w))) as H.
    destruct (body (setReadOnly false (beginUndoAction w))) as [[a v]|x v];
      cbn [endState snd] in *; fields; rewrite H; reflexivity.
  - destruct (body (setReadOnly false (beginUndoAction w))) as [[a v]|x v];
      cbn [endState snd]; fields; congruence.
  - destruct (body (setReadOnly false (beginUndoAction w))) as [[a v]|x v];
      reflexivity.
  - pose proof (Hb (setReadOnly false w)) as H.
    destruct (body (setReadOnly false w)) as [[a v]|x v];
      cbn [endState snd] in *; fields; rewrite H; reflexivity.
  - destruct (body (setReadOnly false w)) as [[a v]|x v];
      cbn [endState snd]; fields; congruence.
  - destruct (body (setReadOnly false w)) as [[a v]|x v]; reflexivity.
  - pose proof (Hb (beginUndoAction w)) as H.
    destruct (body (beginUndoAction w)) as [[a v]|x v];
      cbn [endState snd] in *; fields; rewrite H; reflexivity.
  - destruct (body (beginUndoAction w)) as [[a v]|x v]; reflexivity.
  - exact Hd.
Qed.

End Settled.

(** C5, witness: on a fresh widget, a body that raises at once. *)
Lemma scoped_blocks_release_witness :
  (undoDepth (endState (with_ReadWriteSingleUndo
                          (fun v => @Raised unit (unit * Widget unit) OSError v)
                          (newWidget sampleCollab (docOf ["abcdef"%string] 2))))
   = undoDepth (newWidget sampleCollab (docOf ["abcdef"%string] 2)) /\
   readOnly (endState (with_ReadWriteSingleUndo
                         (fun v => @Raised unit (unit * Widget unit) OSError v)
                         (newWidget sampleCollab (docOf ["abcdef"%string] 2))))
   = readOnly (newWidget sampleCollab (docOf ["abcdef"%string] 2)) /\
   isRaised (with_ReadWriteSingleUndo
               (fun v => @Raised unit (unit * Widget unit) OSError v)
               (newWidget sampleCollab (docOf ["abcdef"%string] 2)))
   = isRaised (@Raised unit (unit * Widget unit) OSError
                 (setReadOnly false
                    (beginUndoAction
                       (newWidget sampleCollab (docOf ["abcdef"%string] 2)))))) /\
  (undoDepth (endState (with_ReadWrite
                          (fun v => @Raised unit (unit * Widget unit) OSError v)
                          (newWidget sampleCollab (docOf ["abcdef"%string] 2))))
   = undoDepth (newWidget sampleCollab (docOf ["abcdef"%string] 2)) /\
   readOnly (endState (with_ReadWrite
                         (fun v => @Raised unit (unit * Widget unit) OSError v)
                         (newWidget sampleCollab (docOf ["abcdef"%string] 2))))
   = readOnly (newWidget sampleCollab (docOf ["abcdef"%string] 2)) /\
   isRaised (with_ReadWrite
               (fun v => @Raised unit (unit * Widget unit) OSError v)
               (newWidget sampleCollab (docOf ["abcdef"%string] 2)))
   = isRaised (@Raised unit (unit * Widget unit) OSError
                 (setReadOnly false
                    (newWidget sampleCollab (docOf ["abcdef"%string] 2))))) /\
  (undoDepth (endState (with_SingleUndo
                          (fun v => @Raised unit (unit * Widget unit) OSError v)
                          (newWidget sampleCollab (docOf ["abcdef"%string] 2))))
   = undoDepth (newWidget sampleCollab (docOf ["abcdef"%string] 2)) /\
   isRaised (with_SingleUndo
               (fun v => @Raised unit (unit * Widget unit) OSError v)
               (newWidget sampleCollab (docOf ["abcdef"%string] 2)))
   = isRaised (@Raised unit (unit * Widget unit) OSError
                 (beginUndoAction
                    (newWidget sampleCollab (docOf ["abcdef"%string] 2))))) /\
  undoDepth (newWidget sampleCollab (docOf ["abcdef"%string] 2)) = 0.
Proof.
  apply (@scoped_blocks_release unit sampleCollab unit
           (fun v => @Raised unit (unit * Widget unit) OSError v)
           (newWidget sampleCollab (docOf ["abcdef"%string] 2))).
  - apply reach_new.
  - discriminate.
  - reflexivity.
Defined.

(** ** The position signal *)

Section PositionSignal.

Variable X : Type.
Variable env : Collab X.

(* A branch that emits at most one signal, no position signal, and keeps
   the position remembered at the start of the event. *)
Definition noPositionSignal (w v : Widget X) : Prop :=
  signals v = signals w \/
  exists s, isPositionChanged s = false /\ signals v = signals w ++ [s].

Definition keepsStart (loc : Locals) (w : Widget X)
  (o : Outcome X (Locals * Widget X)) : Prop :=
  match o with
  | Normal r =>
      noPositionSignal w (snd r) /\
      curLine (fst r) = curLine loc /\ curIndex (fst r) = curIndex loc
  | Raised _ _ => True
  end.

Lemma keepsStart_fnKey (e : KeyEvent) (loc : Locals) (w : Widget X) :
  keepsStart loc w (bind (processFnKeyEvent env e w) (ok loc)).
Proof.
  pose proof (processFnKeyEvent_frame env e w) as H.
  destruct (processFnKeyEvent env e w) as [v|x v]; cbn in *; [|exact I].
  destruct H as (_ & _ & _ & _ & _ & _ & [H|[name H]]);
    unfold noPositionSignal; rewrite H; repeat split; auto.
  right. exists (FileSaved name). auto.
Qed.

Ltac quiet :=
  unfold keepsStart, noPositionSignal; cbn [fst snd];
  split; [|split; reflexivity];
  fields; rewrite ?signals_setMode; fields;
  split_tests; rewrite ?app_nil_r;
  first [ left; reflexivity
        | right; eexists; split; [|reflexivity]; reflexivity ].

Lemma movementPlain_keepsStart (e : KeyEvent) (mods : Z) (loc : Locals) (w : Widget X) :
  text_is e ">" = false -> text_is e "<" = false ->
  keepsStart loc w (movementPlain env e mods loc w).
Proof.
  intros Hgt Hlt. unfold movementPlain.
  destruct (dict_in NUMSETKEYS (key e)).
  - unfold processNumberPrefix. cbv zeta. split_tests; unfold ok; quiet.
  - walk e; try discriminate.
    all: try apply keepsStart_fnKey.
    all: open_blocks; split_tests; quiet.
Qed.

Lemma dispatch_keepsStart (e : KeyEvent) (w : Widget X) :
  (mode w = Some Movement -> isPlain (effectiveModifiers e) = true ->
   text_is e ">" = false /\ text_is e "<" = false) ->
  keepsStart (startLocals w) w (dispatch env e w).
Proof.
  intros Hshift. unfold dispatch. fold (effectiveModifiers e).
  fold (startLocals w).
  destruct (mode w) as [[]|].
  - unfold typingMode. destruct (isPlain (effectiveModifiers e)).
    + walk e.
      all: try apply keepsStart_fnKey.
      all: open_blocks; split_tests; quiet.
    + split_tests; unfold ok; quiet.
  - unfold movementMode.
    destruct (isPlain (effectiveModifiers e)).
    + destruct Hshift as [Hgt Hlt]; auto.
      apply movementPlain_keepsStart; assumption.
    + unfold movementAlt, movementControl.
      split_tests; open_blocks; quiet.
  - unfold commandMode, processCommand. split_tests; unfold ok; quiet.
  - unfold replaceCharMode. split_tests; open_blocks; quiet.
  - unfold findCharMode. split_tests; unfold ok; quiet.
  - unfold ok; quiet.
Qed.

(* The signals that the end of the handler adds. *)
Lemma signals_finishKey (e : KeyEvent) (r : Locals * Widget X) :
  let w' := finishKey env e r in
  let endLine := fst (getCursorPosition (doc w')) in
  let endIndex := snd (getCursorPosition (doc w')) in
  signals w'
  = signals (snd r)
    ++ (if negb (endLine =? curLine (fst r))%Z || negb (endIndex =? curIndex (fst r))%Z
        then [PositionChanged endLine endIndex] else []).
Proof.
  cbv zeta. unfold finishKey. cbv zeta.
  match goal with
  | |- context [if negb (fst (getCursorPosition (doc ?v)) =? _)%Z || _ then _ else _] =>
      set (w3 := v)
  end.
  assert (H3 : signals w3 = signals (snd r)).
  { unfold w3. split_tests; fields; reflexivity. }
  destruct (negb (fst (getCursorPosition (doc w3)) =? curLine (fst r))%Z
            || negb (snd (getCursorPosition (doc w3)) =? curIndex (fst r))%Z) eqn:E.
  - cbn [doc emit set_signals signals]. rewrite E, H3. reflexivity.
  - rewrite E, H3, app_nil_r. reflexivity.
Qed.

Definition samePosition (p q : Z * Z) : bool :=
  (fst p =? fst q)%Z && (snd p =? snd q)%Z.

(* Away from the two indenting commands: when the handler reaches its
   end, the position signals it emitted are none when the cursor is where
   it was as the event arrived, and one, carrying the new position, when
   it is not. *)
Lemma positionChanged_iff_moved (e : KeyEvent) (w w' : Widget X) :
  (mode w = Some Movement -> isPlain (effectiveModifiers e) = true ->
   text_is e ">" = false /\ text_is e "<" = false) ->
  keyPressEvent env e w = Normal w' ->
  filter isPositionChanged (emittedBetween w w')
  = if samePosition (getCursorPosition (doc w')) (getCursorPosition (doc w))
    then []
    else [PositionChanged (fst (getCursorPosition (doc w')))
                          (snd (getCursorPosition (doc w')))].
Proof.
  intros Hshift. unfold keyPressEvent.
  pose proof (dispatch_keepsStart e w Hshift) as Hk.
  destruct (dispatch env e w) as [r|x v]; cbn [bind]; [|discriminate].
  intros H. injection H as <-.
  destruct Hk as (Hsig & Hl & Hi).
  pose proof (signals_finishKey e r) as Hs. cbv zeta in Hs.
  unfold emittedBetween. rewrite Hs, Hl, Hi.
  unfold startLocals, samePosition. cbn [curLine curIndex].
  set (p1 := getCursorPosition (doc (finishKey env e r))).
  set (p0 := getCursorPosition (doc w)).
  assert (Hc : negb (fst p1 =? fst p0)%Z || negb (snd p1 =? snd p0)%Z
               = negb ((fst p1 =? fst p0)%Z && (snd p1 =? snd p0)%Z))
    by (destruct (fst p1 =? fst p0)%Z, (snd p1 =? snd p0)%Z; reflexivity).
  rewrite Hc.
  destruct Hsig as [Hsig | (s & Hns & Hsig)]; rewrite Hsig.
  - rewrite skipn_length_app.
    destruct ((fst p1 =? fst p0)%Z && (snd p1 =? snd p0)%Z); reflexivity.
  - rewrite <- app_assoc, skipn_length_app. cbn [app filter]. rewrite Hns.
    destruct ((fst p1 =? fst p0)%Z && (snd p1 =? snd p0)%Z); reflexivity.
Qed.

End PositionSignal.

Section IndentSignal.

Variable X : Type.
Variable env : Collab X.

Ltac eval_tests :=
  repeat match goal with
  | |- context [String.eqb ?a ?b] =>
      let v := eval vm_compute in (String.eqb a b) in
      change (String.eqb a b) with v
  end.

(** C10, on the indenting command.  In a reachable state of Movement
    mode, the key [>] pressed with no modifier or Shift is handled to the
    end, and when it leaves the cursor where it was, the handler still
    emits a position signal, carrying that unchanged position: the loop
    has advanced the line remembered at the start. *)
Theorem indent_signals_unmoved_position (e : KeyEvent) (w : Widget X) :
  reachable env w -> mode w = Some Movement ->
  isPlain (modifiers e) = true -> text e = ">"%string ->
  dict_in NUMSETKEYS (key e) = false ->
  key_is e Qt.Key_Space = false -> key_is e Qt.Key_Backspace = false ->
  key_is e Qt.Key_Return = false ->
  exists w',
    keyPressEvent env e w = Normal w' /\
    (getCursorPosition (doc w') = getCursorPosition (doc w) ->
     emittedBetween w w'
     = [PositionChanged (fst (getCursorPosition (doc w)))
                        (snd (getCursorPosition (doc w)))]).
Proof.
  intros Hr Hm Hp Ht Hd Hk1 Hk2 Hk3.
  pose proof (getNumberPrefix_goodPrefix false w (reachable_digits Hr)) as Hn.
  unfold keyPressEvent, dispatch. fold (effectiveModifiers e).
  fold (startLocals w).
  rewrite (effectiveModifiers_plain e Hp), Hm.
  unfold movementMode. rewrite Hp.
  unfold movementPlain. rewrite Hd. unfold text_is. rewrite Ht.
  eval_tests. rewrite Hk1, Hk2, Hk3. cbv iota.
  unfold with_ReadWriteSingleUndo, exits, times.
  pose proof (shiftLine_iter (sci_indent env) (startLocals w)
                (setReadOnly false (beginUndoAction w))
                (Z.to_nat (getNumberPrefix false
                             (setReadOnly false (beginUndoAction w))))) as H.
  cbv zeta in H.
  change (getNumberPrefix false (setReadOnly false (beginUndoAction w)))
    with (getNumberPrefix false w) in *.
  destruct (Nat.iter (Z.to_nat (getNumberPrefix false w))
              (shiftLine (sci_indent env))
              (startLocals w, setReadOnly false (beginUndoAction w)))
    as [l v].
  cbn [fst snd] in H. destruct H as [-> Hcore].
  cbn [bind]. eexists. split; [reflexivity|].
  intros Hpos.
  pose proof (signals_finishKey env e
                (set_curLine
                   (curLine (startLocals w)
                    + Z.of_nat (Z.to_nat (getNumberPrefix false w)))
                   (startLocals w),
                 setReadOnly true (endUndoAction v))) as Hs.
  cbv zeta in Hs. unfold emittedBetween. rewrite Hs. rewrite Hpos.
  cbn [fst snd curLine curIndex set_curLine startLocals signals setReadOnly
       set_readOnly].
  rewrite signals_endUndoAction.
  assert (Hsig : signals v = signals w)
    by (unfold core in Hcore; cbn in Hcore; congruence).
  rewrite Hsig, skipn_length_app.
  assert (Hne : (fst (getCursorPosition (doc w))
                 =? fst (getCursorPosition (doc w))
                    + Z.of_nat (Z.to_nat (getNumberPrefix false w)))%Z = false)
    by (apply Z.eqb_neq; lia).
  rewrite Hne. reflexivity.
Qed.

End IndentSignal.

(** C10, witness: on the one-line document "abcdef" with the cursor at
    its start, [>] puts a tab in front of the line, the cursor stays at
    line 0, column 0, and positionChanged(0, 0) is emitted. *)
Lemma indent_signals_unmoved_position_witness :
  exists w',
    keyPressEvent sampleCollab
      {| key := Qt.Key_Greater; text := ">"; modifiers := Qt.ShiftModifier |}
      (newWidget sampleCollab (docOf ["abcdef"%string] 0)) = Normal w' /\
    (getCursorPosition (doc w')
     = getCursorPosition (doc (newWidget sampleCollab (docOf ["abcdef"%string] 0))) ->
     emittedBetween (newWidget sampleCollab (docOf ["abcdef"%string] 0)) w'
     = [PositionChanged
          (fst (getCursorPosition
                  (doc (newWidget sampleCollab (docOf ["abcdef"%string] 0)))))
          (snd (getCursorPosition
                  (doc (newWidget sampleCollab (docOf ["abcdef"%string] 0)))))]).
Proof.
  apply (@indent_signals_unmoved_position unit sampleCollab
           {| key := Qt.Key_Greater; text := ">"; modifiers := Qt.ShiftModifier |}
           (newWidget sampleCollab (docOf ["abcdef"%string] 0)));
    try reflexivity.
  apply reach_new.
Defined.

(* The same run, evaluated: the text gains its tab, the cursor is where it
   was, and the signal is emitted all the same. *)
Lemma indent_run :
  let w := newWidget sampleCollab (docOf ["abcdef"%string] 0) in
  let w' := finalState
              (keyPressEvent sampleCollab
                 {| key := Qt.Key_Greater; text := ">";
                    modifiers := Qt.ShiftModifier |} w) in
  content (doc w') = TAB :: content (doc w) /\
  getCursorPosition (doc w) = (0%Z, 0%Z) /\
  getCursorPosition (doc w') = (0%Z, 0%Z) /\
  emittedBetween w w' = [PositionChanged 0 0].
Proof. cbv zeta. repeat split. Qed.

(** ** Repeat counts *)

(* The digits without their leading zeroes. *)
Fixpoint dropZeros (ds : list nat) : list nat :=
  match ds with
  | O :: ds' => dropZeros ds'
  | _ => ds
  end.

Lemma digitValue_digit (d : nat) :
  d < 10 -> digitValue (ascii_of_nat (48 + d)) = Some (Z.of_nat d).
Proof.
  intros H. do 10 (destruct d as [|d]; [reflexivity|]). lia.
Qed.

Lemma int_acc_map (ds : list nat) : forall acc,
  Forall (fun d => d < 10) ds ->
  int_acc acc (String.concat "" (map digitText ds))
  = Some (fold_left (fun a d => (10 * a + Z.of_nat d)%Z) ds acc).
Proof.
  induction ds as [|d ds IH]; intros acc Hf; [reflexivity|].
  inversion Hf as [|? ? Hd Hds]; subst.
  cbn [map]. unfold digitText at 1. rewrite concat_digit.
  cbn [int_acc fold_left]. rewrite (digitValue_digit Hd). apply IH. assumption.
Qed.

Lemma fold_digits_le (ds : list nat) : forall acc,
  (0 <= acc)%Z ->
  (acc <= fold_left (fun a d => (10 * a + Z.of_nat d)%Z) ds acc)%Z.
Proof.
  induction ds as [|d ds IH]; intros acc Ha; cbn [fold_left]; [lia|].
  specialize (IH (10 * acc + Z.of_nat d)%Z ltac:(lia)). lia.
Qed.

Lemma digitsValue_dropZeros (ds : list nat) :
  digitsValue (dropZeros ds) = digitsValue ds.
Proof.
  unfold digitsValue. induction ds as [|[|d] ds IH]; cbn [dropZeros]; auto.
Qed.

Lemma digitsValue_nonzero_head (d : nat) (ds : list nat) :
  (1 <= digitsValue (S d :: ds))%Z.
Proof.
  unfold digitsValue. cbn [fold_left].
  pose proof (@fold_digits_le ds (10 * 0 + Z.of_nat (S d))%Z ltac:(lia)). lia.
Qed.

Lemma dropZeros_all_zero (ds : list nat) :
  dropZeros ds = [] -> digitsValue ds = 0%Z.
Proof.
  intros H. rewrite <- digitsValue_dropZeros, H. reflexivity.
Qed.

Section RepeatCounts.

Variable X : Type.
Variable env : Collab X.

Ltac break_step :=
  match goal with
  | |- context [if ?b then _ else _] => destruct b
  | |- context [match ?x with _ => _ end] => destruct x
  end.

Lemma sent_deleteChars p n (w : Widget X) : sent (deleteChars p n w) = sent w.
Proof. unfold deleteChars. repeat break_step; reflexivity. Qed.

Lemma sent_clearSelection (w : Widget X) : sent (clearSelection w) = sent w.
Proof.
  unfold clearSelection. destruct (selectionEmpty (doc w)); [reflexivity|].
  cbn. apply sent_deleteChars.
Qed.

Lemma sent_sciExec m (w : Widget X) : sent (sciExec env m w) = sent w.
Proof.
  destruct m; cbn; try reflexivity.
  - unfold sci_deleteBack. destruct (selectionEmpty (doc w)).
    + destruct (caret (doc w)); [reflexivity | apply sent_deleteChars].
    + apply sent_clearSelection.
  - unfold sci_clear. destruct (selectionEmpty (doc w)).
    + apply sent_deleteChars.
    + apply sent_clearSelection.
  - apply sent_deleteChars.
Qed.

Lemma sent_SendScintilla m (w : Widget X) :
  sent (SendScintilla env m w) = sent w ++ [m].
Proof. unfold SendScintilla. rewrite sent_sciExec. reflexivity. Qed.

Lemma sent_iter_SendScintilla m (k : nat) (w : Widget X) :
  sent (Nat.iter k (SendScintilla env m) w) = sent w ++ repeat m k.
Proof.
  induction k as [|k IH]; cbn [repeat].
  - simpl. rewrite app_nil_r. reflexivity.
  - change (Nat.iter (S k) (SendScintilla env m) w)
      with (SendScintilla env m (Nat.iter k (SendScintilla env m) w)).
    rewrite sent_SendScintilla, IH, <- app_assoc. f_equal.
    symmetry. apply repeat_cons.
Qed.

Lemma mode_finishKey (e : KeyEvent) (r : Locals * Widget X) :
  mode (finishKey env e r) = mode (snd r).
Proof. unfold finishKey. cbv zeta. split_tests; fields; reflexivity. Qed.

(* The effect of one digit key in Movement mode. *)
Lemma digit_step (d : nat) (w : Widget X) :
  d < 10 -> mode w = Some Movement ->
  exists w',
    keyPressEvent env (digitKey d) w = Normal w' /\
    mode w' = Some Movement /\
    content (doc w') = content (doc w) /\
    numberList w'
    = (match d, numberList w with
       | O, [] => []
       | _, l => l ++ [digitText d]
       end) /\
    (d <> 0 -> doc w' = doc w).
Proof.
  intros Hd Hm.
  unfold keyPressEvent, dispatch. rewrite Hm.
  change (if (modifiers (digitKey d) =? Qt.GroupSwitchModifier)%Z
          then Qt.NoModifier else modifiers (digitKey d)) with Qt.NoModifier.
  unfold movementMode. change (isPlain Qt.NoModifier) with true. cbv iota.
  fold (startLocals w).
  assert (Hg : dict_get NUMSETKEYS (key (digitKey d)) = Some (digitText d)).
  { do 10 (destruct d as [|d]; [reflexivity|]). lia. }
  rewrite movementPlain_digit by (rewrite dict_in_get, Hg; reflexivity).
  unfold processNumberPrefix. rewrite Hg. cbn [pystr].
  assert (Hz : String.eqb (digitText d) "0" = Nat.eqb d 0).
  { do 10 (destruct d as [|d]; [reflexivity|]). lia. }
  assert (Ht : text_is (digitKey d) "0" = Nat.eqb d 0) by exact Hz.
  rewrite Hz, Ht.
  destruct d as [|d]; cbn [Nat.eqb andb].
  - destruct (numberList w) as [|a l] eqn:Hl; cbn [List.length Nat.eqb];
      cbv zeta; cbn [fst snd clearnumberList set_clearnumberList andb bind ok].
    + eexists. split; [reflexivity|].
      rewrite numberList_finishKey, doc_finishKey by reflexivity.
      cbn [fst snd clearnumberList].
      split; [|split; [|split; [reflexivity | congruence]]].
      * rewrite mode_finishKey. fields. exact Hm.
      * cbn [SendScintilla sciExec doc set_doc set_sent set_numberList].
        apply getCursorPosition_home.
    + eexists. split; [reflexivity|].
      rewrite numberList_finishKey, doc_finishKey by reflexivity.
      cbn [fst snd clearnumberList numberList set_numberList doc].
      split; [|auto].
      rewrite mode_finishKey. fields. exact Hm.
  - cbv zeta; cbn [fst snd clearnumberList set_clearnumberList andb bind ok].
    eexists. split; [reflexivity|].
    rewrite numberList_finishKey, doc_finishKey by reflexivity.
    cbn [fst snd clearnumberList numberList set_numberList doc].
    split; [|split; [reflexivity|split; [|reflexivity]]].
    + rewrite mode_finishKey. fields. exact Hm.
    + destruct (numberList w); reflexivity.
Qed.

End RepeatCounts.

Lemma dropZeros_head (ds : list nat) (d : nat) (r : list nat) :
  dropZeros ds = d :: r -> d <> 0.
Proof.
  induction ds as [|[|a] ds IH]; cbn [dropZeros]; intros H.
  - discriminate.
  - auto.
  - injection H as <- _. discriminate.
Qed.

Lemma Forall_dropZeros (P : nat -> Prop) (ds : list nat) :
  Forall P ds -> Forall P (dropZeros ds).
Proof.
  induction 1 as [|[|a] ds Ha Hds IH]; cbn [dropZeros]; auto.
Qed.

Section MotionCounts.

Variable X : Type.
Variable env : Collab X.

Lemma pressAll_cons (e : KeyEvent) (es : list KeyEvent) (w : Widget X) :
  pressAll env (e :: es) w
  = pressAll env es (finalState (keyPressEvent env e w)).
Proof. reflexivity. Qed.

Lemma feed_digits (ds : list nat) : forall w : Widget X,
  Forall (fun d => d < 10) ds -> mode w = Some Movement ->
  mode (pressAll env (map digitKey ds) w) = Some Movement /\
  content (doc (pressAll env (map digitKey ds) w)) = content (doc w) /\
  numberList (pressAll env (map digitKey ds) w)
  = match numberList w with
    | [] => map digitText (dropZeros ds)
    | l => l ++ map digitText ds
    end.
Proof.
  induction ds as [|d ds IH]; intros w Hf Hm.
  - cbn. repeat split; auto. destruct (numberList w); [reflexivity|].
    rewrite app_nil_r. reflexivity.
  - inversion Hf as [|? ? Hd Hds]; subst.
    cbn [map]. rewrite pressAll_cons.
    destruct (@digit_step X env d w Hd Hm) as (w' & Hk & Hm' & Hc & Hl & _).
    rewrite Hk. cbn [finalState].
    destruct (IH w' Hds Hm') as (IH1 & IH2 & IH3).
    split; [assumption|]. split; [congruence|].
    rewrite IH3, Hl.
    destruct d as [|d], (numberList w) as [|a l]; cbn [dropZeros app map];
      try reflexivity.
    + rewrite <- app_assoc. reflexivity.
    + destruct (l ++ [digitText (S d)]) eqn:E;
        [destruct l; discriminate|].
      rewrite <- E, <- app_assoc. reflexivity.
Qed.

Lemma getNumberPrefix_digits (ds : list nat) (w : Widget X) :
  Forall (fun d => d < 10) ds ->
  numberList w = map digitText (dropZeros ds) ->
  getNumberPrefix false w = Z.max 1 (digitsValue ds).
Proof.
  intros Hf Hl. unfold getNumberPrefix. rewrite Hl.
  destruct (dropZeros ds) as [|d r] eqn:Hz.
  - cbn [map]. rewrite (@dropZeros_all_zero ds Hz). reflexivity.
  - assert (Hfz : Forall (fun d => d < 10) (d :: r))
      by (rewrite <- Hz; apply Forall_dropZeros; assumption).
    pose proof (@int_acc_map (d :: r) 0%Z Hfz) as Hi.
    cbn [map] in *. unfold digitText at 1. unfold digitText at 1 in Hi.
    rewrite concat_digit in *. unfold int_. rewrite Hi.
    fold (digitsValue (d :: r)). rewrite <- Hz, digitsValue_dropZeros.
    assert (1 <= digitsValue ds)%Z; [|lia].
    rewrite <- digitsValue_dropZeros, Hz.
    destruct d as [|d]; [exfalso; exact (@dropZeros_head ds 0 r Hz eq_refl)|].
    apply digitsValue_nonzero_head.
Qed.

Lemma getNumberPrefix_capped (w : Widget X) :
  getNumberPrefix true w = Z.min (getNumberPrefix false w) (lines (doc w)).
Proof. reflexivity. Qed.

Ltac eval_tests :=
  repeat match goal with
  | |- context [String.eqb ?a ?b] =>
      let v := eval vm_compute in (String.eqb a b) in
      change (String.eqb a b) with v
  | |- context [Z.eqb ?a ?b] =>
      let v := eval vm_compute in (Z.eqb a b) in
      change (Z.eqb a b) with v
  | |- context [dict_in NUMSETKEYS ?k] =>
      let v := eval vm_compute in (dict_in NUMSETKEYS k) in
      change (dict_in NUMSETKEYS k) with v
  end.

(* The effect of one motion key in Movement mode. *)
Lemma motion_step (m : Motion) (w : Widget X) :
  mode w = Some Movement ->
  exists w',
    keyPressEvent env (motionKey m) w = Normal w' /\
    sent w' = sent w ++ repeat (motionMsg m)
                          (Z.to_nat (getNumberPrefix (motionCapped m) w)) /\
    doc w' = doc (times (getNumberPrefix (motionCapped m) w)
                        (SendScintilla env (motionMsg m)) w).
Proof.
  intros Hm. unfold keyPressEvent, dispatch. rewrite Hm.
  fold (startLocals w).
  destruct m; unfold movementMode, movementPlain, isPlain, text_is, key_is, isFnKey;
    cbn [motionKey plainKey key text modifiers];
    eval_tests; cbv iota; cbn [orb andb bind ok];
    (eexists; split; [reflexivity|]);
    rewrite sent_finishKey, doc_finishKey by reflexivity;
    cbn [fst snd motionMsg motionCapped]; unfold times;
    rewrite sent_iter_SendScintilla; split; reflexivity.
Qed.

Lemma doc_iter_charRight (k : nat) (w : Widget X) :
  doc (Nat.iter k (SendScintilla env SCI_CHARRIGHT) w)
  = Nat.iter k (@sci_charRight X) (doc w).
Proof.
  induction k as [|k IH]; [reflexivity|].
  change (Nat.iter (S k) (SendScintilla env SCI_CHARRIGHT) w)
    with (SendScintilla env SCI_CHARRIGHT
            (Nat.iter k (SendScintilla env SCI_CHARRIGHT) w)).
  change (Nat.iter (S k) (@sci_charRight X) (doc w))
    with (sci_charRight (Nat.iter k (@sci_charRight X) (doc w))).
  rewrite <- IH. reflexivity.
Qed.

Lemma caret_iter_charRight (k : nat) : forall d : Doc X,
  selectionEmpty d || moveExtends d = true -> caret d <= docLength d ->
  caret (Nat.iter k (@sci_charRight X) d) = Nat.min (caret d + k) (docLength d) /\
  content (Nat.iter k (@sci_charRight X) d) = content d.
Proof.
  induction k as [|k IH]; intros d Hs Hc.
  - cbn. split; [lia | reflexivity].
  - change (Nat.iter (S k) (@sci_charRight X) d)
      with (sci_charRight (Nat.iter k (@sci_charRight X) d)).
    assert (Hinv : forall d0 : Doc X,
               selectionEmpty d0 || moveExtends d0 = true ->
               selectionEmpty (sci_charRight d0) || moveExtends (sci_charRight d0) = true
               /\ caret (sci_charRight d0) = Nat.min (caret d0 + 1) (docLength d0)
               /\ content (sci_charRight d0) = content d0).
    { intros d0 H0. unfold sci_charRight. rewrite H0.
      unfold movePositionTo, selectionEmpty. cbn [caret anchor moveExtends content].
      repeat split. destruct (moveExtends d0); [apply orb_true_r|].
      rewrite Nat.eqb_refl. reflexivity. }
    assert (Hk : selectionEmpty (Nat.iter k (@sci_charRight X) d)
                 || moveExtends (Nat.iter k (@sci_charRight X) d) = true).
    { clear IH Hc. induction k as [|k IHk]; [exact Hs|].
      change (Nat.iter (S k) (@sci_charRight X) d)
        with (sci_charRight (Nat.iter k (@sci_charRight X) d)).
      apply Hinv. exact IHk. }
    destruct (IH d Hs Hc) as [IH1 IH2].
    destruct (Hinv _ Hk) as (_ & H1 & H2).
    rewrite H1, H2, IH1. unfold docLength in *. rewrite IH2. split; [lia | reflexivity].
Qed.

End MotionCounts.

(** C2, counterexample: after the digit 0 the key l sends SCI_CHARRIGHT
    once, where int("0") is 0; and on a document of one line, after the
    digit 3 the key k sends SCI_LINEDOWN once, where int("3") is 3. *)
Lemma motion_count_differs_from_digits :
  let w := newWidget sampleCollab (docOf ["abcdef"%string] 2) in
  (digitsValue [0] = 0%Z /\
   sentBetween (pressAll sampleCollab [digitKey 0] w)
     (pressAll sampleCollab [digitKey 0; motionKey CharRight] w)
   = [SCI_CHARRIGHT]) /\
  (digitsValue [3] = 3%Z /\ lines (doc w) = 1%Z /\
   sentBetween (pressAll sampleCollab [digitKey 3] w)
     (pressAll sampleCollab [digitKey 3; motionKey LineDown] w)
   = [SCI_LINEDOWN]).
Proof. cbv zeta. repeat split. Qed.

(** ** Typing and the escape chord *)

Section Chord.

Variable X : Type.
Variable env : Collab X.

Lemma selectionEmpty_eq (d : Doc X) : selectionEmpty d = true -> anchor d = caret d.
Proof. unfold selectionEmpty. apply Nat.eqb_eq. Qed.

(* Typed text on a writable document with nothing selected. *)
Lemma addCharUTF_insert (s : list ascii) (w : Widget X) :
  readOnly w = false -> selectionEmpty (doc w) = true ->
  caret (doc w) <= docLength (doc w) -> s <> [] ->
  content (doc (addCharUTF s w))
  = firstn (caret (doc w)) (content (doc w)) ++ s
    ++ skipn (caret (doc w)) (content (doc w)) /\
  caret (doc (addCharUTF s w)) = caret (doc w) + List.length s /\
  anchor (doc (addCharUTF s w)) = caret (doc w) + List.length s.
Proof.
  intros Hro Hs Hc Hne.
  pose proof (selectionEmpty_eq _ Hs) as Ha.
  assert (El : Nat.eqb (List.length s) 0 = false)
    by (destruct s; [congruence | reflexivity]).
  unfold addCharUTF. rewrite Hs. cbn [negb]. cbv zeta.
  unfold insertString, selStart. rewrite Ha, Nat.min_id, Hro, El.
  rewrite (Nat.min_l _ _ Hc).
  cbn. auto.
Qed.

(* Deleting back the one character just typed. *)
Lemma deleteBack_typed (k : ascii) (pre post : list ascii) (w : Widget X) :
  readOnly w = false ->
  content (doc w) = pre ++ k :: post ->
  caret (doc w) = S (List.length pre) -> anchor (doc w) = S (List.length pre) ->
  content (doc (sci_deleteBack w)) = pre ++ post /\
  caret (doc (sci_deleteBack w)) = List.length pre.
Proof.
  intros Hro Hc Hcar Hanc.
  unfold sci_deleteBack, selectionEmpty. rewrite Hanc, Hcar, Nat.eqb_refl.
  unfold deleteChars. rewrite Hro, Hc.
  rewrite (skipn_length_app pre (k :: post)).
  cbn [firstn List.length Nat.eqb orb].
  cbn [pushAction doc set_doc set_undoGroup content caret].
  rewrite Hcar.
  replace (List.length pre + 1) with (List.length (pre ++ [k]))
    by (rewrite length_app; reflexivity).
  replace (pre ++ k :: post) with ((pre ++ [k]) ++ post)
    by (rewrite <- app_assoc; reflexivity).
  rewrite skipn_length_app.
  rewrite <- app_assoc. cbn [app].
  rewrite firstn_app, firstn_all, Nat.sub_diag. cbn [firstn]. rewrite app_nil_r.
  split; [reflexivity|].
  unfold adjustDel.
  destruct (S (List.length pre) <=? List.length pre) eqn:E1;
    [apply Nat.leb_le in E1; lia|].
  destruct (List.length pre + 1 <? S (List.length pre)) eqn:E2;
    [apply Nat.ltb_lt in E2; lia|].
  reflexivity.
Qed.

Lemma typesText_ordinary (e : KeyEvent) :
  typesText e = true ->
  key_is e Qt.Key_Escape = false /\ isFnKey e = false /\
  text e <> EmptyString.
Proof.
  unfold typesText. intros H.
  apply andb_true_iff in H. destruct H as [H Ht].
  apply andb_true_iff in H. destruct H as [H Hk].
  apply Z.ltb_lt in Hk.
  unfold key_is, isFnKey, key_is, Qt.Key_Escape, Qt.Key_F1, Qt.Key_F2, Qt.Key_F3.
  repeat split.
  - apply Z.eqb_neq. lia.
  - apply orb_false_iff. split; [apply orb_false_iff; split|];
      apply Z.eqb_neq; lia.
  - destruct (text e); [discriminate | discriminate].
Qed.

Lemma list_ascii_nonempty (s : string) :
  s <> EmptyString -> list_ascii_of_string s <> [].
Proof. destruct s; [congruence | discriminate]. Qed.

(* An ordinary text key in Typing mode, other than the second chord key
   while the chord is pending: the text is typed. *)
Lemma typing_types (e : KeyEvent) (w : Widget X) :
  mode w = Some Typing -> readOnly w = false ->
  selectionEmpty (doc w) = true -> caret (doc w) <= docLength (doc w) ->
  modifiers e = Qt.NoModifier -> typesText e = true ->
  (text e = ESCAPESECOND -> prevWasEscapeFirst w = false) ->
  exists w',
    keyPressEvent env e w = Normal w' /\
    mode w' = Some Typing /\ readOnly w' = false /\
    prevWasEscapeFirst w' = text_is e ESCAPEFIRST /\
    content (doc w')
    = firstn (caret (doc w)) (content (doc w)) ++ list_ascii_of_string (text e)
      ++ skipn (caret (doc w)) (content (doc w)) /\
    caret (doc w') = caret (doc w) + List.length (list_ascii_of_string (text e)) /\
    anchor (doc w') = caret (doc w') /\
    sentBetween w w' = [].
Proof.
  intros Hm Hro Hs Hc Hmod Ht Hsecond.
  destruct (@typesText_ordinary e Ht) as (Hesc & Hfn & Hne).
  pose proof (@addCharUTF_insert (list_ascii_of_string (text e))) as Hadd.
  assert (Hfin : forall v : Widget X,
            mode v = Some Typing -> readOnly v = false -> doc v = doc w ->
            sent v = sent w ->
            let w' := finishKey env e (set_process true (startLocals w), v) in
            mode w' = Some Typing /\ readOnly w' = false /\
            prevWasEscapeFirst w'
            = (prevWasEscapeFirst v && text_is e ESCAPEFIRST) /\
            content (doc w')
            = firstn (caret (doc w)) (content (doc w))
              ++ list_ascii_of_string (text e)
              ++ skipn (caret (doc w)) (content (doc w)) /\
            caret (doc w')
            = caret (doc w) + List.length (list_ascii_of_string (text e)) /\
            anchor (doc w') = caret (doc w') /\
            sentBetween w w' = []).
  { intros v Hvm Hvro Hvd Hvs. cbv zeta. unfold finishKey. cbv zeta.
    cbn [fst snd process clearnumberList set_process startLocals].
    unfold baseKeyPressEvent. rewrite Ht.
    match goal with
    | |- context [addCharUTF _ ?u] => set (v2 := u)
    end.
    assert (Hv2 : mode v2 = Some Typing /\ readOnly v2 = false /\
                  doc v2 = doc w /\ sent v2 = sent w /\
                  prevWasEscapeFirst v2
                  = (prevWasEscapeFirst v && text_is e ESCAPEFIRST)).
    { unfold v2. destruct (prevWasEscapeFirst v) eqn:Hp; cbn [andb].
      - destruct (text_is e ESCAPEFIRST); cbn [negb andb]; fields; auto.
      - cbn. auto. }
    destruct Hv2 as (H1 & H2 & H3 & H4 & H5).
    destruct (Hadd v2 H2) as (Ha1 & Ha2 & Ha3);
      rewrite ?H3; auto using list_ascii_nonempty.
    rewrite H3 in *.
    assert (Hsent : sent (addCharUTF (list_ascii_of_string (text e)) v2) = sent w).
    { rewrite <- H4. unfold addCharUTF. rewrite H3, Hs. cbn [negb]. cbv zeta.
      unfold insertString. rewrite H2.
      destruct (Nat.eqb (List.length (list_ascii_of_string (text e))) 0);
        reflexivity. }
    unfold sentBetween.
    split_tests; fields; cbn [sent emit set_signals];
      rewrite ?Hsent, ?skipn_length_self; repeat split; auto;
      try congruence; rewrite Ha3, Ha2; reflexivity. }
  unfold keyPressEvent, dispatch. fold (effectiveModifiers e).
  fold (startLocals w).
  assert (Hp : isPlain (modifiers e) = true) by (rewrite Hmod; reflexivity).
  rewrite (effectiveModifiers_plain e Hp), Hm.
  unfold typingMode. rewrite Hp, Hesc.
  destruct (text_is e ESCAPEFIRST) eqn:H1.
  - cbn [bind ok]. eexists. split; [reflexivity|].
    exact (Hfin (set_prevWasEscapeFirst true w) Hm Hro eq_refl eq_refl).
  - destruct (text_is e ESCAPESECOND) eqn:H2.
    + assert (Hprev : prevWasEscapeFirst w = false).
      { apply Hsecond. apply String.eqb_eq. exact H2. }
      rewrite Hprev. cbn [bind ok]. eexists. split; [reflexivity|].
      exact (Hfin (set_prevWasEscapeFirst false w) Hm Hro eq_refl eq_refl).
    + rewrite Hfn. cbn [bind ok]. eexists. split; [reflexivity|].
      destruct (Hfin w Hm Hro eq_refl eq_refl)
        as (F1 & F2 & F3 & F4 & F5 & F6 & F7).
      rewrite andb_false_r in F3. repeat split; auto.
Qed.

End Chord.

Section ChordTheorem.

Variable X : Type.
Variable env : Collab X.

Lemma sent_setMode (m : EditorMode) (w : Widget X) :
  sent (setMode env m w)
  = sent w ++ (if sameMode (mode w) m then []
               else match m with
                    | Typing | ReplaceChar => [SCI_SETCARETSTYLE 1]
                    | Movement => [SCI_SETCARETSTYLE 2]
                    | Command | FindChar => []
                    end).
Proof.
  unfold setMode. destruct (sameMode (mode w) m); destruct m; cbn;
    rewrite ?app_nil_r; reflexivity.
Qed.

(* The second chord key while the chord is pending. *)
Lemma chord_completes (e : KeyEvent) (k : ascii) (pre post : list ascii)
  (w : Widget X) :
  mode w = Some Typing -> readOnly w = false -> prevWasEscapeFirst w = true ->
  modifiers e = Qt.NoModifier -> text e = ESCAPESECOND -> key e <> Qt.Key_Escape ->
  content (doc w) = pre ++ k :: post ->
  caret (doc w) = S (List.length pre) -> anchor (doc w) = S (List.length pre) ->
  exists w',
    keyPressEvent env e w = Normal w' /\
    mode w' = Some Movement /\ prevWasEscapeFirst w' = false /\
    content (doc w') = pre ++ post /\ caret (doc w') = List.length pre /\
    sentBetween w w' = [SCI_DELETEBACK; SCI_SETCARETSTYLE 2].
Proof.
  intros Hm Hro Hprev Hmod Ht Hk Hc Hcar Hanc.
  unfold keyPressEvent, dispatch. fold (effectiveModifiers e).
  fold (startLocals w).
  assert (Hp : isPlain (modifiers e) = true) by (rewrite Hmod; reflexivity).
  rewrite (effectiveModifiers_plain e Hp), Hm.
  unfold typingMode. rewrite Hp.
  assert (Hesc : key_is e Qt.Key_Escape = false) by (apply Z.eqb_neq; exact Hk).
  rewrite Hesc. unfold text_is at 1 2. rewrite Ht.
  change (String.eqb ESCAPESECOND ESCAPEFIRST) with false.
  change (String.eqb ESCAPESECOND ESCAPESECOND) with true.
  cbv iota. rewrite Hprev. cbn [bind ok].
  eexists. split; [reflexivity|].
  assert (Hdb : content (doc (SendScintilla env SCI_DELETEBACK w)) = pre ++ post /\
                caret (doc (SendScintilla env SCI_DELETEBACK w)) = List.length pre).
  { unfold SendScintilla. cbn [sciExec].
    apply (@deleteBack_typed X k pre post (set_sent (sent w ++ [SCI_DELETEBACK]) w));
      assumption. }
  destruct Hdb as [Hd1 Hd2].
  rewrite mode_finishKey. unfold sentBetween.
  rewrite doc_finishKey, sent_finishKey by reflexivity.
  cbn [snd].
  split; [fields; reflexivity|].
  split.
  { unfold finishKey. cbv zeta. cbn [fst snd process clearnumberList startLocals].
    cbn [prevWasEscapeFirst set_prevWasEscapeFirst andb].
    split_tests; reflexivity. }
  cbn [doc set_prevWasEscapeFirst sent]. rewrite doc_setMode, sent_setMode.
  rewrite mode_keeps, Hm, sent_SendScintilla. cbn [sameMode EditorMode_eqb].
  rewrite <- app_assoc, skipn_length_app. auto.
  apply keeps_SendScintilla.
Qed.

(** C1, as the code has it.  In Typing mode on a writable document with
    nothing selected, the first chord key, pressed with no modifier as an
    ordinary text key, is typed at the cursor and leaves the chord
    pending.  If the very next key event is the second chord key with no
    modifier, the typed character is deleted, the second key is not
    typed, the mode becomes Movement, and text and cursor are as before
    the chord.  If instead it is an ordinary text key whose text is
    neither chord key, the flag is cleared, both characters stay typed and
    the mode stays Typing; if it is the first chord key again, both are
    typed and the chord stays pending. *)
Theorem escape_chord (e1 : KeyEvent) (w : Widget X) :
  mode w = Some Typing -> readOnly w = false ->
  selectionEmpty (doc w) = true -> caret (doc w) <= docLength (doc w) ->
  modifiers e1 = Qt.NoModifier -> typesText e1 = true -> text e1 = ESCAPEFIRST ->
  exists w1,
    keyPressEvent env e1 w = Normal w1 /\
    mode w1 = Some Typing /\ prevWasEscapeFirst w1 = true /\
    content (doc w1)
    = firstn (caret (doc w)) (content (doc w))
      ++ list_ascii_of_string ESCAPEFIRST
      ++ skipn (caret (doc w)) (content (doc w)) /\
    (forall e2,
       modifiers e2 = Qt.NoModifier -> text e2 = ESCAPESECOND ->
       key e2 <> Qt.Key_Escape ->
       exists w2,
         keyPressEvent env e2 w1 = Normal w2 /\
         mode w2 = Some Movement /\ prevWasEscapeFirst w2 = false /\
         content (doc w2) = content (doc w) /\ caret (doc w2) = caret (doc w) /\
         sentBetween w1 w2 = [SCI_DELETEBACK; SCI_SETCARETSTYLE 2]) /\
    (forall e2,
       modifiers e2 = Qt.NoModifier -> typesText e2 = true ->
       text e2 <> ESCAPESECOND ->
       exists w2,
         keyPressEvent env e2 w1 = Normal w2 /\
         mode w2 = Some Typing /\
         prevWasEscapeFirst w2 = text_is e2 ESCAPEFIRST /\
         content (doc w2)
         = firstn (caret (doc w)) (content (doc w))
           ++ list_ascii_of_string ESCAPEFIRST
           ++ list_ascii_of_string (text e2)
           ++ skipn (caret (doc w)) (content (doc w))).
Proof.
  intros Hm Hro Hs Hc Hmod Ht Htext.
  destruct (@typing_types X env e1 w Hm Hro Hs Hc Hmod Ht)
    as (w1 & Hk1 & Hm1 & Hro1 & Hp1 & Hc1 & Hcar1 & Hanc1 & _).
  { rewrite Htext. discriminate. }
  rewrite Htext in *. change (text_is e1 ESCAPEFIRST) with
    (String.eqb (text e1) ESCAPEFIRST) in Hp1. rewrite Htext in Hp1.
  change (String.eqb ESCAPEFIRST ESCAPEFIRST) with true in Hp1.
  cbn [list_ascii_of_string ESCAPEFIRST List.length] in Hc1, Hcar1.
  set (t := content (doc w)) in *. set (c := caret (doc w)) in *.
  assert (Hlen : List.length (firstn c t) = c).
  { apply firstn_length_le. exact Hc. }
  exists w1. split; [exact Hk1|]. split; [exact Hm1|]. split; [exact Hp1|].
  split; [exact Hc1|]. split.
  - intros e2 Hmod2 Ht2 Hk2.
    destruct (@chord_completes e2 "k"%char (firstn c t) (skipn c t) w1)
      as (w2 & Hk & Hm2 & Hp2 & Hc2 & Hcar2 & Hs2); auto.
    + rewrite Hcar1, Hlen. lia.
    + rewrite Hanc1, Hcar1, Hlen. lia.
    + exists w2. rewrite firstn_skipn in Hc2. rewrite Hlen in Hcar2.
      repeat split; assumption.
  - intros e2 Hmod2 Ht2 Hne2.
    assert (Hs1 : selectionEmpty (doc w1) = true)
      by (unfold selectionEmpty; rewrite Hanc1; apply Nat.eqb_refl).
    assert (Hcl : caret (doc w1) <= docLength (doc w1)).
    { unfold docLength. rewrite Hcar1, Hc1, !length_app, Hlen. cbn. lia. }
    destruct (@typing_types X env e2 w1 Hm1 Hro1 Hs1 Hcl Hmod2 Ht2)
      as (w2 & Hk & Hm2 & _ & Hp2 & Hc2 & _); [congruence|].
    exists w2. split; [exact Hk|]. split; [exact Hm2|]. split; [exact Hp2|].
    rewrite Hc2, Hcar1, Hc1.
    replace (c + 1) with (List.length (firstn c t ++ ["k"%char]))
      by (rewrite length_app, Hlen; reflexivity).
    replace (firstn c t ++ ["k"%char] ++ skipn c t)
      with ((firstn c t ++ ["k"%char]) ++ skipn c t)
      by (rewrite <- app_assoc; reflexivity).
    rewrite firstn_app, firstn_all, Nat.sub_diag, skipn_length_app.
    cbn [firstn]. rewrite app_nil_r, <- !app_assoc. reflexivity.
Qed.

End ChordTheorem.

(** C1, witness: the key k typed into abcdef at column 2. *)
Lemma escape_chord_witness :
  exists w1,
    keyPressEvent sampleCollab (plainKey Qt.Key_K "k")
      (pressAll sampleCollab [plainKey 0x54 "t"]
         (newWidget sampleCollab (docOf ["abcdef"%string] 2))) = Normal w1 /\
    mode w1 = Some Typing /\ prevWasEscapeFirst w1 = true /\
    content (doc w1)
    = firstn 2 (list_ascii_of_string "abcdef")
      ++ list_ascii_of_string ESCAPEFIRST
      ++ skipn 2 (list_ascii_of_string "abcdef") /\
    (forall e2,
       modifiers e2 = Qt.NoModifier -> text e2 = ESCAPESECOND ->
       key e2 <> Qt.Key_Escape ->
       exists w2,
         keyPressEvent sampleCollab e2 w1 = Normal w2 /\
         mode w2 = Some Movement /\ prevWasEscapeFirst w2 = false /\
         content (doc w2) = list_ascii_of_string "abcdef" /\
         caret (doc w2) = 2 /\
         sentBetween w1 w2 = [SCI_DELETEBACK; SCI_SETCARETSTYLE 2]) /\
    (forall e2,
       modifiers e2 = Qt.NoModifier -> typesText e2 = true ->
       text e2 <> ESCAPESECOND ->
       exists w2,
         keyPressEvent sampleCollab e2 w1 = Normal w2 /\
         mode w2 = Some Typing /\
         prevWasEscapeFirst w2 = text_is e2 ESCAPEFIRST /\
         content (doc w2)
         = firstn 2 (list_ascii_of_string "abcdef")
           ++ list_ascii_of_string ESCAPEFIRST
           ++ list_ascii_of_string (text e2)
           ++ skipn 2 (list_ascii_of_string "abcdef")).
Proof.
  apply (@escape_chord unit sampleCollab (plainKey Qt.Key_K "k")
           (pressAll sampleCollab [plainKey 0x54 "t"]
              (newWidget sampleCollab (docOf ["abcdef"%string] 2))));
    try reflexivity.
  vm_compute. lia.
Defined.

(** C1, counterexample: in Typing mode, the key k pressed twice.  The
    second k is a key other than the second chord key, yet the pending
    flag is not cleared: both characters are typed and the chord is still
    pending. *)
Lemma first_chord_key_twice :
  let w := pressAll sampleCollab [plainKey 0x54 "t"]
             (newWidget sampleCollab (docOf ["abcdef"%string] 2)) in
  let e := plainKey Qt.Key_K "k" in
  mode w = Some Typing /\ modifiers e = Qt.NoModifier /\
  text e = ESCAPEFIRST /\ text e <> ESCAPESECOND /\
  exists w1 w2,
    keyPressEvent sampleCollab e w = Normal w1 /\
    keyPressEvent sampleCollab e w1 = Normal w2 /\
    prevWasEscapeFirst w1 = true /\
    mode w2 = Some Typing /\
    linesOf (content (doc w2)) = ["abkkcdef"%string] /\
    prevWasEscapeFirst w2 = true /\ prevWasEscapeFirst w2 <> false.
Proof.
  cbv zeta. repeat split; try discriminate.
  do 2 eexists. split; [vm_compute; reflexivity|].
  split; [vm_compute; reflexivity|].
  repeat split; discriminate.
Qed.


(** ** Digits followed by a motion command *)

(* The branch of Movement mode that a key with a known text takes. *)
Ltac text_branch He :=
  let Hp := fresh "Hp" in
  let Ht := fresh "Ht" in
  let Hd := fresh "Hd" in
  let Hk1 := fresh "Hk" in
  let Hk2 := fresh "Hk" in
  let Hk3 := fresh "Hk" in
  destruct He as (Hp & Ht & Hd & Hk1 & Hk2 & Hk3);
  unfold movementMode; rewrite Hp;
  unfold movementPlain; rewrite Hd; unfold text_is; rewrite Ht;
  repeat match goal with
  | |- context [String.eqb ?a ?b] =>
      let v := eval vm_compute in (String.eqb a b) in
      change (String.eqb a b) with v
  end;
  rewrite ?Hk1, ?Hk2, ?Hk3; cbv iota.

(* The tests of a key event whose key and text are known. *)
Ltac known_tests :=
  repeat match goal with
  | |- context [if ?b then _ else _] =>
      let v := eval vm_compute in b in
      lazymatch v with
      | true => change b with true
      | false => change b with false
      end;
      cbv iota
  end.

Lemma isPlain_other (m : Z) :
  isPlain m = true ->
  (m =? Qt.ControlModifier)%Z = false /\ (m =? Qt.AltModifier)%Z = false.
Proof.
  intros H. destruct (isPlain_cases _ H) as [->| ->]; split; reflexivity.
Qed.

Lemma digitsValue_zero (ds : list nat) :
  digitsValue ds = 0%Z <-> dropZeros ds = [].
Proof.
  split; [|apply dropZeros_all_zero].
  intros H. destruct (dropZeros ds) as [|d r] eqn:E; [reflexivity|].
  exfalso. rewrite <- digitsValue_dropZeros, E in H.
  destruct d as [|d]; [exact (@dropZeros_head ds 0 r E eq_refl)|].
  pose proof (digitsValue_nonzero_head d r). lia.
Qed.

Section DigitsThenMotion.

Variable X : Type.
Variable env : Collab X.

(* The effect of one digit key in Movement mode. *)
Lemma digit_event_step (d : nat) (e : KeyEvent) (w : Widget X) :
  d < 10 -> isDigitEvent d e -> mode w = Some Movement ->
  exists w',
    keyPressEvent env e w = Normal w' /\
    mode w' = Some Movement /\
    content (doc w') = content (doc w) /\
    numberList w'
    = (match d, numberList w with
       | O, [] => []
       | _, l => l ++ [digitText d]
       end) /\
    (d <> 0 -> doc w' = doc w).
Proof.
  intros Hd [Hk Hp] Hm.
  unfold keyPressEvent, dispatch. rewrite Hm.
  fold (effectiveModifiers e). fold (startLocals w).
  unfold movementMode. rewrite Hp.
  assert (Hg : dict_get NUMSETKEYS (key e) = Some (digitText d)).
  { rewrite Hk. do 10 (destruct d as [|d]; [reflexivity|]). lia. }
  rewrite movementPlain_digit by (rewrite dict_in_get, Hg; reflexivity).
  unfold processNumberPrefix. rewrite Hg. cbn [pystr].
  assert (Hz : String.eqb (digitText d) "0" = Nat.eqb d 0).
  { do 10 (destruct d as [|d]; [reflexivity|]). lia. }
  rewrite Hz.
  destruct d as [|d]; cbn [Nat.eqb andb].
  - destruct (numberList w) as [|a l] eqn:Hl; cbn [List.length Nat.eqb];
      cbv zeta; cbn [fst snd clearnumberList set_clearnumberList andb].
    + rewrite andb_true_r.
      destruct (text_is e "0"); cbn [bind ok];
        (eexists; split; [reflexivity|]);
        rewrite numberList_finishKey, doc_finishKey, mode_finishKey
          by reflexivity;
        cbn [fst snd clearnumberList].
      * split; [rewrite (mode_keeps (K := keeps_SendScintilla env _));
                exact Hm|].
        split; [|split; [reflexivity | congruence]].
        cbn [SendScintilla sciExec doc set_doc set_sent set_numberList].
        apply getCursorPosition_home.
      * split; [exact Hm|].
        split; [reflexivity|split; [reflexivity | congruence]].
    + rewrite andb_false_r. cbn [bind ok].
      eexists. split; [reflexivity|].
      rewrite numberList_finishKey, doc_finishKey, mode_finishKey
        by reflexivity.
      cbn [fst snd clearnumberList numberList set_numberList doc mode].
      auto.
  - cbv zeta. cbn [fst snd clearnumberList set_clearnumberList].
    rewrite andb_false_r. cbn [bind ok].
    eexists. split; [reflexivity|].
    rewrite numberList_finishKey, doc_finishKey, mode_finishKey by reflexivity.
    cbn [fst snd clearnumberList numberList set_numberList doc mode].
    split; [exact Hm|]. split; [reflexivity|].
    split; [destruct (numberList w); reflexivity | reflexivity].
Qed.

Lemma feed_digit_events (ds : list nat) (es : list KeyEvent) :
  Forall2 isDigitEvent ds es -> Forall (fun d => d < 10) ds ->
  forall w : Widget X,
    mode w = Some Movement ->
    mode (pressAll env es w) = Some Movement /\
    content (doc (pressAll env es w)) = content (doc w) /\
    numberList (pressAll env es w)
    = match numberList w with
      | [] => map digitText (dropZeros ds)
      | l => l ++ map digitText ds
      end.
Proof.
  induction 1 as [|d e ds es He Hes IH]; intros Hf w Hm.
  - cbn. split; [exact Hm|]. split; [reflexivity|].
    destruct (numberList w); [reflexivity|].
    rewrite app_nil_r. reflexivity.
  - inversion Hf as [|? ? Hd Hds]; subst.
    rewrite pressAll_cons.
    destruct (@digit_event_step d e w Hd He Hm) as (w' & Hk & Hm' & Hc & Hl & _).
    rewrite Hk. cbn [finalState].
    destruct (IH Hds w' Hm') as (IH1 & IH2 & IH3).
    split; [assumption|]. split; [congruence|].
    rewrite IH3, Hl.
    destruct d as [|d], (numberList w) as [|a l]; cbn [dropZeros app map];
      try reflexivity.
    + rewrite <- app_assoc. reflexivity.
    + destruct (l ++ [digitText (S d)]) eqn:E;
        [destruct l; discriminate|].
      rewrite <- E, <- app_assoc. reflexivity.
Qed.

End DigitsThenMotion.

Section CommandStep.

Variable X : Type.
Variable env : Collab X.

(* The end of the handler after a branch of Movement mode that passes
   nothing on to the text component. *)
Lemma finish_motion (e : KeyEvent) (loc : Locals) (v : Widget X) :
  process loc = false ->
  exists w2,
    @Normal X (Widget X) (finishKey env e (loc, v)) = Normal w2 /\
    doc w2 = doc v /\ sent w2 = sent v.
Proof.
  intros Hp. eexists. split; [reflexivity|].
  split; [apply doc_finishKey | apply sent_finishKey]; exact Hp.
Qed.

(* One motion command: its code runs as many times as the number prefix
   says. *)
Lemma command_step (c : MotionCommand) (e : KeyEvent) (w : Widget X) :
  mode w = Some Movement -> isCommandEvent c e ->
  exists w2,
    keyPressEvent env e w = Normal w2 /\
    doc w2 = doc (Nat.iter (roundsAt c w) (motionRound env c) w) /\
    sent w2 = sent (Nat.iter (roundsAt c w) (motionRound env c) w).
Proof.
  intros Hm He.
  unfold keyPressEvent, dispatch. rewrite Hm.
  fold (effectiveModifiers e). fold (startLocals w).
  destruct c; cbn [isCommandEvent commandText] in He;
    cbn [roundsAt motionRound];
    try (text_branch He;
         try (destruct (isPlain_other _ Hp) as [Hc _]; rewrite Hc);
         cbn [bind ok]; unfold times;
         try (apply finish_motion; reflexivity)).
  - (* Backspace *)
    destruct He as (Hp & Hk & Ht).
    unfold movementMode. rewrite Hp.
    unfold movementPlain, isFnKey, key_is, text_is. rewrite Hk, Ht.
    known_tests. cbn [bind ok]. unfold times.
    apply finish_motion. reflexivity.
  - (* Return *)
    destruct He as (Hp & Hk & Ht).
    unfold movementMode. rewrite Hp.
    unfold movementPlain, isFnKey, key_is, text_is. rewrite Hk, Ht.
    known_tests. cbn [bind ok]. unfold times.
    apply finish_motion. reflexivity.
  - (* g *)
    destruct (hasNumberPrefix w); cbn [negb bind ok];
      apply finish_motion; reflexivity.
  - (* Alt+E *)
    destruct He as (Hmod & Hk).
    unfold movementMode. rewrite Hmod.
    change (isPlain Qt.AltModifier) with false.
    change (Qt.AltModifier =? Qt.AltModifier)%Z with true. cbv iota.
    unfold movementAlt, key_is. rewrite Hk. known_tests.
    cbn [bind ok]. unfold times. apply finish_motion. reflexivity.
  - (* Alt+B *)
    destruct He as (Hmod & Hk).
    unfold movementMode. rewrite Hmod.
    change (isPlain Qt.AltModifier) with false.
    change (Qt.AltModifier =? Qt.AltModifier)%Z with true. cbv iota.
    unfold movementAlt, key_is. rewrite Hk. known_tests.
    cbn [bind ok]. unfold times. apply finish_motion. reflexivity.
  - (* Control+I *)
    destruct He as (Hmod & Hk).
    unfold movementMode. rewrite Hmod.
    change (isPlain Qt.ControlModifier) with false.
    change (Qt.ControlModifier =? Qt.AltModifier)%Z with false.
    change (Qt.ControlModifier =? Qt.ControlModifier)%Z with true. cbv iota.
    unfold movementControl, key_is. rewrite Hk. known_tests.
    cbn [bind ok]. unfold times. apply finish_motion. reflexivity.
  - (* Control+K *)
    destruct He as (Hmod & Hk).
    unfold movementMode. rewrite Hmod.
    change (isPlain Qt.ControlModifier) with false.
    change (Qt.ControlModifier =? Qt.AltModifier)%Z with false.
    change (Qt.ControlModifier =? Qt.ControlModifier)%Z with true. cbv iota.
    unfold movementControl, key_is. rewrite Hk. known_tests.
    cbn [bind ok]. unfold times. apply finish_motion. reflexivity.
Qed.

End CommandStep.

Section MotionRepeat.

Variable X : Type.
Variable env : Collab X.

Lemma pressAll_app (es : list KeyEvent) (e : KeyEvent) (w : Widget X) :
  pressAll env (es ++ [e]) w
  = finalState (keyPressEvent env e (pressAll env es w)).
Proof. unfold pressAll. rewrite fold_left_app. reflexivity. Qed.

(* The number of runs, read off the digits. *)
Lemma roundsAt_digits (c : MotionCommand) (ds : list nat) (w : Widget X) :
  Forall (fun d => d < 10) ds ->
  numberList w = map digitText (dropZeros ds) ->
  roundsAt c w = motionRounds c ds (lines (doc w)).
Proof.
  intros Hf Hl.
  pose proof (@getNumberPrefix_digits X ds w Hf Hl) as Hn.
  pose proof (getNumberPrefix_capped w) as Hc. rewrite Hn in Hc.
  destruct c; cbn [roundsAt motionRounds]; cbv zeta;
    rewrite ?Hc, ?Hn; try reflexivity.
  unfold hasNumberPrefix. rewrite Hl.
  destruct (dropZeros ds) as [|d r] eqn:E.
  - rewrite (proj2 (digitsValue_zero ds) E). reflexivity.
  - cbn [map List.length Nat.eqb negb].
    destruct (digitsValue ds =? 0)%Z eqn:Ez; [|reflexivity].
    apply Z.eqb_eq in Ez. apply digitsValue_zero in Ez. congruence.
Qed.

Lemma sent_iter (ms : list SciMsg) (f : Widget X -> Widget X) :
  (forall v, sent (f v) = sent v ++ ms) ->
  forall (k : nat) (w : Widget X),
    sent (Nat.iter k f w) = sent w ++ List.concat (repeat ms k).
Proof.
  intros Hf k w. induction k as [|k IH].
  - cbn. symmetry. apply app_nil_r.
  - change (Nat.iter (S k) f w) with (f (Nat.iter k f w)).
    rewrite Hf, IH, <- app_assoc. f_equal.
    clear. induction k as [|k IH]; cbn [repeat List.concat].
    + rewrite app_nil_r. reflexivity.
    + rewrite <- app_assoc, IH. reflexivity.
Qed.

(* The messages of the runs, for the commands that send the same ones
   every time. *)
Lemma round_messages (c : MotionCommand) (ds : list nat) (ms : list SciMsg)
  (w : Widget X) :
  Forall (fun d => d < 10) ds ->
  numberList w = map digitText (dropZeros ds) ->
  roundMessages c ds (lines (doc w)) = Some ms ->
  sent (Nat.iter (motionRounds c ds (lines (doc w))) (motionRound env c) w)
  = sent w ++ List.concat (repeat ms (motionRounds c ds (lines (doc w)))).
Proof.
  intros Hf Hl Hr.
  destruct c; cbn [roundMessages] in Hr; try discriminate;
    injection Hr as <-; cbn [motionRound];
    try (apply sent_iter; intros v;
         unfold nextWordEnd, prevWordEnd;
         rewrite ?sent_SendScintilla, <- ?app_assoc; reflexivity).
  - (* G *)
    cbn [motionRounds]. cbv zeta. change (Nat.iter 1 ?f w) with (f w).
    cbv beta. rewrite sent_SendScintilla. cbn [repeat List.concat app]. reflexivity.
  - (* g *)
    cbn [motionRounds]. cbv zeta.
    destruct (digitsValue ds =? 0)%Z.
    + cbn. symmetry. apply app_nil_r.
    + change (Nat.iter 1 ?f w) with (f w).
      cbv beta. rewrite sent_SendScintilla. cbn [repeat List.concat app].
      rewrite getNumberPrefix_capped, (@getNumberPrefix_digits X ds w Hf Hl).
      reflexivity.
Qed.

(** C2, as the code has it.  In Movement mode, after the digit keys [ds]
    pressed with no modifier, with Shift or with AltGr on an empty
    prefix, a motion command is handled to the end and its code has run
    [motionRounds] times: max(1, int(ds)) times for j, l, w, b, e, W, E,
    B, Alt+E and Alt+B, that is int(ds) times when it is at least 1 and
    once when there are no digits or only zeroes (a leading 0 is not
    stored); that count capped at the number of lines for i, k,
    Control+I and Control+K; five times the capped count for Backspace
    and Return; once whatever the digits for s, $, G, ;, the comma, *, #,
    n and N; and for g once when int(ds) is at least 1 and not at all
    otherwise.  The messages sent are those of that many runs.  In
    particular after 3 the key l moves the caret 3 positions to the right
    (as far as the end of the document allows). *)
Theorem motion_repeat_count (c : MotionCommand) (ds : list nat)
  (es : list KeyEvent) (e : KeyEvent) (w : Widget X) :
  mode w = Some Movement -> numberList w = [] ->
  Forall (fun d => d < 10) ds -> Forall2 isDigitEvent ds es ->
  isCommandEvent c e ->
  (exists w2,
     keyPressEvent env e (pressAll env es w) = Normal w2 /\
     doc w2
     = doc (Nat.iter (motionRounds c ds (lines (doc w))) (motionRound env c)
              (pressAll env es w)) /\
     sent w2
     = sent (Nat.iter (motionRounds c ds (lines (doc w))) (motionRound env c)
               (pressAll env es w)) /\
     forall ms,
       roundMessages c ds (lines (doc w)) = Some ms ->
       sentBetween (pressAll env es w) w2
       = List.concat (repeat ms (motionRounds c ds (lines (doc w))))) /\
  (c = Cmd_l -> ds = [3] ->
   selectionEmpty (doc w) = true -> caret (doc w) <= docLength (doc w) ->
   caret (doc (pressAll env (es ++ [e]) w))
   = Nat.min (caret (doc w) + 3) (docLength (doc w))).
Proof.
  intros Hm Hl Hf Hes He.
  destruct (@feed_digit_events X env ds es Hes Hf w Hm) as (Hm1 & Hc1 & Hl1).
  rewrite Hl in Hl1.
  assert (Hlines : lines (doc (pressAll env es w)) = lines (doc w))
    by (unfold lines; rewrite Hc1; reflexivity).
  destruct (@command_step X env c e _ Hm1 He) as (w2 & Hk & Hd & Hs).
  rewrite (@roundsAt_digits c ds _ Hf Hl1), Hlines in Hd, Hs.
  split.
  - exists w2. split; [exact Hk|]. split; [exact Hd|]. split; [exact Hs|].
    intros ms Hms. unfold sentBetween. rewrite Hs.
    rewrite <- Hlines in Hms |- *.
    rewrite (@round_messages c ds ms _ Hf Hl1 Hms).
    apply skipn_length_app.
  - intros -> -> Hsel Hcar.
    rewrite pressAll_app, Hk. cbn [finalState]. rewrite Hd.
    inversion Hes as [|d e3 ds' es' He3 Hes' E1 E2]; subst.
    inversion Hes'; subst.
    destruct (@digit_event_step X env 3 e3 w ltac:(lia) He3 Hm)
      as (w1 & Hk1 & _ & _ & _ & Hd1).
    change (pressAll env [e3] w) with (finalState (keyPressEvent env e3 w)).
    rewrite Hk1. cbn [finalState motionRounds motionRound].
    change (Z.to_nat (Z.max 1 (digitsValue [3]))) with 3.
    rewrite doc_iter_charRight, (Hd1 ltac:(discriminate)).
    apply caret_iter_charRight; [rewrite Hsel; reflexivity | exact Hcar].
Qed.

End MotionRepeat.

(** C2, witness: the keys 3 and then l at column 1 of abcdef. *)
Lemma motion_repeat_count_witness :
  let w := newWidget sampleCollab (docOf ["abcdef"%string] 1) in
  let es := [digitKey 3] in
  let e := plainKey Qt.Key_L "l" in
  (exists w2,
     keyPressEvent sampleCollab e (pressAll sampleCollab es w) = Normal w2 /\
     doc w2
     = doc (Nat.iter (motionRounds Cmd_l [3] (lines (doc w)))
              (motionRound sampleCollab Cmd_l) (pressAll sampleCollab es w)) /\
     sent w2
     = sent (Nat.iter (motionRounds Cmd_l [3] (lines (doc w)))
               (motionRound sampleCollab Cmd_l) (pressAll sampleCollab es w)) /\
     forall ms,
       roundMessages Cmd_l [3] (lines (doc w)) = Some ms ->
       sentBetween (pressAll sampleCollab es w) w2
       = List.concat (repeat ms (motionRounds Cmd_l [3] (lines (doc w))))) /\
  (Cmd_l = Cmd_l -> [3] = [3] ->
   selectionEmpty (doc w) = true -> caret (doc w) <= docLength (doc w) ->
   caret (doc (pressAll sampleCollab (es ++ [e]) w))
   = Nat.min (caret (doc w) + 3) (docLength (doc w))).
Proof.
  cbv zeta.
  apply (@motion_repeat_count unit sampleCollab Cmd_l [3] [digitKey 3]
           (plainKey Qt.Key_L "l")
           (newWidget sampleCollab (docOf ["abcdef"%string] 1))).
  - reflexivity.
  - reflexivity.
  - repeat constructor.
  - repeat constructor.
  - repeat split; reflexivity.
Defined.

(** ** Replacing characters *)

Lemma countLF_app (a b : list ascii) : countLF (a ++ b) = countLF a + countLF b.
Proof.
  induction a as [|c a IH]; simpl; [reflexivity|].
  destruct (isLF c); rewrite IH; reflexivity.
Qed.

Lemma lineStart_app_countLF (pre r : list ascii) :
  lineStart (pre ++ r) (countLF pre) = lineStart pre (countLF pre).
Proof.
  induction pre as [|c pre IH]; simpl; [destruct r; reflexivity|].
  destruct (isLF c) eqn:Hc; simpl; rewrite ?Hc.
  - rewrite IH. reflexivity.
  - destruct (countLF pre) eqn:Hn; simpl; rewrite ?Hc; [reflexivity|].
    rewrite IH. reflexivity.
Qed.

Lemma firstn_length_app {A : Type} (l r : list A) :
  firstn (List.length l) (l ++ r) = l.
Proof. induction l as [|a l IH]; simpl; [destruct r|rewrite IH]; reflexivity. Qed.

Lemma skipn_add_length_app {A : Type} (l m r : list A) :
  skipn (List.length l + List.length m) (l ++ m ++ r) = r.
Proof.
  induction l as [|b l IH]; simpl; [apply skipn_length_app | exact IH].
Qed.

Section Positions.

Variable X : Type.

Lemma iter_positionAfter (d : Doc X) (q : nat) :
  q <= docLength d ->
  forall k, Nat.iter k (positionAfter d) (Z.of_nat q)
            = Z.of_nat (Nat.min (q + k) (docLength d)).
Proof.
  intros Hq k. induction k as [|k IH].
  - simpl. rewrite Nat.add_0_r, Nat.min_l by exact Hq. reflexivity.
  - change (Nat.iter (S k) (positionAfter d) (Z.of_nat q))
      with (positionAfter d (Nat.iter k (positionAfter d) (Z.of_nat q))).
    rewrite IH. unfold positionAfter.
    destruct (Z.of_nat (Nat.min (q + k) (docLength d)) + 1 <=? 0)%Z eqn:E1;
      [apply Z.leb_le in E1; lia|].
    destruct (Z.of_nat (docLength d)
              <=? Z.of_nat (Nat.min (q + k) (docLength d)) + 1)%Z eqn:E2;
      [apply Z.leb_le in E2 | apply Z.leb_gt in E2]; lia.
Qed.

Lemma getCursorPosition_at (pre r : list ascii) (d : Doc X) :
  content d = pre ++ r -> caret d = List.length pre ->
  getCursorPosition d = (Z.of_nat (countLF pre), Z.of_nat (columnOf pre)).
Proof.
  intros Hc Hcar.
  unfold getCursorPosition, caretLine, lineFromPosition, columnOf.
  rewrite Hc, Hcar, firstn_length_app, lineStart_app_countLF. reflexivity.
Qed.

Lemma positionFromLineIndex_at (pre r : list ascii) (d : Doc X) (k : nat) :
  content d = pre ++ r -> k <= List.length r ->
  positionFromLineIndex d (Z.of_nat (countLF pre)) (Z.of_nat (columnOf pre + k))
  = Z.of_nat (List.length pre + k).
Proof.
  intros Hc Hk. unfold positionFromLineIndex, positionFromLine, lines, lineCount.
  destruct (Z.of_nat (countLF pre) <? 0)%Z eqn:E1; [apply Z.ltb_lt in E1; lia|].
  rewrite Hc, countLF_app.
  destruct (Z.of_nat (S (countLF pre + countLF r)) <? Z.of_nat (countLF pre))%Z
    eqn:E2; [apply Z.ltb_lt in E2; lia|].
  rewrite !Nat2Z.id, lineStart_app_countLF.
  pose proof (lineStart_le pre (countLF pre)) as Hle.
  assert (HL : docLength d = List.length pre + List.length r)
    by (unfold docLength; rewrite Hc; apply length_app).
  rewrite iter_positionAfter by lia.
  unfold columnOf. f_equal. lia.
Qed.

Lemma positionFromLineIndex_caret (pre r : list ascii) (d : Doc X) :
  content d = pre ++ r ->
  positionFromLineIndex d (Z.of_nat (countLF pre)) (Z.of_nat (columnOf pre))
  = Z.of_nat (List.length pre).
Proof.
  intros Hc.
  pose proof (@positionFromLineIndex_at pre r d 0 Hc (Nat.le_0_l _)) as P.
  rewrite !Nat.add_0_r in P. exact P.
Qed.

Lemma positionFromLineIndex_next (pre r : list ascii) (d : Doc X) :
  content d = pre ++ r -> 1 <= List.length r ->
  positionFromLineIndex d (Z.of_nat (countLF pre)) (Z.of_nat (columnOf pre) + 1)
  = Z.of_nat (List.length pre + 1).
Proof.
  intros Hc Hr.
  replace (Z.of_nat (columnOf pre) + 1)%Z with (Z.of_nat (columnOf pre + 1))
    by lia.
  apply positionFromLineIndex_at with (r := r); assumption.
Qed.

(* A selection set from one position of the document to another. *)
Lemma sci_setSel_within (a c : nat) (d : Doc X) :
  a <= docLength d -> c <= docLength d ->
  content (sci_setSel (Z.of_nat a) (Z.of_nat c) d) = content d /\
  anchor (sci_setSel (Z.of_nat a) (Z.of_nat c) d) = a /\
  caret (sci_setSel (Z.of_nat a) (Z.of_nat c) d) = c /\
  undoLog (sci_setSel (Z.of_nat a) (Z.of_nat c) d) = undoLog d.
Proof.
  intros Ha Hc. unfold sci_setSel.
  destruct (Z.of_nat c <? 0)%Z eqn:E1; [apply Z.ltb_lt in E1; lia|].
  destruct (Z.of_nat a <? 0)%Z eqn:E2; [apply Z.ltb_lt in E2; lia|].
  cbn [content anchor caret undoLog].
  rewrite !Nat2Z.id, !Nat.min_l by assumption. auto.
Qed.

Lemma setEmptySelection_within (p : nat) (d : Doc X) :
  p <= docLength d ->
  content (setEmptySelection p d) = content d /\
  caret (setEmptySelection p d) = p /\ anchor (setEmptySelection p d) = p /\
  undoLog (setEmptySelection p d) = undoLog d.
Proof.
  intros Hp. unfold setEmptySelection. cbn [content anchor caret undoLog].
  rewrite Nat.min_l by assumption. auto.
Qed.

End Positions.

Section Edits.

Variable X : Type.

Lemma pushAction_log (a : Action) (w : Widget X) :
  undoLog (doc (pushAction a w)) = (a :: openGroup w) :: closedLog w.
Proof.
  unfold pushAction, openGroup, closedLog.
  destruct (groupOpen w); [destruct (undoLog (doc w))|]; reflexivity.
Qed.

Lemma open_group (g : list Action) (r : list (list Action)) (w : Widget X) :
  groupOpen w = true -> undoLog (doc w) = g :: r ->
  openGroup w = g /\ closedLog w = r.
Proof. intros Ho Hl. unfold openGroup, closedLog. rewrite Ho, Hl. auto. Qed.

Lemma opened_log (w : Widget X) :
  opened w -> undoLog (doc w) = openGroup w :: closedLog w.
Proof.
  intros [Ho Hl]. unfold openGroup, closedLog. rewrite Ho.
  destruct (undoLog (doc w)); [congruence | reflexivity].
Qed.

(* Text put into a writable document. *)
Lemma insertString_at (s pre post : list ascii) (w : Widget X) :
  readOnly w = false -> s <> [] -> content (doc w) = pre ++ post ->
  content (doc (insertString (List.length pre) s w)) = pre ++ s ++ post /\
  caret (doc (insertString (List.length pre) s w))
  = adjustIns (List.length pre) (List.length s) (caret (doc w)) /\
  undoLog (doc (insertString (List.length pre) s w))
  = (Ins (List.length pre) s :: openGroup w) :: closedLog w /\
  groupOpen (insertString (List.length pre) s w) = (0 <? undoDepth w) /\
  undoDepth (insertString (List.length pre) s w) = undoDepth w.
Proof.
  intros Hro Hs Hc.
  assert (El : Nat.eqb (List.length s) 0 = false)
    by (destruct s; [congruence | reflexivity]).
  unfold insertString. rewrite Hro, El. cbn [orb].
  unfold docLength. rewrite Hc, length_app, Nat.min_l by lia.
  rewrite firstn_length_app, skipn_length_app.
  rewrite pushAction_log.
  repeat split; reflexivity.
Qed.

(* Text taken out of a writable document. *)
Lemma deleteChars_at (pre old post : list ascii) (w : Widget X) :
  readOnly w = false -> old <> [] -> content (doc w) = pre ++ old ++ post ->
  content (doc (deleteChars (List.length pre) (List.length old) w))
  = pre ++ post /\
  caret (doc (deleteChars (List.length pre) (List.length old) w))
  = adjustDel (List.length pre) (List.length old) (caret (doc w)) /\
  undoLog (doc (deleteChars (List.length pre) (List.length old) w))
  = (Del (List.length pre) old :: openGroup w) :: closedLog w /\
  groupOpen (deleteChars (List.length pre) (List.length old) w)
  = (0 <? undoDepth w) /\
  undoDepth (deleteChars (List.length pre) (List.length old) w) = undoDepth w.
Proof.
  intros Hro Hs Hc.
  assert (El : Nat.eqb (List.length old) 0 = false)
    by (destruct old; [congruence | reflexivity]).
  unfold deleteChars. rewrite Hro, Hc. cbn [orb].
  rewrite skipn_length_app, firstn_length_app, El.
  rewrite skipn_add_length_app, firstn_length_app.
  rewrite pushAction_log.
  repeat split; reflexivity.
Qed.

End Edits.

Section Clearing.

Variable X : Type.
Variable env : Collab X.

(* A selection made forwards and cleared. *)
Lemma clearSelection_at (pre old post : list ascii) (w : Widget X) :
  readOnly w = false -> old <> [] -> content (doc w) = pre ++ old ++ post ->
  anchor (doc w) = List.length pre ->
  caret (doc w) = List.length pre + List.length old ->
  content (doc (clearSelection w)) = pre ++ post /\
  caret (doc (clearSelection w)) = List.length pre /\
  anchor (doc (clearSelection w)) = List.length pre /\
  undoLog (doc (clearSelection w))
  = (Del (List.length pre) old :: openGroup w) :: closedLog w /\
  groupOpen (clearSelection w) = (0 <? undoDepth w) /\
  undoDepth (clearSelection w) = undoDepth w.
Proof.
  intros Hro Hs Hc Hanc Hcar.
  assert (Hl : 0 < List.length old) by (destruct old; [congruence | simpl; lia]).
  unfold clearSelection, selectionEmpty. rewrite Hanc, Hcar.
  destruct (Nat.eqb (List.length pre) (List.length pre + List.length old)) eqn:E;
    [apply Nat.eqb_eq in E; lia|].
  cbv zeta. unfold selStart, selEnd. rewrite Hanc, Hcar.
  rewrite Nat.min_l, Nat.max_r by lia.
  replace (List.length pre + List.length old - List.length pre)
    with (List.length old) by lia.
  destruct (@deleteChars_at X pre old post w Hro Hs Hc)
    as (D1 & _ & D3 & D4 & D5).
  set (w1 := deleteChars (List.length pre) (List.length old) w) in *.
  cbn [doc set_doc content caret anchor undoLog groupOpen undoDepth].
  repeat split; try assumption; reflexivity.
Qed.

Lemma sci_clear_selected (pre old post : list ascii) (w : Widget X) :
  readOnly w = false -> old <> [] -> content (doc w) = pre ++ old ++ post ->
  anchor (doc w) = List.length pre ->
  caret (doc w) = List.length pre + List.length old ->
  sci_clear w = clearSelection w.
Proof.
  intros Hro Hs Hc Hanc Hcar.
  assert (Hl : 0 < List.length old) by (destruct old; [congruence | simpl; lia]).
  unfold sci_clear, selectionEmpty. rewrite Hanc, Hcar.
  destruct (Nat.eqb (List.length pre) (List.length pre + List.length old)) eqn:E;
    [apply Nat.eqb_eq in E; lia | reflexivity].
Qed.

(* A character put in at the caret by [insertAt], inside an undo action. *)
Lemma insertAt_caret (s pre post : list ascii) (line index : Z) (w : Widget X) :
  0 < undoDepth w -> s <> [] ->
  content (doc w) = pre ++ post -> caret (doc w) = List.length pre ->
  positionFromLineIndex (doc w) line index = Z.of_nat (List.length pre) ->
  content (doc (insertAt (string_of_list_ascii s) line index w))
  = pre ++ s ++ post /\
  caret (doc (insertAt (string_of_list_ascii s) line index w))
  = List.length pre /\
  anchor (doc (insertAt (string_of_list_ascii s) line index w))
  = List.length pre /\
  undoLog (doc (insertAt (string_of_list_ascii s) line index w))
  = (Ins (List.length pre) s :: openGroup w) :: closedLog w /\
  groupOpen (insertAt (string_of_list_ascii s) line index w) = true.
Proof.
  intros Hd Hs Hc Hcar Hpos.
  destruct (undoDepth w) as [|n] eqn:En; [lia|].
  unfold insertAt. cbv zeta. rewrite Hpos, list_ascii_of_string_of_list_ascii.
  set (w0 := beginUndoAction (setReadOnly false w)).
  assert (H0 : readOnly w0 = false /\ doc w0 = doc w /\
               undoDepth w0 = S (S n) /\ groupOpen w0 = groupOpen w).
  { unfold w0, beginUndoAction, setReadOnly.
    cbn [undoDepth set_readOnly readOnly doc set_undoGroup groupOpen].
    rewrite En. cbn [Nat.eqb]. auto. }
  destruct H0 as (H0r & H0doc & H0d & H0g).
  assert (H0o : openGroup w0 = openGroup w /\ closedLog w0 = closedLog w)
    by (unfold openGroup, closedLog; rewrite H0g, H0doc; auto).
  destruct H0o as [H0o H0c].
  assert (Hc0 : content (doc w0) = pre ++ post) by (rewrite H0doc; exact Hc).
  clearbody w0.
  unfold sci_insertText.
  destruct (Z.of_nat (List.length pre) =? -1)%Z eqn:E;
    [apply Z.eqb_eq in E; lia|].
  rewrite Nat2Z.id. cbv zeta.
  destruct (@insertString_at X s pre post w0 H0r Hs Hc0)
    as (I1 & I2 & I3 & I4 & I5).
  rewrite H0doc, Hcar in I2. unfold adjustIns in I2.
  rewrite Nat.ltb_irrefl in I2. rewrite H0o, H0c in I3. rewrite H0d in I4, I5.
  set (w1 := insertString (List.length pre) s w0) in *.
  clearbody w1.
  assert (Hle : caret (doc w1) <= docLength (doc w1)).
  { unfold docLength. rewrite I1, I2, length_app. lia. }
  destruct (@setEmptySelection_within X _ _ Hle) as (S1 & S2 & S3 & S4).
  unfold setReadOnly, endUndoAction.
  cbn [undoDepth set_doc]. rewrite I5.
  cbn [doc set_readOnly set_undoGroup set_doc groupOpen Nat.eqb].
  rewrite S1, S2, S3, S4, I1, I2, I3.
  repeat split; try assumption; reflexivity.
Qed.

End Clearing.

Section ReplaceChar.

Variable X : Type.
Variable env : Collab X.

(* The character at the caret selected. *)
Lemma select_next (a : ascii) (pre post : list ascii) (w : Widget X) :
  content (doc w) = pre ++ a :: post ->
  let line := Z.of_nat (countLF pre) in
  let index := Z.of_nat (columnOf pre) in
  let d := setSelection line index line (index + 1) (doc w) in
  content d = pre ++ [a] ++ post /\ anchor d = List.length pre /\
  caret d = List.length pre + List.length [a] /\ undoLog d = undoLog (doc w).
Proof.
  intros Hc. cbv zeta.
  assert (HL : docLength (doc w) = List.length pre + S (List.length post))
    by (unfold docLength; rewrite Hc, length_app; reflexivity).
  unfold setSelection.
  rewrite (@positionFromLineIndex_caret X pre (a :: post) (doc w) Hc).
  rewrite (@positionFromLineIndex_next X pre (a :: post) (doc w) Hc)
    by (simpl; lia).
  destruct (@sci_setSel_within X (List.length pre) (List.length pre + 1)
              (doc w)) as (Q1 & Q2 & Q3 & Q4); [lia | lia |].
  rewrite Q1, Q2, Q3, Q4. repeat split; try assumption; reflexivity.
Qed.

(* The selected character cleared by SCI_CLEAR. *)
Lemma clear_next (a : ascii) (pre post : list ascii) (w : Widget X) :
  readOnly w = false -> 0 < undoDepth w ->
  content (doc w) = pre ++ [a] ++ post ->
  anchor (doc w) = List.length pre ->
  caret (doc w) = List.length pre + List.length [a] ->
  content (doc (SendScintilla env SCI_CLEAR w)) = pre ++ post /\
  caret (doc (SendScintilla env SCI_CLEAR w)) = List.length pre /\
  undoLog (doc (SendScintilla env SCI_CLEAR w))
  = (Del (List.length pre) [a] :: openGroup w) :: closedLog w /\
  groupOpen (SendScintilla env SCI_CLEAR w) = true.
Proof.
  intros Hr Hd Hc Ha Hp.
  assert (Hne : [a] <> []) by discriminate.
  set (u := set_sent (sent w ++ [SCI_CLEAR]) w).
  assert (Hu : SendScintilla env SCI_CLEAR w = clearSelection u).
  { unfold SendScintilla. cbn [sciExec]. fold u.
    apply (@sci_clear_selected X pre [a] post u Hr Hne Hc Ha Hp). }
  destruct (@clearSelection_at X pre [a] post u Hr Hne Hc Ha Hp)
    as (Q1 & Q2 & _ & Q4 & Q5 & _).
  rewrite Hu.
  split; [exact Q1|]. split; [exact Q2|]. split; [exact Q4|].
  rewrite Q5. apply Nat.ltb_lt. exact Hd.
Qed.

End ReplaceChar.

Section ReplaceStep.

Variable X : Type.
Variable env : Collab X.

Lemma replaceOne_at (s : string) (pre r : list ascii) (w : Widget X) :
  content (doc w) = pre ++ r -> caret (doc w) = List.length pre ->
  let line := Z.of_nat (countLF pre) in
  let index := Z.of_nat (columnOf pre) in
  let w1 := set_doc (setSelection line index line (index + 1) (doc w)) w in
  let w2 := SendScintilla env SCI_CLEAR w1 in
  let w3 := insertAt s line index w2 in
  replaceOne env s w
  = if (replaceModeRepeat w3 >? 1)%Z
    then set_doc (setCursorPosition line (index + 1) (doc w3)) w3
    else w3.
Proof.
  intros Hc Hcar.
  pose proof (@getCursorPosition_at X pre r (doc w) Hc Hcar) as Hg.
  unfold replaceOne. rewrite Hg. reflexivity.
Qed.

(* The caret put behind the replaced character when the count is above one. *)
Lemma replace_finish (c : ascii) (pre post : list ascii) (b : bool)
  (L : list (list Action)) (w : Widget X) :
  content (doc w) = pre ++ c :: post -> caret (doc w) = List.length pre ->
  undoLog (doc w) = L -> groupOpen w = true ->
  let line := Z.of_nat (countLF pre) in
  let index := Z.of_nat (columnOf pre) in
  let r := if b then set_doc (setCursorPosition line (index + 1) (doc w)) w
           else w in
  content (doc r) = pre ++ c :: post /\
  caret (doc r) = (if b then List.length pre + 1 else List.length pre) /\
  undoLog (doc r) = L /\ groupOpen r = true.
Proof.
  intros Hc Hp Hl Ho. cbv zeta. destruct b.
  - unfold setCursorPosition, sci_gotoPos.
    rewrite (@positionFromLineIndex_next X pre (c :: post) (doc w) Hc)
      by (simpl; lia).
    rewrite Nat2Z.id.
    destruct (@setEmptySelection_within X (List.length pre + 1) (doc w))
      as (S1 & S2 & _ & S4).
    { unfold docLength. rewrite Hc, length_app. simpl. lia. }
    cbn [doc set_doc groupOpen]. rewrite S1, S2, S4.
    repeat split; assumption.
  - repeat split; assumption.
Qed.

(* The character at the caret selected, cleared and the typed one put in. *)
Lemma replace_put (c a : ascii) (pre post : list ascii) (w : Widget X) :
  readOnly w = false -> 0 < undoDepth w ->
  content (doc w) = pre ++ a :: post -> caret (doc w) = List.length pre ->
  let line := Z.of_nat (countLF pre) in
  let index := Z.of_nat (columnOf pre) in
  let w1 := set_doc (setSelection line index line (index + 1) (doc w)) w in
  let w3 := insertAt (String c EmptyString) line index
              (SendScintilla env SCI_CLEAR w1) in
  content (doc w3) = pre ++ c :: post /\ caret (doc w3) = List.length pre /\
  undoLog (doc w3)
  = (Ins (List.length pre) [c] :: Del (List.length pre) [a] :: openGroup w)
      :: closedLog w /\
  groupOpen w3 = true /\ replaceModeRepeat w3 = replaceModeRepeat w.
Proof.
  intros Hro Hd Hc Hcar line index w1.
  destruct (@select_next X a pre post w Hc) as (H1c & H1a & H1p & H1l).
  fold line index in H1c, H1a, H1p, H1l.
  assert (H1 : openGroup w1 = openGroup w /\ closedLog w1 = closedLog w).
  { unfold openGroup, closedLog, w1. cbn [doc set_doc groupOpen].
    rewrite H1l. auto. }
  destruct H1 as [H1o H1cl].
  destruct (@clear_next X env a pre post w1 Hro Hd H1c H1a H1p)
    as (H2c & H2p & H2l & H2o).
  rewrite H1o, H1cl in H2l.
  assert (H2d : 0 < undoDepth (SendScintilla env SCI_CLEAR w1)).
  { rewrite (undoDepth_keeps (K := keeps_SendScintilla env SCI_CLEAR)).
    exact Hd. }
  destruct (@open_group X _ _ _ H2o H2l) as [Ho2 Hl2].
  assert (P2 : positionFromLineIndex (doc (SendScintilla env SCI_CLEAR w1))
                 line index = Z.of_nat (List.length pre))
    by (apply positionFromLineIndex_caret with (r := post); exact H2c).
  assert (Hne : [c] <> []) by discriminate.
  destruct (@insertAt_caret X [c] pre post line index _ H2d Hne H2c H2p P2)
    as (H3c & H3p & _ & H3l & H3o).
  rewrite Ho2, Hl2 in H3l.
  cbv zeta.
  split; [exact H3c|]. split; [exact H3p|]. split; [exact H3l|].
  split; [exact H3o|].
  rewrite (replaceModeRepeat_keeps (K := keeps_insertAt _ _ _)).
  rewrite (replaceModeRepeat_keeps (K := keeps_SendScintilla env SCI_CLEAR)).
  reflexivity.
Qed.

End ReplaceStep.

Section ReplaceLoop.

Variable X : Type.
Variable env : Collab X.

(* One turn of the loop of ReplaceChar mode, on the character at the caret. *)
Lemma replaceOne_step (c a : ascii) (pre post : list ascii) (w : Widget X) :
  readOnly w = false -> 0 < undoDepth w ->
  content (doc w) = pre ++ a :: post -> caret (doc w) = List.length pre ->
  content (doc (replaceOne env (String c EmptyString) w)) = pre ++ c :: post /\
  caret (doc (replaceOne env (String c EmptyString) w))
  = (if (replaceModeRepeat w >? 1)%Z then List.length pre + 1
     else List.length pre) /\
  undoLog (doc (replaceOne env (String c EmptyString) w))
  = (Ins (List.length pre) [c] :: Del (List.length pre) [a] :: openGroup w)
      :: closedLog w /\
  groupOpen (replaceOne env (String c EmptyString) w) = true.
Proof.
  intros Hro Hd Hc Hcar.
  rewrite (@replaceOne_at X env (String c EmptyString) pre (a :: post) w Hc Hcar).
  destruct (@replace_put X env c a pre post w Hro Hd Hc Hcar)
    as (P1 & P2 & P3 & P4 & P5).
  cbv zeta. rewrite P5.
  exact (@replace_finish X c pre post (replaceModeRepeat w >? 1)%Z _ _
           P1 P2 P3 P4).
Qed.

Lemma undoGroup_restored (g : list Action) :
  forall (t : list ascii) (p : nat), fst (undoGroup g t p) = restored g t.
Proof.
  unfold undoGroup, restored.
  induction g as [|a g IH]; intros t p; simpl; [reflexivity|].
  rewrite (surjective_pairing (unapplyAction a t)). apply IH.
Qed.

Lemma restored_replaced (c a : ascii) (pre post : list ascii) (g : list Action) :
  restored (Ins (List.length pre) [c] :: Del (List.length pre) [a] :: g)
           (pre ++ c :: post)
  = restored g (pre ++ a :: post).
Proof.
  unfold restored. cbn [fold_left unapplyAction fst].
  change (pre ++ c :: post) with (pre ++ [c] ++ post).
  rewrite firstn_length_app.
  rewrite (@skipn_add_length_app ascii pre [c] post).
  rewrite firstn_length_app, skipn_length_app. reflexivity.
Qed.

(* The loop of ReplaceChar mode with a count above one. *)
Lemma replace_loop (c : ascii) (post : list ascii) :
  forall (m : nat) (old pre : list ascii) (w : Widget X),
    List.length old = m ->
    readOnly w = false -> 0 < undoDepth w -> (1 < replaceModeRepeat w)%Z ->
    content (doc w) = pre ++ old ++ post -> caret (doc w) = List.length pre ->
    content (doc (Nat.iter m (replaceOne env (String c EmptyString)) w))
    = pre ++ repeat c m ++ post /\
    caret (doc (Nat.iter m (replaceOne env (String c EmptyString)) w))
    = List.length pre + m /\
    closedLog (Nat.iter m (replaceOne env (String c EmptyString)) w)
    = closedLog w /\
    restored (openGroup (Nat.iter m (replaceOne env (String c EmptyString)) w))
             (content (doc (Nat.iter m (replaceOne env (String c EmptyString)) w)))
    = restored (openGroup w) (content (doc w)) /\
    (opened w \/ 0 < m ->
     opened (Nat.iter m (replaceOne env (String c EmptyString)) w)).
Proof.
  induction m as [|m IH]; intros old pre w Hlen Hro Hd Hr Hc Hcar.
  - destruct old; [|discriminate]. cbn [Nat.iter repeat app] in *.
    rewrite Nat.add_0_r.
    split; [exact Hc|]. split; [exact Hcar|]. split; [reflexivity|].
    split; [reflexivity|].
    intros [Ho|Ho]; [exact Ho | lia].
  - destruct old as [|a old]; [discriminate|].
    rewrite Nat.iter_succ_r.
    destruct (@replaceOne_step c a pre (old ++ post) w Hro Hd Hc Hcar)
      as (S1 & S2 & S3 & S4).
    assert (Hr' : (replaceModeRepeat w >? 1)%Z = true) by (apply Z.gtb_lt; lia).
    rewrite Hr' in S2.
    destruct (@open_group X _ _ _ S4 S3) as [Ho1 Hl1].
    assert (Hro1 : readOnly (replaceOne env (String c EmptyString) w) = false)
      by (rewrite (readOnly_keeps (K := keeps_replaceOne env _)); exact Hro).
    assert (Hd1 : 0 < undoDepth (replaceOne env (String c EmptyString) w))
      by (rewrite (undoDepth_keeps (K := keeps_replaceOne env _)); exact Hd).
    assert (Hr1 : (1 < replaceModeRepeat
                         (replaceOne env (String c EmptyString) w))%Z)
      by (rewrite (replaceModeRepeat_keeps (K := keeps_replaceOne env _));
          exact Hr).
    set (w1 := replaceOne env (String c EmptyString) w) in *.
    clearbody w1.
    assert (Hc1 : content (doc w1) = (pre ++ [c]) ++ old ++ post)
      by (rewrite S1, <- app_assoc; reflexivity).
    assert (Hcar1 : caret (doc w1) = List.length (pre ++ [c]))
      by (rewrite S2, length_app; reflexivity).
    assert (Hlen' : List.length old = m) by (simpl in Hlen; lia).
    destruct (IH old (pre ++ [c]) w1 Hlen' Hro1 Hd1 Hr1 Hc1 Hcar1)
      as (I1 & I2 & I3 & I4 & I5).
    split; [rewrite I1, <- app_assoc; reflexivity|].
    split; [rewrite I2, length_app; simpl; lia|].
    split; [rewrite I3; exact Hl1|].
    split.
    + rewrite I4, Ho1, S1, Hc. apply restored_replaced.
    + intros _. apply I5. left. split; [exact S4|]. rewrite S3. discriminate.
Qed.

(* The whole loop, for a count of one or more. *)
Lemma replace_run (c : ascii) (pre old post : list ascii) (w : Widget X) :
  readOnly w = false -> 0 < undoDepth w -> (1 <= replaceModeRepeat w)%Z ->
  List.length old = Z.to_nat (replaceModeRepeat w) ->
  content (doc w) = pre ++ old ++ post -> caret (doc w) = List.length pre ->
  content (doc (times (replaceModeRepeat w)
                  (replaceOne env (String c EmptyString)) w))
  = pre ++ repeat c (List.length old) ++ post /\
  caret (doc (times (replaceModeRepeat w)
                (replaceOne env (String c EmptyString)) w))
  = (if (replaceModeRepeat w >? 1)%Z then List.length pre + List.length old
     else List.length pre) /\
  closedLog (times (replaceModeRepeat w)
               (replaceOne env (String c EmptyString)) w) = closedLog w /\
  restored (openGroup (times (replaceModeRepeat w)
                         (replaceOne env (String c EmptyString)) w))
           (content (doc (times (replaceModeRepeat w)
                            (replaceOne env (String c EmptyString)) w)))
  = restored (openGroup w) (content (doc w)) /\
  opened (times (replaceModeRepeat w)
            (replaceOne env (String c EmptyString)) w).
Proof.
  intros Hro Hd Hn Hlen Hc Hcar. unfold times. rewrite <- Hlen.
  destruct (replaceModeRepeat w >? 1)%Z eqn:E.
  - apply Z.gtb_lt in E.
    destruct (@replace_loop c post (List.length old) old pre w eq_refl
                Hro Hd E Hc Hcar) as (L1 & L2 & L3 & L4 & L5).
    split; [exact L1|]. split; [exact L2|]. split; [exact L3|].
    split; [exact L4|].
    apply L5. right. lia.
  - assert (Hone : replaceModeRepeat w = 1%Z).
    { destruct (Z.gtb_spec (replaceModeRepeat w) 1); [discriminate | lia]. }
    rewrite Hone in Hlen. change (Z.to_nat 1) with 1 in Hlen.
    destruct old as [|a [|b old]]; try discriminate.
    cbn [List.length repeat app] in *.
    change (Nat.iter 1 (replaceOne env (String c EmptyString)) w)
      with (replaceOne env (String c EmptyString) w).
    destruct (@replaceOne_step c a pre post w Hro Hd Hc Hcar)
      as (S1 & S2 & S3 & S4).
    rewrite Hone in S2. change (1 >? 1)%Z with false in S2.
    destruct (@open_group X _ _ _ S4 S3) as [Ho1 Hl1].
    split; [exact S1|]. split; [exact S2|]. split; [exact Hl1|].
    split; [rewrite Ho1, S1, Hc; apply restored_replaced|].
    split; [exact S4 | rewrite S3; discriminate].
Qed.

End ReplaceLoop.

Section ReplaceKey.

Variable X : Type.
Variable env : Collab X.

(* What the end of the handler leaves alone when the key is not passed on
   to the text component. *)
Lemma finishKey_unprocessed (e : KeyEvent) (r : Locals * Widget X) :
  process (fst r) = false ->
  doc (finishKey env e r) = doc (snd r) /\
  mode (finishKey env e r) = mode (snd r) /\
  replaceModeRepeat (finishKey env e r) = replaceModeRepeat (snd r) /\
  readOnly (finishKey env e r) = readOnly (snd r) /\
  undoDepth (finishKey env e r) = undoDepth (snd r) /\
  groupOpen (finishKey env e r) = groupOpen (snd r).
Proof.
  intros Hp. destruct r as [loc w]. cbn [fst snd] in *.
  unfold finishKey. cbv zeta. cbn [fst snd]. rewrite Hp.
  split_tests; repeat split; reflexivity.
Qed.

(* The widget a ReadWriteSingleUndo block starts its body on. *)
Lemma enter_ReadWriteSingleUndo (w : Widget X) :
  undoDepth w = 0 ->
  readOnly (setReadOnly false (beginUndoAction w)) = false /\
  undoDepth (setReadOnly false (beginUndoAction w)) = 1 /\
  doc (setReadOnly false (beginUndoAction w)) = doc w /\
  openGroup (setReadOnly false (beginUndoAction w)) = [] /\
  closedLog (setReadOnly false (beginUndoAction w)) = undoLog (doc w) /\
  core (setReadOnly false (beginUndoAction w))
  = (mode w, numberList w, prevWasEscapeFirst w, replaceModeRepeat w,
     false, 1, signals w).
Proof.
  intros Hd. unfold setReadOnly, beginUndoAction, openGroup, closedLog, core.
  rewrite Hd. cbn. repeat split; reflexivity.
Qed.

(* The widget it leaves behind. *)
Lemma exit_ReadWriteSingleUndo (w : Widget X) :
  undoDepth w = 1 ->
  readOnly (setReadOnly true (endUndoAction w)) = true /\
  undoDepth (setReadOnly true (endUndoAction w)) = 0 /\
  doc (setReadOnly true (endUndoAction w)) = doc w /\
  groupOpen (setReadOnly true (endUndoAction w)) = false /\
  mode (setReadOnly true (endUndoAction w)) = mode w.
Proof.
  intros Hd. unfold setReadOnly, endUndoAction. rewrite Hd. cbn.
  repeat split; reflexivity.
Qed.


End ReplaceKey.



(** ** The function keys *)

Section FunctionKeys.

Variable X : Type.
Variable env : Collab X.

(* Where a function key, with no modifier or with Shift, is handled in
   Typing and in Movement mode. *)
Lemma dispatch_fnKey (e : KeyEvent) (w : Widget X) :
  mode w = Some Typing \/ mode w = Some Movement ->
  isPlain (effectiveModifiers e) = true ->
  isFnKey e = true -> text e = EmptyString ->
  dispatch env e w
  = bind (processFnKeyEvent env e w) (ok (startLocals w)).
Proof.
  intros Hm Hp Hf Ht.
  assert (Hk : key e = Qt.Key_F1 \/ key e = Qt.Key_F2 \/ key e = Qt.Key_F3).
  { unfold isFnKey, key_is in Hf.
    apply orb_true_iff in Hf. destruct Hf as [Hf|Hf];
      [apply orb_true_iff in Hf; destruct Hf as [Hf|Hf]|];
      apply Z.eqb_eq in Hf; auto. }
  unfold dispatch. fold (effectiveModifiers e). fold (startLocals w).
  destruct Hm as [Hm|Hm]; rewrite Hm.
  - unfold typingMode. rewrite Hp, Hf.
    unfold key_is, text_is. rewrite Ht.
    destruct Hk as [Hk|[Hk|Hk]]; rewrite Hk; reflexivity.
  - unfold movementMode. rewrite Hp.
    unfold movementPlain. rewrite Hf.
    unfold key_is, text_is. rewrite Ht.
    destruct Hk as [Hk|[Hk|Hk]]; rewrite Hk; known_tests; reflexivity.
Qed.

(* The end of the handler after a branch that left the document alone and
   passed nothing on. *)
Lemma signals_finishKey_unmoved (e : KeyEvent) (w v : Widget X) :
  doc v = doc w ->
  signals (finishKey env e (startLocals w, v)) = signals v.
Proof.
  intros Hd.
  pose proof (@signals_finishKey X env e (startLocals w, v)) as H.
  cbv zeta in H. rewrite H. clear H.
  rewrite doc_finishKey by reflexivity.
  cbn [fst snd startLocals curLine curIndex]. rewrite Hd, !Z.eqb_refl.
  cbn [negb orb]. apply app_nil_r.
Qed.

Lemma emittedBetween_app (w w' : Widget X) (l : list Signal) :
  signals w' = signals w ++ l -> emittedBetween w w' = l.
Proof.
  intros H. unfold emittedBetween. rewrite H. apply skipn_length_app.
Qed.

(** F2 in Typing or Movement mode, with no modifier or with Shift: the
    handler raises NameError and the widget is as it was before the key;
    in particular the number prefix is not cleared and no signal is
    emitted. *)
Theorem f2_raises_NameError (e : KeyEvent) (w : Widget X) :
  mode w = Some Typing \/ mode w = Some Movement ->
  isPlain (effectiveModifiers e) = true ->
  key e = Qt.Key_F2 -> text e = EmptyString ->
  keyPressEvent env e w = Raised NameError w.
Proof.
  intros Hm Hp Hk Ht.
  assert (Hf : isFnKey e = true)
    by (unfold isFnKey, key_is; rewrite Hk; reflexivity).
  unfold keyPressEvent. rewrite (dispatch_fnKey e w Hm Hp Hf Ht).
  unfold processFnKeyEvent, key_is. rewrite Hk. reflexivity.
Qed.


End FunctionKeys.

(** F2 pressed in Movement mode after the digit 3. *)
Lemma f2_raises_NameError_witness :
  keyPressEvent sampleCollab (plainKey Qt.Key_F2 "")
    (pressAll sampleCollab [digitKey 3]
       (newWidget sampleCollab (docOf ["abcdef"%string] 2)))
  = Raised NameError
      (pressAll sampleCollab [digitKey 3]
         (newWidget sampleCollab (docOf ["abcdef"%string] 2))).
Proof.
  apply (@f2_raises_NameError unit sampleCollab (plainKey Qt.Key_F2 "")
           (pressAll sampleCollab [digitKey 3]
              (newWidget sampleCollab (docOf ["abcdef"%string] 2)))).
  - right. vm_compute. reflexivity.
  - reflexivity.
  - reflexivity.
  - reflexivity.
Defined.


(** ** Escape and Command mode *)

Section EscapeKey.

Variable X : Type.
Variable env : Collab X.

Lemma signals_setMode_other (m : EditorMode) (w : Widget X) :
  mode w <> Some m -> signals (setMode env m w) = signals w ++ [ModeChanged m].
Proof.
  intros Hm. rewrite signals_setMode.
  destruct (sameMode (mode w) m) eqn:E; [|reflexivity].
  apply sameMode_true in E. contradiction.
Qed.

Lemma readOnly_setMode_other (m : EditorMode) (w : Widget X) :
  mode w <> Some m ->
  readOnly (setMode env m w) = negb (EditorMode_eqb m Typing).
Proof.
  intros Hm. rewrite readOnly_setMode.
  destruct (sameMode (mode w) m) eqn:E; [|reflexivity].
  apply sameMode_true in E. contradiction.
Qed.

(** In Command mode every key event is handled without the text
    component: the document stays as it is and the number prefix is
    emptied.  Escape and Return lead to Movement mode, with one
    mode-changed signal; every other key is ignored, the mode stays
    Command and no signal is emitted. *)
Theorem command_mode_key (e : KeyEvent) (w : Widget X) :
  mode w = Some Command ->
  exists w',
    keyPressEvent env e w = Normal w' /\
    doc w' = doc w /\ numberList w' = [] /\
    mode w' = (if key_is e Qt.Key_Escape || key_is e Qt.Key_Return
               then Some Movement else Some Command) /\
    emittedBetween w w'
    = (if key_is e Qt.Key_Escape || key_is e Qt.Key_Return
       then [ModeChanged Movement] else []).
Proof.
  intros Hm.
  assert (Hne : mode w <> Some Movement) by (rewrite Hm; discriminate).
  assert (Hgo : exists w',
             @Normal X (Widget X)
               (finishKey env e (startLocals w, setMode env Movement w))
             = Normal w' /\
             doc w' = doc w /\ numberList w' = [] /\
             mode w' = Some Movement /\
             emittedBetween w w' = [ModeChanged Movement]).
  { eexists. split; [reflexivity|].
    split; [rewrite doc_finishKey by reflexivity; apply doc_setMode|].
    split; [rewrite numberList_finishKey; reflexivity|].
    split; [rewrite mode_finishKey; apply mode_setMode|].
    apply emittedBetween_app.
    rewrite signals_finishKey_unmoved by apply doc_setMode.
    apply signals_setMode_other. exact Hne. }
  unfold keyPressEvent, dispatch. fold (startLocals w). rewrite Hm.
  unfold commandMode, processCommand.
  destruct (key_is e Qt.Key_Escape); [exact Hgo|].
  destruct (key_is e Qt.Key_Return); [exact Hgo|].
  cbn [orb ok bind]. eexists. split; [reflexivity|].
  split; [rewrite doc_finishKey by reflexivity; reflexivity|].
  split; [rewrite numberList_finishKey; reflexivity|].
  split; [rewrite mode_finishKey; exact Hm|].
  apply emittedBetween_app.
  rewrite signals_finishKey_unmoved by reflexivity.
  symmetry. apply app_nil_r.
Qed.

(* The handler's end after a branch that only changed the mode. *)
Lemma finish_to_Movement (e : KeyEvent) (w : Widget X) :
  mode w <> Some Movement ->
  exists w',
    @Normal X (Widget X)
      (finishKey env e (startLocals w, setMode env Movement w)) = Normal w' /\
    mode w' = Some Movement /\ doc w' = doc w /\ numberList w' = [] /\
    readOnly w' = true /\ emittedBetween w w' = [ModeChanged Movement].
Proof.
  intros Hne. eexists. split; [reflexivity|].
  split; [rewrite mode_finishKey; apply mode_setMode|].
  split; [rewrite doc_finishKey by reflexivity; apply doc_setMode|].
  split; [rewrite numberList_finishKey; reflexivity|].
  split.
  - destruct (@finishKey_unprocessed X env e
                (startLocals w, setMode env Movement w) eq_refl)
      as (_ & _ & _ & Hr & _).
    rewrite Hr. cbn [snd]. rewrite (@readOnly_setMode_other Movement w Hne). reflexivity.
  - apply emittedBetween_app.
    rewrite signals_finishKey_unmoved by apply doc_setMode.
    apply signals_setMode_other. exact Hne.
Qed.


End EscapeKey.

(** Return in Command mode, entered with the space key. *)
Lemma command_mode_key_witness :
  exists w',
    keyPressEvent sampleCollab (plainKey Qt.Key_Return "")
      (pressAll sampleCollab [plainKey Qt.Key_Space " "]
         (newWidget sampleCollab (docOf ["abcdef"%string] 2))) = Normal w' /\
    doc w'
    = doc (pressAll sampleCollab [plainKey Qt.Key_Space " "]
             (newWidget sampleCollab (docOf ["abcdef"%string] 2))) /\
    numberList w' = [] /\
    mode w' = (if key_is (plainKey Qt.Key_Return "") Qt.Key_Escape
                  || key_is (plainKey Qt.Key_Return "") Qt.Key_Return
               then Some Movement else Some Command) /\
    emittedBetween
      (pressAll sampleCollab [plainKey Qt.Key_Space " "]
         (newWidget sampleCollab (docOf ["abcdef"%string] 2))) w'
    = (if key_is (plainKey Qt.Key_Return "") Qt.Key_Escape
          || key_is (plainKey Qt.Key_Return "") Qt.Key_Return
       then [ModeChanged Movement] else []).
Proof.
  apply (@command_mode_key unit sampleCollab (plainKey Qt.Key_Return "")
           (pressAll sampleCollab [plainKey Qt.Key_Space " "]
              (newWidget sampleCollab (docOf ["abcdef"%string] 2)))).
  vm_compute. reflexivity.
Defined.


(** ** The commands of Movement mode *)

Section MovementCommands.

Variable X : Type.
Variable env : Collab X.

(** Away from the indenting commands [>] and [<]: when a key event is
    handled to the end, the position signals emitted are none when the
    cursor is on the line and at the index where it was as the event
    arrived, and exactly one, carrying the new line and index, when it is
    not. *)
Theorem position_signal_iff_moved (e : KeyEvent) (w w' : Widget X) :
  (mode w = Some Movement -> isPlain (effectiveModifiers e) = true ->
   text_is e ">" = false /\ text_is e "<" = false) ->
  keyPressEvent env e w = Normal w' ->
  filter isPositionChanged (emittedBetween w w')
  = if samePosition (getCursorPosition (doc w')) (getCursorPosition (doc w))
    then []
    else [PositionChanged (fst (getCursorPosition (doc w')))
                          (snd (getCursorPosition (doc w')))].
Proof. exact (@positionChanged_iff_moved X env e w w'). Qed.

Lemma sci_gotoLine_within (line : Z) (d : Doc X) :
  (0 <= line < lines d)%Z ->
  content (sci_gotoLine line d) = content d /\
  caret (sci_gotoLine line d) = lineStart (content d) (Z.to_nat line) /\
  anchor (sci_gotoLine line d) = lineStart (content d) (Z.to_nat line) /\
  getCursorPosition (sci_gotoLine line d) = (line, 0%Z).
Proof.
  intros Hl. unfold sci_gotoLine.
  destruct (lines d <? line)%Z eqn:E1; [apply Z.ltb_lt in E1; lia|].
  destruct (line <? 0)%Z eqn:E2; [apply Z.ltb_lt in E2; lia|].
  pose proof (lineStart_le (content d) (Z.to_nat line)) as Hle.
  destruct (@setEmptySelection_within X _ d Hle) as (S1 & S2 & S3 & _).
  split; [exact S1|]. split; [exact S2|]. split; [exact S3|].
  unfold getCursorPosition, caretLine. rewrite S1, S2.
  assert (Hc : Z.to_nat line <= countLF (content d))
    by (unfold lines, lineCount in Hl; lia).
  rewrite (@lineFromPosition_lineStart (content d) _ Hc).
  rewrite Nat.sub_diag, Z2Nat.id by lia. reflexivity.
Qed.

(** The key g in Movement mode.  Without a number prefix nothing happens
    at all.  With a prefix of value n, taken in a reachable state, the
    one message sent is SCI_GOTOLINE for line min(n, lines()) - 1 and the
    cursor ends at index 0 of that line, counted from 0; a prefix beyond
    the last line leads to the last line.  The text stays as it is and
    the prefix is emptied. *)
Theorem goto_line_key (e : KeyEvent) (w : Widget X) :
  reachable env w -> mode w = Some Movement -> typedKey "g" e ->
  exists w',
    keyPressEvent env e w = Normal w' /\
    content (doc w') = content (doc w) /\ numberList w' = [] /\
    (numberList w = [] -> doc w' = doc w /\ sentBetween w w' = []) /\
    (numberList w <> [] ->
     sentBetween w w' = [SCI_GOTOLINE (getNumberPrefix true w - 1)] /\
     getCursorPosition (doc w') = ((getNumberPrefix true w - 1)%Z, 0%Z) /\
     (0 <= getNumberPrefix true w - 1 < lines (doc w))%Z).
Proof.
  intros Hr Hm He.
  pose proof (getNumberPrefix_goodPrefix true w (reachable_digits Hr)) as Hn.
  assert (Hcap : (getNumberPrefix true w <= lines (doc w))%Z).
  { rewrite getNumberPrefix_capped. lia. }
  unfold keyPressEvent, dispatch.
  fold (effectiveModifiers e). fold (startLocals w). rewrite Hm.
  text_branch He.
  unfold hasNumberPrefix.
  destruct (numberList w) as [|d l] eqn:Hl.
  - cbn [List.length Nat.eqb negb ok bind].
    eexists. split; [reflexivity|].
    rewrite doc_finishKey by reflexivity. cbn [snd].
    split; [reflexivity|].
    split; [rewrite numberList_finishKey; reflexivity|].
    split; [|congruence].
    intros _. split; [reflexivity|].
    unfold sentBetween. rewrite sent_finishKey by reflexivity. cbn [snd].
    apply skipn_length_self.
  - cbn [List.length Nat.eqb negb ok bind].
    rewrite <- Hl.
    set (n := getNumberPrefix true w) in *.
    destruct (@sci_gotoLine_within (n - 1)%Z (doc w)) as (G1 & _ & _ & G4);
      [lia|].
    eexists. split; [reflexivity|].
    rewrite doc_finishKey by reflexivity. cbn [snd].
    unfold SendScintilla. cbn [sciExec doc set_doc].
    split; [exact G1|].
    split; [rewrite numberList_finishKey; reflexivity|].
    split; [intros H; rewrite Hl in H; discriminate|].
    intros _. split; [|split; [exact G4 | lia]].
    unfold sentBetween. rewrite sent_finishKey by reflexivity.
    cbn [snd sent set_doc set_sent]. apply skipn_length_app.
Qed.

End MovementCommands.

(** The key l at column 2 of abcdef: the cursor moves and one position
    signal is emitted. *)
Lemma position_signal_iff_moved_witness :
  filter isPositionChanged
    (emittedBetween (newWidget sampleCollab (docOf ["abcdef"%string] 2))
       (finalState
          (keyPressEvent sampleCollab (plainKey Qt.Key_L "l")
             (newWidget sampleCollab (docOf ["abcdef"%string] 2)))))
  = if samePosition
         (getCursorPosition
            (doc (finalState
                    (keyPressEvent sampleCollab (plainKey Qt.Key_L "l")
                       (newWidget sampleCollab (docOf ["abcdef"%string] 2))))))
         (getCursorPosition
            (doc (newWidget sampleCollab (docOf ["abcdef"%string] 2))))
    then []
    else [PositionChanged
            (fst (getCursorPosition
                    (doc (finalState
                            (keyPressEvent sampleCollab (plainKey Qt.Key_L "l")
                               (newWidget sampleCollab
                                  (docOf ["abcdef"%string] 2)))))))
            (snd (getCursorPosition
                    (doc (finalState
                            (keyPressEvent sampleCollab (plainKey Qt.Key_L "l")
                               (newWidget sampleCollab
                                  (docOf ["abcdef"%string] 2)))))))].
Proof.
  apply (@position_signal_iff_moved unit sampleCollab (plainKey Qt.Key_L "l")
           (newWidget sampleCollab (docOf ["abcdef"%string] 2))).
  - intros _ _. split; reflexivity.
  - vm_compute. reflexivity.
Defined.

(** The keys 2 and g in a text of three lines. *)
Lemma goto_line_key_witness :
  exists w',
    keyPressEvent sampleCollab (plainKey 0x47 "g")
      (finalState
         (keyPressEvent sampleCollab (digitKey 2)
            (newWidget sampleCollab (docOf ["ab"; "cd"; "ef"]%string 0))))
    = Normal w' /\
    content (doc w')
    = content
        (doc (finalState
                (keyPressEvent sampleCollab (digitKey 2)
                   (newWidget sampleCollab
                      (docOf ["ab"; "cd"; "ef"]%string 0))))) /\
    numberList w' = [] /\
    (numberList
       (finalState
          (keyPressEvent sampleCollab (digitKey 2)
             (newWidget sampleCollab (docOf ["ab"; "cd"; "ef"]%string 0))))
     = [] ->
     doc w'
     = doc (finalState
              (keyPressEvent sampleCollab (digitKey 2)
                 (newWidget sampleCollab (docOf ["ab"; "cd"; "ef"]%string 0))))
     /\ sentBetween
          (finalState
             (keyPressEvent sampleCollab (digitKey 2)
                (newWidget sampleCollab (docOf ["ab"; "cd"; "ef"]%string 0))))
          w' = []) /\
    (numberList
       (finalState
          (keyPressEvent sampleCollab (digitKey 2)
             (newWidget sampleCollab (docOf ["ab"; "cd"; "ef"]%string 0))))
     <> [] ->
     sentBetween
       (finalState
          (keyPressEvent sampleCollab (digitKey 2)
             (newWidget sampleCollab (docOf ["ab"; "cd"; "ef"]%string 0))))
       w'
     = [SCI_GOTOLINE
          (getNumberPrefix true
             (finalState
                (keyPressEvent sampleCollab (digitKey 2)
                   (newWidget sampleCollab
                      (docOf ["ab"; "cd"; "ef"]%string 0)))) - 1)] /\
     getCursorPosition (doc w')
     = ((getNumberPrefix true
           (finalState
              (keyPressEvent sampleCollab (digitKey 2)
                 (newWidget sampleCollab
                    (docOf ["ab"; "cd"; "ef"]%string 0)))) - 1)%Z, 0%Z) /\
     (0 <= getNumberPrefix true
             (finalState
                (keyPressEvent sampleCollab (digitKey 2)
                   (newWidget sampleCollab
                      (docOf ["ab"; "cd"; "ef"]%string 0)))) - 1
      < lines
          (doc (finalState
                  (keyPressEvent sampleCollab (digitKey 2)
                     (newWidget sampleCollab
                        (docOf ["ab"; "cd"; "ef"]%string 0))))))%Z).
Proof.
  apply (@goto_line_key unit sampleCollab (plainKey 0x47 "g")
           (finalState
              (keyPressEvent sampleCollab (digitKey 2)
                 (newWidget sampleCollab
                    (docOf ["ab"; "cd"; "ef"]%string 0))))).
  - apply reach_key, reach_new.
  - vm_compute. reflexivity.
  - repeat split; reflexivity.
Defined.

(** ** Entering Typing mode *)

Section EnterTyping.

Variable X : Type.
Variable env : Collab X.

Lemma finishKey_mode_readOnly (e : KeyEvent) (loc : Locals) (v : Widget X) :
  process loc = false ->
  mode (finishKey env e (loc, v)) = mode v /\
  readOnly (finishKey env e (loc, v)) = readOnly v /\
  doc (finishKey env e (loc, v)) = doc v.
Proof.
  intros Hp.
  destruct (@finishKey_unprocessed X env e (loc, v) Hp)
    as (Hd & Hm & _ & Hr & _).
  auto.
Qed.

(** The keys t, a, A, I, o and O of Movement mode lead to Typing mode
    with the text component writable. *)
Theorem typing_keys_make_writable (e : KeyEvent) (s : string) (w : Widget X) :
  mode w = Some Movement -> typedKey s e ->
  In s ["t"; "a"; "A"; "I"; "o"; "O"]%string ->
  exists w',
    keyPressEvent env e w = Normal w' /\
    mode w' = Some Typing /\ readOnly w' = false.
Proof.
  intros Hm He Hs.
  assert (Hne : forall v : Widget X, mode v = Some Movement ->
                                     mode v <> Some Typing)
    by (intros v Hv; rewrite Hv; discriminate).
  assert (Hgo : forall v : Widget X,
            mode v = Some Movement ->
            mode (setMode env Typing v) = Some Typing /\
            readOnly (setMode env Typing v) = false).
  { intros v Hv. split; [apply mode_setMode|].
    apply (@readOnly_setMode_other X env Typing v (Hne v Hv)). }
  unfold keyPressEvent, dispatch.
  fold (effectiveModifiers e). fold (startLocals w). rewrite Hm.
  cbn [In] in Hs.
  destruct Hs as [Hs|[Hs|[Hs|[Hs|[Hs|[Hs|[]]]]]]]; subst s; text_branch He;
    open_blocks; eexists; (split; [reflexivity|]);
    match goal with
    | |- mode (finishKey _ _ (_, ?v)) = _ /\ _ =>
        destruct (@finishKey_mode_readOnly e (startLocals w) v eq_refl)
          as (F1 & F2 & _); rewrite F1, F2
    end.
  - apply Hgo. exact Hm.
  - apply Hgo. rewrite (mode_keeps (K := keeps_SendScintilla env _)). exact Hm.
  - apply Hgo. rewrite (mode_keeps (K := keeps_SendScintilla env _)). exact Hm.
  - apply Hgo. rewrite (mode_keeps (K := keeps_SendScintilla env _)). exact Hm.
  - rewrite mode_endUndoAction, readOnly_endUndoAction. apply Hgo.
    rewrite (mode_keeps (K := keeps_times _ (H := keeps_callDoc _))). exact Hm.
  - rewrite mode_endUndoAction, readOnly_endUndoAction. apply Hgo.
    rewrite (mode_keeps (K := keeps_times _ (H := keeps_callDoc _))). exact Hm.
Qed.

(* Typed text on a read-only text component. *)
Lemma addCharUTF_readOnly (s : list ascii) (w : Widget X) :
  readOnly w = true -> doc (addCharUTF s w) = doc w.
Proof.
  intros Hro. unfold addCharUTF. cbv zeta.
  destruct (selectionEmpty (doc w)); cbn [negb].
  - unfold insertString. rewrite Hro. reflexivity.
  - assert (Hb : readOnly (beginUndoAction w) = true) by exact Hro.
    assert (Hv : doc (beginUndoAction w) = doc w) by reflexivity.
    set (v := beginUndoAction w) in *.
    clearbody v.
    unfold deleteChars. rewrite Hb. cbn [orb].
    unfold insertString. rewrite Hb. cbn [orb].
    rewrite Hro. rewrite doc_endUndoAction. exact Hv.
Qed.

(* A key that types text, in Typing mode over a read-only component. *)
Lemma typing_readOnly (e : KeyEvent) (w : Widget X) :
  mode w = Some Typing -> readOnly w = true ->
  isPlain (effectiveModifiers e) = true -> typesText e = true ->
  (text e = ESCAPESECOND -> prevWasEscapeFirst w = false) ->
  exists w',
    keyPressEvent env e w = Normal w' /\
    doc w' = doc w /\ mode w' = Some Typing /\ readOnly w' = true.
Proof.
  intros Hm Hro Hp Ht Hsecond.
  destruct (@typesText_ordinary e Ht) as (Hesc & Hfn & Hne).
  assert (Hfin : forall v : Widget X,
            mode v = Some Typing -> readOnly v = true -> doc v = doc w ->
            exists w',
              @Normal X (Widget X)
                (finishKey env e (set_process true (startLocals w), v))
              = Normal w' /\
              doc w' = doc w /\ mode w' = Some Typing /\ readOnly w' = true).
  { intros v Hvm Hvro Hvd. eexists. split; [reflexivity|].
    unfold finishKey. cbv zeta.
    cbn [fst snd process clearnumberList set_process startLocals].
    unfold baseKeyPressEvent. rewrite Ht.
    match goal with
    | |- context [addCharUTF _ ?u] => set (v2 := u)
    end.
    assert (Hv2 : mode v2 = Some Typing /\ readOnly v2 = true /\
                  doc v2 = doc w).
    { unfold v2. split_tests; cbn; auto. }
    destruct Hv2 as (H1 & H2 & H3).
    clearbody v2.
    pose proof (@addCharUTF_readOnly (list_ascii_of_string (text e)) v2 H2)
      as Hd.
    pose proof (keeps_addCharUTF (list_ascii_of_string (text e)) v2) as Hc.
    unfold core in Hc.
    set (v3 := addCharUTF (list_ascii_of_string (text e)) v2) in *.
    clearbody v3.
    split_tests; cbn [doc mode readOnly emit set_signals];
      (split; [congruence|]); split; congruence. }
  unfold keyPressEvent, dispatch. fold (effectiveModifiers e).
  fold (startLocals w). rewrite Hm.
  unfold typingMode. rewrite Hp, Hesc.
  destruct (text_is e ESCAPEFIRST) eqn:H1.
  - cbn [bind ok]. apply Hfin; auto.
  - destruct (text_is e ESCAPESECOND) eqn:H2.
    + assert (Hprev : prevWasEscapeFirst w = false).
      { apply Hsecond. apply String.eqb_eq. exact H2. }
      rewrite Hprev. cbn [bind ok]. apply Hfin; auto.
    + rewrite Hfn. cbn [bind ok]. apply Hfin; auto.
Qed.

(** The keys C, and c after a number prefix, of Movement mode lead to
    Typing mode with the text component read-only: the mode is set
    inside the read-write block, whose end makes the component read-only
    again.  A key that types text is then handled to the end, in Typing
    mode, and leaves the document as it is. *)
Theorem change_keys_leave_read_only (e : KeyEvent) (w : Widget X) :
  mode w = Some Movement ->
  typedKey "C" e \/ (typedKey "c" e /\ numberList w <> []) ->
  exists w',
    keyPressEvent env e w = Normal w' /\
    mode w' = Some Typing /\ readOnly w' = true /\
    forall e2,
      isPlain (effectiveModifiers e2) = true -> typesText e2 = true ->
      exists w2,
        keyPressEvent env e2 w' = Normal w2 /\
        doc w2 = doc w' /\ mode w2 = Some Typing.
Proof.
  intros Hm He.
  assert (Hend : forall v : Widget X,
            mode v = Some Typing -> readOnly v = true ->
            exists w',
              @Normal X (Widget X) (finishKey env e (startLocals w, v))
              = Normal w' /\
              mode w' = Some Typing /\ readOnly w' = true /\
              forall e2,
                isPlain (effectiveModifiers e2) = true -> typesText e2 = true ->
                exists w2,
                  keyPressEvent env e2 w' = Normal w2 /\
                  doc w2 = doc w' /\ mode w2 = Some Typing).
  { intros v Hvm Hvr.
    assert (Hte : text_is e ESCAPEFIRST = false).
    { unfold text_is.
      destruct He as [He|[He _]]; destruct He as (_ & Ht & _); rewrite Ht;
        reflexivity. }
    destruct (@finishKey_mode_readOnly e (startLocals w) v eq_refl)
      as (F1 & F2 & _).
    assert (F3 : prevWasEscapeFirst (finishKey env e (startLocals w, v))
                 = false).
    { unfold finishKey. cbv zeta.
      cbn [fst snd process clearnumberList startLocals]. rewrite Hte.
      cbn [negb]. rewrite andb_true_r.
      destruct (prevWasEscapeFirst v) eqn:Ev; split_tests; cbn; auto. }
    set (w' := finishKey env e (startLocals w, v)) in *. clearbody w'.
    exists w'. split; [reflexivity|].
    split; [congruence|]. split; [congruence|].
    intros e2 Hp2 Ht2.
    destruct (@typing_readOnly e2 w') as (w2 & K1 & K2 & K3 & _);
      try congruence; auto.
    exists w2. auto. }
  unfold keyPressEvent, dispatch.
  fold (effectiveModifiers e). fold (startLocals w). rewrite Hm.
  destruct He as [He|[He Hn]]; text_branch He.
  - open_blocks. apply Hend.
    + cbn [mode setReadOnly set_readOnly]. apply mode_setMode.
    + reflexivity.
  - unfold hasNumberPrefix.
    destruct (numberList w) as [|d l]; [congruence|].
    cbn [List.length Nat.eqb negb]. open_blocks. apply Hend.
    + cbn [mode setReadOnly set_readOnly]. apply mode_setMode.
    + reflexivity.
Qed.

End EnterTyping.

(** The key t in a new widget. *)
Lemma typing_keys_make_writable_witness :
  exists w',
    keyPressEvent sampleCollab (plainKey 0x54 "t")
      (newWidget sampleCollab (docOf ["abcdef"%string] 2)) = Normal w' /\
    mode w' = Some Typing /\ readOnly w' = false.
Proof.
  apply (@typing_keys_make_writable unit sampleCollab (plainKey 0x54 "t") "t"
           (newWidget sampleCollab (docOf ["abcdef"%string] 2))).
  - reflexivity.
  - repeat split; reflexivity.
  - left. reflexivity.
Defined.

(** The key C in a new widget. *)
Lemma change_keys_leave_read_only_witness :
  exists w',
    keyPressEvent sampleCollab (plainKey Qt.Key_C "C")
      (newWidget sampleCollab (docOf ["abcdef"%string] 2)) = Normal w' /\
    mode w' = Some Typing /\ readOnly w' = true /\
    forall e2,
      isPlain (effectiveModifiers e2) = true -> typesText e2 = true ->
      exists w2,
        keyPressEvent sampleCollab e2 w' = Normal w2 /\
        doc w2 = doc w' /\ mode w2 = Some Typing.
Proof.
  apply (@change_keys_leave_read_only unit sampleCollab (plainKey Qt.Key_C "C")
           (newWidget sampleCollab (docOf ["abcdef"%string] 2))).
  - reflexivity.
  - left. repeat split; reflexivity.
Defined.

(** ** Joining lines *)

Section JoinKey.

Variable X : Type.
Variable env : Collab X.

(* Where the key J leads in Movement mode. *)
Lemma join_dispatch (e : KeyEvent) (w : Widget X) :
  mode w = Some Movement -> typedKey "J" e ->
  keyPressEvent env e w
  = Normal
      (finishKey env e
         (startLocals w,
          setReadOnly true
            (endUndoAction
               (times (getNumberPrefix true (setReadOnly false (beginUndoAction w)))
                      (joinLine env)
                      (setReadOnly false (beginUndoAction w)))))).
Proof.
  intros Hm He.
  unfold keyPressEvent, dispatch. rewrite Hm.
  fold (effectiveModifiers e). fold (startLocals w).
  text_branch He.
  unfold with_ReadWriteSingleUndo. cbn [bind ok exits]. reflexivity.
Qed.

(* The first step of a round: a space and the next line, which has no
   leading whitespace to lose, go in behind the current line, in front of
   its line end. *)
Lemma join_insert (w : Widget X) :
  content (doc w) = joinLines ["  hello "; "world  "; EmptyString]%string ->
  caret (doc w) <= 8 ->
  readOnly w = false -> undoDepth w = 1 -> groupOpen w = false ->
  let line := fst (getCursorPosition (doc w)) in
  let nextLine := lstrip (text_of_line (doc w) (line + 1)) in
  let nextLine' :=
    match nextLine with
    | EmptyString => String LF EmptyString
    | _ => nextLine
    end in
  let w1 := insertAt (" " ++ nextLine') line (lineLength (doc w) line - 1) w in
  content (doc w1) = joinLines ["  hello  world  "; EmptyString; "world  "; EmptyString]%string /\
  caret (doc w1) <= 8 /\ moveExtends (doc w1) = false /\
  undoLog (doc w1) = [Ins 8 (joinLines [" world  "; EmptyString]%string)] :: undoLog (doc w) /\
  readOnly w1 = false /\ undoDepth w1 = 1 /\ groupOpen w1 = true /\
  sent w1 = sent w.
Proof.
  intros Hc Hcar Hr Hd Hg.
  destruct w as [wm wn wp wr wf wfd wsm wst wsd wsf wb wro wcs wud wgo wd wsg wse].
  destruct wd as [ct car an mv ul rl ex].
  cbn in Hc, Hcar, Hr, Hd, Hg. subst.
  do 9 (destruct car as [|car];
        [vm_compute; repeat split; repeat apply le_n_S; apply Nat.le_0_l|]).
  lia.
Qed.

(* The caret goes down to the line below, which is the empty one by now:
   whatever column the component aims at, it ends at the start of it. *)
Lemma join_lineDown (d : Doc X) :
  content d = joinLines ["  hello  world  "; EmptyString; "world  "; EmptyString]%string ->
  caret d <= 8 -> moveExtends d = false ->
  content (sci_lineDown env d) = content d /\
  caret (sci_lineDown env d) = 17 /\
  undoLog (sci_lineDown env d) = undoLog d.
Proof.
  intros Hc Hcar Hm. unfold sci_lineDown. cbv zeta.
  generalize (xChosen env d). intros x.
  destruct d as [ct car an mv ul rl ex]. cbn in Hc, Hcar, Hm. subst.
  do 9 (destruct car as [|car];
        [destruct x; vm_compute; repeat split|]).
  lia.
Qed.

(* The empty line and the line that was joined are deleted. *)
Lemma join_lineDelete (w : Widget X) :
  content (doc w) = joinLines ["  hello  world  "; EmptyString; "world  "; EmptyString]%string ->
  caret (doc w) = 17 ->
  readOnly w = false -> undoDepth w = 1 -> groupOpen w = true ->
  forall g r, undoLog (doc w) = g :: r ->
  let w' := SendScintilla env SCI_LINEDELETE
              (SendScintilla env SCI_LINEDELETE w) in
  content (doc w') = joinLines ["  hello  world  "; EmptyString]%string /\
  caret (doc w') = 17 /\
  undoLog (doc w')
  = (Del 17 (joinLines ["world  "; EmptyString]%string)
     :: Del 17 (joinLines [EmptyString; EmptyString]%string) :: g) :: r /\
  undoDepth w' = 1 /\
  sent w' = (sent w ++ [SCI_LINEDELETE]) ++ [SCI_LINEDELETE].
Proof.
  intros Hc Hcar Hr Hd Hg g r Hl.
  destruct w as [wm wn wp wr wf wfd wsm wst wsd wsf wb wro wcs wud wgo wd wsg wse].
  destruct wd as [ct car an mv ul rl ex].
  cbn in Hc, Hcar, Hr, Hd, Hg, Hl. subst.
  vm_compute. repeat split.
Qed.

(* The caret goes back up: it ends on the first line, at a column the
   component chooses. *)
Lemma join_lineUp (d : Doc X) :
  content d = joinLines ["  hello  world  "; EmptyString]%string ->
  caret d = 17 ->
  content (sci_lineUp env d) = content d /\
  fst (getCursorPosition (sci_lineUp env d)) = 0%Z /\
  undoLog (sci_lineUp env d) = undoLog d.
Proof.
  intros Hc Hcar. unfold sci_lineUp.
  generalize (xChosen env d). intros x.
  destruct d as [ct car an mv ul rl ex]. cbn in Hc, Hcar. subst.
  do 17 (destruct x as [|x]; [vm_compute; repeat split|]).
  vm_compute; repeat split.
Qed.

(* One round of the loop of J on the three lines. *)
Lemma join_round (w : Widget X) :
  content (doc w) = joinLines ["  hello "; "world  "; EmptyString]%string ->
  caret (doc w) <= 8 ->
  readOnly w = false -> undoDepth w = 1 -> groupOpen w = false ->
  content (doc (joinLine env w)) = joinLines ["  hello  world  "; EmptyString]%string /\
  fst (getCursorPosition (doc (joinLine env w))) = 0%Z /\
  undoLog (doc (joinLine env w))
  = [Del 17 (joinLines ["world  "; EmptyString]%string);
     Del 17 (joinLines [EmptyString; EmptyString]%string);
     Ins 8 (joinLines [" world  "; EmptyString]%string)] :: undoLog (doc w) /\
  undoDepth (joinLine env w) = 1 /\
  sent (joinLine env w)
  = sent w ++ [SCI_LINEDOWN; SCI_LINEDELETE; SCI_LINEDELETE; SCI_LINEUP].
Proof.
  intros Hc Hcar Hr Hd Hg.
  pose proof (@join_insert w Hc Hcar Hr Hd Hg) as H1. cbv zeta in H1.
  unfold joinLine. cbv zeta.
  set (w1 := insertAt _ _ _ w) in *.
  clearbody w1.
  destruct H1 as (C1 & K1 & M1 & U1 & R1 & D1 & G1 & Hs1).
  destruct (@join_lineDown (doc w1) C1 K1 M1) as (C2 & K2 & U2).
  set (w2 := SendScintilla env SCI_LINEDOWN w1).
  assert (F2 : doc w2 = sci_lineDown env (doc w1) /\ readOnly w2 = readOnly w1 /\
               undoDepth w2 = undoDepth w1 /\ groupOpen w2 = groupOpen w1 /\
               sent w2 = sent w1 ++ [SCI_LINEDOWN])
    by (repeat split).
  clearbody w2. destruct F2 as (E2 & R2 & D2 & G2 & S2).
  rewrite <- E2 in C2, K2, U2.
  rewrite C1 in C2. rewrite U1 in U2. rewrite R1 in R2. rewrite D1 in D2.
  rewrite G1 in G2.
  pose proof (@join_lineDelete w2 C2 K2 R2 D2 G2 _ _ U2) as H3.
  cbv zeta in H3.
  set (w4 := SendScintilla env SCI_LINEDELETE
               (SendScintilla env SCI_LINEDELETE w2)) in *.
  clearbody w4. destruct H3 as (C4 & K4 & U4 & D4 & S4).
  destruct (@join_lineUp (doc w4) C4 K4) as (C5 & L5 & U5).
  set (w5 := SendScintilla env SCI_LINEUP w4).
  assert (F5 : doc w5 = sci_lineUp env (doc w4) /\
               undoDepth w5 = undoDepth w4 /\
               sent w5 = sent w4 ++ [SCI_LINEUP])
    by (repeat split).
  clearbody w5. destruct F5 as (E5 & D5 & S5).
  rewrite E5, C5, L5, U5, D5, S5, C4, U4, D4, S4, S2, Hs1.
  repeat split. rewrite <- !app_assoc. reflexivity.
Qed.

(* The cursor is on the first of the three lines when the caret is within
   it or at its end. *)
Lemma first_line_caret (d : Doc X) :
  content d = joinLines ["  hello "; "world  "; EmptyString]%string ->
  fst (getCursorPosition d) = 0%Z -> caret d <= 8.
Proof.
  intros Hc Hl. unfold getCursorPosition, caretLine, lineFromPosition in Hl.
  cbv zeta in Hl. cbn [fst] in Hl. rewrite Hc in Hl.
  destruct (le_gt_dec (caret d) 8) as [Hle|Hgt]; [exact Hle|].
  exfalso. replace (caret d) with (9 + (caret d - 9)) in Hl by lia.
  generalize dependent (caret d - 9). intros k Hl.
  vm_compute in Hl. discriminate Hl.
Qed.

(* The widget the body of the block starts on. *)
Lemma join_enter (w : Widget X) :
  undoDepth w = 0 ->
  let w0 := setReadOnly false (beginUndoAction w) in
  doc w0 = doc w /\ readOnly w0 = false /\ undoDepth w0 = 1 /\
  groupOpen w0 = false /\ numberList w0 = numberList w /\
  mode w0 = mode w /\ sent w0 = sent w.
Proof.
  intros Hd. unfold setReadOnly, beginUndoAction. rewrite Hd. cbn.
  repeat split.
Qed.

(* The widget the block leaves behind. *)
Lemma join_exit (w : Widget X) :
  undoDepth w = 1 ->
  let w' := setReadOnly true (endUndoAction w) in
  doc w' = doc w /\ readOnly w' = true /\ undoDepth w' = 0 /\
  mode w' = mode w /\ sent w' = sent w.
Proof.
  intros Hd. unfold setReadOnly, endUndoAction. rewrite Hd. cbn.
  repeat split.
Qed.

Lemma undo_content (g : list Action) (r : list (list Action)) (w : Widget X) :
  undoLog (doc w) = g :: r ->
  content (doc (undo w)) = restored g (content (doc w)).
Proof.
  intros H. unfold undo. cbv zeta. rewrite H.
  rewrite <- (undoGroup_restored g (content (doc w)) (caret (doc w))).
  reflexivity.
Qed.


End JoinKey.


